(** * SQL Server receiver: counter cache, ranked mappers, wait classifier

    A shallow embedding of [receiver/sqlserverreceiver/scraper.go].  The
    repository holds three revisions of that file:

    - [scraper.go], first copy (lines 1-620): an [int64] counter cache and the
      QueryTextAndPlan log mapper.  Embedded in [Module Scraper].
    - [scraper.go], second copy (lines 637-1606): a [float64] counter cache,
      the QueryMetrics, QueryTextAndPlan and QuerySamples mappers and the
      wait classifier.  Embedded in [Module ScraperF].
    - [unnamed/part_004]: an [int64] cache again, with all three mappers.
      Embedded in [Module Part004].

    Go values are modelled as follows: [int64] as [Z] with the wrap-around of
    subtraction written out, [float64] as the primitive binary64 [float],
    [string] and [[]byte] as [string] (a list of bytes), a row
    ([sqlquery.StringMap]) as an association list from column names to cells,
    a log record as the list of its attributes in insertion order.  Logging
    has no effect on results and is left out.  The LRU cache, [sort.Slice],
    [encoding/hex], [strconv] and [encoding/xml] belong to libraries outside
    the repository; the first four are written out from their documented
    behaviour, the XML decoder and encoder are parameters. *)

From Stdlib Require Import ZArith List String Ascii Bool Lia PeanoNat.
From Stdlib Require Import Permutation Sorted Floats.
Import ListNotations.

Local Open Scope string_scope.
Local Open Scope Z_scope.

(** ** Go's [int64] *)

Module Int64.

Definition min : Z := - 2 ^ 63.
Definition max : Z := 2 ^ 63 - 1.

Definition in_range (x : Z) : Prop := min <= x <= max.

Definition in_rangeb (x : Z) : bool := (min <=? x) && (x <=? max).

(** Two's complement wrap-around of an exact result. *)
Definition wrap (x : Z) : Z := (x + 2 ^ 63) mod 2 ^ 64 - 2 ^ 63.

Definition sub (a b : Z) : Z := wrap (a - b).

(** Go's [/] on integers truncates toward zero. *)
Definition div (a b : Z) : Z := wrap (Z.quot a b).

End Int64.

(** ** [hashicorp/golang-lru/v2]: the cache behind [s.cache]

    [items] is the eviction list, most recently used entry first.  [Get]
    moves a hit to the front; [Add] updates and moves an existing key to the
    front, and otherwise pushes a new entry and drops the oldest one when the
    length exceeds [size].  [New] refuses a size that is not positive. *)

Module lru.
Section Cache.

Context {V : Type}.

Record Cache : Type := mkCache { size : nat; items : list (string * V) }.

Definition New (n : nat) : option Cache :=
  match n with
  | O => None
  | S _ => Some (mkCache n [])
  end.

Fixpoint find (k : string) (l : list (string * V)) : option V :=
  match l with
  | [] => None
  | (k', v) :: l' => if String.eqb k k' then Some v else find k l'
  end.

Fixpoint remove (k : string) (l : list (string * V)) : list (string * V) :=
  match l with
  | [] => []
  | (k', v) :: l' =>
      if String.eqb k k' then l' else (k', v) :: remove k l'
  end.

(** [Peek]: the stored value, without touching recency. *)
Definition Peek (k : string) (c : Cache) : option V := find k (items c).

Definition Get (k : string) (c : Cache) : Cache * option V :=
  match find k (items c) with
  | Some v => (mkCache (size c) ((k, v) :: remove k (items c)), Some v)
  | None => (c, None)
  end.

Definition Add (k : string) (v : V) (c : Cache) : Cache * bool :=
  match find k (items c) with
  | Some _ => (mkCache (size c) ((k, v) :: remove k (items c)), false)
  | None =>
      let pushed := (k, v) :: items c in
      if (size c <? List.length pushed)%nat
      then (mkCache (size c) (removelast pushed), true)
      else (mkCache (size c) pushed, false)
  end.

Definition keys (c : Cache) : list string := map fst (items c).

End Cache.
Arguments Cache V : clear implicits.
End lru.

(** ** The counter cache of the [int64] revisions

    [scraper.go:562-586] and [part_004:844-872] are the same text. *)

Definition counterKey (queryHash queryPlanHash column : string) : string :=
  queryHash ++ "-" ++ queryPlanHash ++ "-" ++ column.

Definition cacheAndDiff (cache : option (lru.Cache Z))
    (queryHash queryPlanHash column : string) (val : Z)
  : option (lru.Cache Z) * (bool * Z) :=
  match cache with
  | None => (None, (false, 0))
  | Some c =>
      if val <? 0 then (Some c, (false, 0))
      else
        let key := counterKey queryHash queryPlanHash column in
        match lru.Get key c with
        | (c1, None) => (Some (fst (lru.Add key val c1)), (false, val))
        | (c1, Some cached) =>
            if cached <? val
            then (Some (fst (lru.Add key val c1)), (true, Int64.sub val cached))
            else (Some c1, (true, 0))
        end
  end.

(** ** [encoding/hex] *)

Module hex.

Definition hextable : string := "0123456789abcdef".

Definition digit (n : N) : ascii :=
  match String.get (N.to_nat n) hextable with
  | Some c => c
  | None => "0"%char
  end.

(** [hex.EncodeToString([]byte(src))]: two lower-case digits per byte,
    [hextable[v>>4]] then [hextable[v&0x0f]]. *)
Fixpoint EncodeToString (src : string) : string :=
  match src with
  | EmptyString => EmptyString
  | String v rest =>
      String (digit (N.shiftr (N_of_ascii v) 4))
        (String (digit (N.land (N_of_ascii v) 15)) (EncodeToString rest))
  end.

End hex.

(** ** Errors *)

Inductive error : Type :=
| ErrSyntax (fn num : string)          (* strconv: invalid syntax *)
| ErrRange (fn num : string)           (* strconv: value out of range *)
| ErrRow (i : nat) (e : error)         (* fmt.Errorf("row %d: %w", i, err) *)
| ErrWrap (msg : string) (e : error)   (* fmt.Errorf("...: %w", err) *)
| ErrMsg (msg : string).               (* any other error *)

Module errors.

(** [errors.Join] is nil when it is given no error, and otherwise an
    error that wraps the given ones in order. *)
Definition Join (errs : list error) : option (list error) :=
  match errs with
  | [] => None
  | _ => Some errs
  end.

End errors.

(** ** [strconv.ParseInt(s, 10, 64)] and [strconv.Atoi] *)

Module strconv.

Definition maxUint64 : Z := 2 ^ 64 - 1.

Definition digitOf (c : ascii) : option Z :=
  let n := Z.of_N (N_of_ascii c) in
  if (48 <=? n) && (n <=? 57) then Some (n - 48) else None.

Inductive uintResult : Type :=
| UOk (n : Z)
| USyntax
| URange.

(** The digit loop of [ParseUint] for base 10: a byte that is no digit is a
    syntax error, an overflow is a range error as soon as it is met. *)
Fixpoint parseUintLoop (s : string) (n : Z) : uintResult :=
  match s with
  | EmptyString => UOk n
  | String c rest =>
      match digitOf c with
      | None => USyntax
      | Some d =>
          if maxUint64 / 10 + 1 <=? n then URange
          else
            let n1 := n * 10 + d in
            if maxUint64 <? n1 then URange else parseUintLoop rest n1
      end
  end.

Definition ParseUint (s : string) : uintResult :=
  match s with
  | EmptyString => USyntax
  | _ => parseUintLoop s 0
  end.

Definition parseSigned (fn : string) (s : string) : Z * option error :=
  match s with
  | EmptyString => (0, Some (ErrSyntax fn s))
  | String c rest =>
      let neg := Ascii.eqb c "-" in
      let body := if Ascii.eqb c "+" || Ascii.eqb c "-" then rest else s in
      let cutoff := 2 ^ 63 in
      match ParseUint body with
      | USyntax => (0, Some (ErrSyntax fn s))
      | URange =>
          if neg then (- cutoff, Some (ErrRange fn s))
          else (cutoff - 1, Some (ErrRange fn s))
      | UOk un =>
          if negb neg && (cutoff <=? un) then (cutoff - 1, Some (ErrRange fn s))
          else if neg && (cutoff <? un) then (- cutoff, Some (ErrRange fn s))
          else (if neg then - un else un, None)
      end
  end.

Definition ParseInt (s : string) : Z * option error := parseSigned "ParseInt" s.

(** [Atoi] is [ParseInt(s, 10, 0)] on a 64-bit [int], reported as "Atoi". *)
Definition Atoi (s : string) : Z * option error := parseSigned "Atoi" s.

End strconv.

(** ** [strings.HasPrefix] *)

Module strings.

Definition HasPrefix (s pre : string) : bool := String.prefix pre s.

End strings.

(** ** Rows: [sqlquery.StringMap], a Go [map[string]string] *)

Definition StringMap : Type := list (string * string).

(** [row[key]]: the zero value [""] for a missing key. *)
Fixpoint cell (row : StringMap) (key : string) : string :=
  match row with
  | [] => ""
  | (k, v) :: rest => if String.eqb key k then v else cell rest key
  end.

(** What [client.QueryRows] hands back besides the rows. *)
Inductive queryError : Type :=
| ErrNullValueWarning
| HardError (msg : string).

Definition computerNameKey : string := "computer_name".
Definition instanceNameKey : string := "sql_instance".

(** ** [sort.Slice]

    [sort.Slice(x, less)] reorders [x] in place.  Every comparator of the
    scraper compares the elements found at the two positions, so the
    comparator is modelled on elements.  The Go documentation promises a
    sorted permutation and explicitly no stability; [Slice_contract] is that
    promise.  On slices of at most twelve elements the implementation is the
    insertion sort [insertionSort]. *)

Module sort.

Definition strictWeak {A : Type} (less : A -> A -> bool) : Prop :=
  (forall a b, less a b = true -> less b a = false) /\
  (forall a b c, less a b = false -> less b c = false -> less a c = false).

Record Slice_contract
    (Slice : forall A : Type, (A -> A -> bool) -> list A -> list A) : Prop :=
  { Slice_perm :
      forall (A : Type) (less : A -> A -> bool) (x : list A),
        Permutation x (Slice A less x);
    Slice_sorted :
      forall (A : Type) (less : A -> A -> bool) (x : list A),
        strictWeak less ->
        StronglySorted (fun a b => less b a = false) (Slice A less x) }.

(** [insertionSortLessFunc]: [data[i]] moves left while it is less than its
    left neighbour.  [insertBack] works on the sorted prefix reversed. *)
Fixpoint insertBack {A : Type} (less : A -> A -> bool) (x : A)
    (rprefix : list A) : list A :=
  match rprefix with
  | [] => [x]
  | y :: r => if less x y then y :: insertBack less x r else x :: rprefix
  end.

Definition insertionSort (A : Type) (less : A -> A -> bool) (x : list A)
  : list A :=
  rev (fold_left (fun acc e => insertBack less e acc) x []).

(** *** [pdqsort_func] on thirteen elements

    Above twelve elements [sort.Slice] runs pattern-defeating quicksort.  On
    thirteen elements that is one round: [choosePivot_func] takes the median
    of the elements at positions 3, 6 and 9 and counts the exchanges,
    [partialInsertionSort_func] returns at once when no element is less than
    its left neighbour (it moves nothing on fewer than fifty elements),
    [partition_func] splits around the pivot, and both parts, of at most
    twelve elements, are insertion sorted.  [pdqsort] is exact for slices of
    at most thirteen elements; on longer ones insertion sort stands in for
    the further rounds. *)

Fixpoint update {A : Type} (i : nat) (x : A) (l : list A) : list A :=
  match l, i with
  | [], _ => []
  | _ :: t, O => x :: t
  | h :: t, S i' => h :: update i' x t
  end.

(** [data.Swap(i, j)] *)
Definition swap {A : Type} (data : list A) (i j : nat) : list A :=
  match nth_error data i, nth_error data j with
  | Some x, Some y => update j x (update i y data)
  | _, _ => data
  end.

(** [data.Less(i, j)] *)
Definition lessAt {A : Type} (less : A -> A -> bool) (data : list A)
    (i j : nat) : bool :=
  match nth_error data i, nth_error data j with
  | Some x, Some y => less x y
  | _, _ => false
  end.

(** [order2_func]: the two positions in order, and the exchanges counted. *)
Definition order2 (lessAt : nat -> nat -> bool) (a b swaps : nat)
  : nat * nat * nat :=
  if lessAt b a then (b, a, S swaps) else (a, b, swaps).

(** [median_func] *)
Definition median (lessAt : nat -> nat -> bool) (a b c swaps : nat)
  : nat * nat :=
  let '(a, b, swaps) := order2 lessAt a b swaps in
  let '(b, c, swaps) := order2 lessAt b c swaps in
  let '(a, b, swaps) := order2 lessAt a b swaps in
  (b, swaps).

(** [choosePivot_func] for a length from 8 to 49: the pivot and the number of
    exchanges; no exchange is the hint "increasing". *)
Definition choosePivot (lessAt : nat -> nat -> bool) (a b : nat) : nat * nat :=
  let l := (b - a)%nat in
  median lessAt (a + l / 4 * 1)%nat (a + l / 4 * 2)%nat (a + l / 4 * 3)%nat 0%nat.

(** The scan of [partialInsertionSort_func]: no position from [i] on holds
    an element less than its left neighbour. *)
Fixpoint inOrderFrom (lessAt : nat -> nat -> bool) (fuel i b : nat) : bool :=
  match fuel with
  | O => true
  | S fuel' =>
      if (i <? b)%nat
      then if lessAt i (i - 1)%nat then false
           else inOrderFrom lessAt fuel' (S i) b
      else true
  end.

(** [for i <= j && data.Less(i, a) { i++ }] *)
Fixpoint scanUp (lessAt : nat -> nat -> bool) (fuel a i j : nat) : nat :=
  match fuel with
  | O => i
  | S fuel' =>
      if (i <=? j)%nat && lessAt i a then scanUp lessAt fuel' a (S i) j else i
  end.

(** [for i <= j && !data.Less(j, a) { j-- }] *)
Fixpoint scanDown (lessAt : nat -> nat -> bool) (fuel a i j : nat) : nat :=
  match fuel with
  | O => j
  | S fuel' =>
      if (i <=? j)%nat && negb (lessAt j a)
      then scanDown lessAt fuel' a i (j - 1)%nat else j
  end.

(** The loop of [partition_func]; its first pass is the stretch before the
    loop in the source, which differs only in the flag it reports. *)
Fixpoint partitionLoop {A : Type} (less : A -> A -> bool) (fuel : nat)
    (data : list A) (a i j : nat) : list A * nat :=
  match fuel with
  | O => (data, j)
  | S fuel' =>
      let i := scanUp (lessAt less data) (List.length data) a i j in
      let j := scanDown (lessAt less data) (List.length data) a i j in
      if (j <? i)%nat then (data, j)
      else partitionLoop less fuel' (swap data i j) a (S i) (j - 1)%nat
  end.

(** [partition_func]: the data and the new position of the pivot. *)
Definition partition {A : Type} (less : A -> A -> bool) (data : list A)
    (a b pivot : nat) : list A * nat :=
  let data := swap data a pivot in
  let '(data, j) :=
    partitionLoop less (List.length data) data a (S a) (b - 1)%nat in
  (swap data j a, j).

Definition pdqsort (A : Type) (less : A -> A -> bool) (x : list A) : list A :=
  let n := List.length x in
  if (n <=? 12)%nat then insertionSort A less x
  else
    let '(pivot, swaps) := choosePivot (lessAt less x) 0 n in
    if (swaps =? 0)%nat && inOrderFrom (lessAt less x) n 1 n then x
    else
      let '(data, mid) := partition less x 0 n pivot in
      List.app (insertionSort A less (firstn mid data))
        (List.app (firstn 1 (skipn mid data))
           (insertionSort A less (skipn (S mid) data))).

End sort.

(** ** [bytes.TrimSpace]

    Leading and trailing white space runes are cut off: the six ASCII ones
    and the UTF-8 encodings of U+0085, U+00A0, U+1680, U+2000..U+200A,
    U+2028, U+2029, U+202F, U+205F and U+3000. *)

Module bytes.

Definition b (n : nat) : ascii := ascii_of_nat n.

Definition str (l : list nat) : string := string_of_list_ascii (map b l).

Definition spaceRunes : list string :=
  map str
    (List.app
       [[9]; [10]; [11]; [12]; [13]; [32]; [194; 133]; [194; 160];
        [225; 154; 128]]
       (List.app
          (map (fun k => [226; 128; 128 + k]) (seq 0 11))
          [[226; 128; 168]; [226; 128; 169]; [226; 128; 175];
           [226; 129; 159]; [227; 128; 128]]))%nat.

Fixpoint stripPrefix (pre s : string) : option string :=
  match pre, s with
  | EmptyString, _ => Some s
  | String a pre', String c s' =>
      if Ascii.eqb a c then stripPrefix pre' s' else None
  | String _ _, EmptyString => None
  end.

Fixpoint stripAny (runes : list string) (s : string) : option string :=
  match runes with
  | [] => None
  | r :: runes' =>
      match stripPrefix r s with
      | Some s' => Some s'
      | None => stripAny runes' s
      end
  end.

Fixpoint trimLeftFuel (runes : list string) (fuel : nat) (s : string)
  : string :=
  match fuel with
  | O => s
  | S fuel' =>
      match stripAny runes s with
      | Some s' => trimLeftFuel runes fuel' s'
      | None => s
      end
  end.

Definition revString (s : string) : string :=
  string_of_list_ascii (rev (list_ascii_of_string s)).

Definition trimLeft (s : string) : string :=
  trimLeftFuel spaceRunes (String.length s) s.

Definition trimRight (s : string) : string :=
  revString
    (trimLeftFuel (map revString spaceRunes) (String.length s) (revString s)).

Definition TrimSpace (s : string) : string := trimRight (trimLeft s).

End bytes.

(** ** [encoding/xml] tokens *)

Module xml.

Record Name : Type := mkName { Space : string; Local : string }.

Record Attr : Type := mkAttr { AttrName : Name; Value : string }.

Inductive Token : Type :=
| StartElement (name : Name) (attr : list Attr)
| EndElement (name : Name)
| CharData (data : string)
| Comment (data : string)
| ProcInst (target inst : string)
| Directive (data : string).

(** How [Decoder.Token] stops: [io.EOF] at the end of a well-formed input,
    any other error before. *)
Inductive stop : Type :=
| EOF
| Fail (e : error).

End xml.

(** ** [pdata]: attribute maps, log records, logs *)

Module pcommon.

Inductive Value : Type :=
| Str (s : string)
| Int (n : Z)
| Double (f : float).

Definition Map : Type := list (string * Value).

(** [PutStr], [PutInt], [PutDouble]: insert, or update in place. *)
Fixpoint Put (k : string) (v : Value) (m : Map) : Map :=
  match m with
  | [] => [(k, v)]
  | (k', v') :: rest =>
      if String.eqb k k' then (k, v) :: rest else (k', v') :: Put k v rest
  end.

Fixpoint Get (k : string) (m : Map) : option Value :=
  match m with
  | [] => None
  | (k', v) :: rest => if String.eqb k k' then Some v else Get k rest
  end.

End pcommon.

Module plog.

Record LogRecord : Type :=
  mkLogRecord { Attributes : pcommon.Map; Body : string }.

Record ScopeLogs : Type :=
  mkScopeLogs { ScopeName : string; ScopeVersion : string;
                LogRecords : list LogRecord }.

Record ResourceLogs : Type :=
  mkResourceLogs { ResourceAttributes : pcommon.Map;
                   Scopes : list ScopeLogs }.

Definition Logs : Type := list ResourceLogs.

Definition NewLogs : Logs := [].

(** [logs.ResourceLogs().AppendEmpty().ScopeLogs().AppendEmpty()
    .LogRecords().AppendEmpty()], filled in with [r]. *)
Definition appendInOwnResource (logs : Logs) (r : LogRecord) : Logs :=
  List.app logs [mkResourceLogs [] [mkScopeLogs "" "" [r]]].

Definition records (logs : Logs) : list LogRecord :=
  flat_map (fun rl => flat_map LogRecords (Scopes rl)) logs.

Definition LogRecordCount (logs : Logs) : nat := List.length (records logs).

End plog.

(** ** What the scraper is given from outside

    The SQL obfuscator, the XML decoder and encoder, [strconv.ParseFloat],
    the float to integer conversion of the target and [sort.Slice] are
    libraries.  The wait type tables [detailedWaitTypes] and [waitTypes] and
    the query catalog are declared in files of the receiver that are not part
    of the sources at hand; the dispatch only compares catalog outputs, the
    classifier only looks the tables up. *)

Record Env : Type := mkEnv {
  Slice : forall A : Type, (A -> A -> bool) -> list A -> list A;
  obfuscateSQL : string -> string * option error;
  (* xml.NewDecoder(strings.NewReader(raw)): the tokens up to the first error *)
  NewDecoder : string -> list xml.Token * xml.stop;
  Encoder : Type;
  NewEncoder : Encoder;
  EncodeToken : Encoder -> xml.Token -> Encoder + error;
  Flush : Encoder -> Encoder + error;
  bufferString : Encoder -> string;
  ParseFloat : string -> float * option error;      (* bitSize 64 *)
  ParseFloat32 : string -> float * option error;    (* bitSize 32 *)
  int64OfFloat : float -> Z;                        (* int64(f) *)
  float64OfInt : Z -> float;                        (* float64(n) *)
  detailedWaitTypes : string -> option nat;
  waitTypes : nat -> string;
  getSQLServerDatabaseIOQuery : string -> string;
  getSQLServerPerformanceCounterQuery : string -> string;
  getSQLServerPropertiesQuery : string -> string;
  getSQLServerQueryMetricsQuery : string -> Z -> Z -> string;
  getSQLServerQueryTextAndPlanQuery : string -> Z -> Z -> string;
  getSQLServerQuerySamplesQuery : string
}.

(** ** [obfuscateXMLPlan], [scraper.go:493-560]

    [scraper.go:1441-1508] and [part_004] hold the same loop. *)

Definition XMLPlanObfuscationAttrs : list string :=
  ["StatementText"; "ConstValue"; "ScalarString"; "ParameterCompiledValue"].

(** The inner loop over [XMLPlanObfuscationAttrs] for one attribute: the value
    is overwritten by what the obfuscator returned, also when it failed. *)
Definition obfuscateAttr (env : Env) (a : xml.Attr) : xml.Attr :=
  fold_left
    (fun (a : xml.Attr) (attrName : string) =>
       if String.eqb (xml.Local (xml.AttrName a)) attrName
       then xml.mkAttr (xml.AttrName a) (fst (obfuscateSQL env (xml.Value a)))
       else a)
    XMLPlanObfuscationAttrs a.

(** The token handed to [encoder.EncodeToken] for a decoded token. *)
Definition rewriteToken (env : Env) (t : xml.Token) : xml.Token :=
  match t with
  | xml.StartElement name attr =>
      xml.StartElement name (map (obfuscateAttr env) attr)
  | xml.CharData data => xml.CharData (bytes.TrimSpace data)
  | xml.EndElement name => xml.EndElement name
  | other => other
  end.

Fixpoint encodeLoop (env : Env) (rewrite : xml.Token -> xml.Token)
    (enc : Encoder env) (tokens : list xml.Token) : Encoder env + error :=
  match tokens with
  | [] => inl enc
  | t :: rest =>
      match EncodeToken env enc (rewrite t) with
      | inl enc' => encodeLoop env rewrite enc' rest
      | inr e => inr e
      end
  end.

Definition encodePlan (env : Env) (rewrite : xml.Token -> xml.Token)
    (rawPlan : string) : string * option error :=
  let '(tokens, stop) := NewDecoder env rawPlan in
  match encodeLoop env rewrite (NewEncoder env) tokens with
  | inr e => ("", Some e)
  | inl enc =>
      match stop with
      | xml.Fail e => ("", Some e)
      | xml.EOF =>
          match Flush env enc with
          | inr e => ("", Some e)
          | inl enc' => (bufferString env enc', None)
          end
      end
  end.

Definition obfuscateXMLPlan (env : Env) (rawPlan : string)
  : string * option error :=
  encodePlan env (rewriteToken env) rawPlan.

(** Decoding a plan and encoding its tokens as they are: the re-serialisation
    against which [obfuscateXMLPlan] is compared. *)
Definition reserializeXML (env : Env) (rawPlan : string)
  : string * option error :=
  encodePlan env (fun t => t) rawPlan.

(** ** [sortRows], [scraper.go:588-609]

    [None] is the run-time panic of an index out of range, which needs more
    values than rows.  With fewer values the tail of the result holds nil
    maps. *)

Definition sortedIndices (env : Env) (values : list Z) : list nat :=
  let indices := seq 0 (List.length values) in
  Slice env nat (fun a b => nth b values 0 <? nth a values 0) indices.

Definition sortRows (env : Env) (rows : list StringMap) (values : list Z)
  : option (list StringMap) :=
  let indices := sortedIndices env values in
  if (List.length rows <? List.length values)%nat then None
  else
    Some (List.app (map (fun idx => nth idx rows []) indices)
            (repeat [] (List.length rows - List.length values))).

(** [sort.Slice(totalElapsedTimeDiffs, func(i, j) { d[i] > d[j] })] *)
Definition sortDiffs (env : Env) (diffs : list Z) : list Z :=
  Slice env Z (fun a b => b <? a) diffs.

(** [int(topQueryCount)]: a [uint] read as an [int]. *)
Definition intOfUint (n : Z) : Z := Int64.wrap n.

(** ** The metrics builder

    Modelled from the spec: the generated [internal/metadata] package is not
    among the sources.  The spec (section 3, MetricsBatch) has the core call
    named [Record*DataPoint(timestamp, value)] operations and
    [EmitForResource(resource)] "to commit a resource-scoped set"; a data
    point is kept under the name of its operation, and committing moves the
    points recorded so far under the given resource. *)

Module metadata.

Record DataPoint : Type := mkDataPoint { metric : string; value : pcommon.Value }.

Record ResourceMetrics : Type :=
  mkResourceMetrics { resource : pcommon.Map; points : list DataPoint }.

Record MetricsBuilder : Type :=
  mkMetricsBuilder { pending : list DataPoint; buffer : list ResourceMetrics }.

Definition NewMetricsBuilder : MetricsBuilder := mkMetricsBuilder [] [].

Definition RecordDataPoint (name : string) (v : pcommon.Value)
    (mb : MetricsBuilder) : MetricsBuilder :=
  mkMetricsBuilder (List.app (pending mb) [mkDataPoint name v]) (buffer mb).

Definition EmitForResource (res : pcommon.Map) (mb : MetricsBuilder)
  : MetricsBuilder :=
  mkMetricsBuilder []
    (List.app (buffer mb) [mkResourceMetrics res (pending mb)]).

(** [mb.Emit()]: what was committed, and the builder reset. *)
Definition Emit (mb : MetricsBuilder)
  : list ResourceMetrics * MetricsBuilder :=
  (buffer mb, NewMetricsBuilder).

End metadata.

Record metricState : Type := mkMetricState {
  ms_cache : option (lru.Cache Z);
  ms_errs : list error;
  ms_mb : metadata.MetricsBuilder
}.

(** ** The scraper instance

    [client] is what [s.client.QueryRows(ctx)] returns in the scrape at hand.
    The three mappers of the database IO, performance counter and server
    property queries are referred to by the dispatch only. *)

Record sqlServerScraperHelper : Type := mkHelper {
  sqlQuery : string;
  instanceName : string;
  maxQuerySampleCount : Z;
  lookbackTime : Z;
  topQueryCount : Z;
  client : list StringMap * option queryError;
  mb : metadata.MetricsBuilder;
  cache : option (lru.Cache Z)
}.

Definition withCache (s : sqlServerScraperHelper) (c : option (lru.Cache Z))
  : sqlServerScraperHelper :=
  mkHelper (sqlQuery s) (instanceName s) (maxQuerySampleCount s)
    (lookbackTime s) (topQueryCount s) (client s) (mb s) c.

Definition withBuilder (s : sqlServerScraperHelper)
    (b : metadata.MetricsBuilder) : sqlServerScraperHelper :=
  mkHelper (sqlQuery s) (instanceName s) (maxQuerySampleCount s)
    (lookbackTime s) (topQueryCount s) (client s) b (cache s).

Definition metricMapper : Type :=
  sqlServerScraperHelper -> sqlServerScraperHelper * option (list error).

(** The tail of [ScrapeMetrics]: an error of the mapper gives empty metrics,
    otherwise the builder is emitted. *)
Definition finishMetrics (r : sqlServerScraperHelper * option (list error))
  : sqlServerScraperHelper
    * (list metadata.ResourceMetrics * option (list error)) :=
  match snd r with
  | Some e => (fst r, ([], Some e))
  | None =>
      let '(metrics, b) := metadata.Emit (mb (fst r)) in
      (withBuilder (fst r) b, (metrics, None))
  end.

Definition unsupportedMetrics (query : string) : list error :=
  [ErrMsg ("Attempted to get metrics from unsupported query: " ++ query)].

Definition unsupportedLogs (query : string) : list error :=
  [ErrMsg ("Attempted to get logs from unsupported query: " ++ query)].

(** ** State threaded through the emission loop of a ranked log mapper *)

Record rowState : Type := mkRowState {
  rs_cache : option (lru.Cache Z);
  rs_errs : list error;
  rs_attrs : pcommon.Map
}.

Record logState : Type := mkLogState {
  ls_cache : option (lru.Cache Z);
  ls_errs : list error;
  ls_logs : plog.Logs
}.

Definition appendErr (errs : list error) (err : option error)
    (wrap : error -> error) : list error :=
  match err with
  | Some e => List.app errs [wrap e]
  | None => errs
  end.

(** ** The first copy of [scraper.go]: QueryTextAndPlan, lines 336-491 *)

Module Scraper.

(** Lines 359-372: one [cacheAndDiff] per row on the elapsed time in
    milliseconds; a slot stays 0 unless the key was cached and the
    difference is positive. *)
Fixpoint elapsedDiffs (cache : option (lru.Cache Z)) (rows : list StringMap)
  : option (lru.Cache Z) * list Z :=
  match rows with
  | [] => (cache, [])
  | row :: rest =>
      let queryHashVal := hex.EncodeToString (cell row "query_hash") in
      let queryPlanHashVal :=
        hex.EncodeToString (cell row "query_plan_hash") in
      let '(elapsedTime, err) :=
        strconv.ParseInt (cell row "total_elapsed_time") in
      let '(cache1, d) :=
        match err with
        | Some _ => (cache, 0)
        | None =>
            let '(cache1, (cached, diff)) :=
              cacheAndDiff cache queryHashVal queryPlanHashVal
                "total_elapsed_time" (Int64.div elapsedTime 1000) in
            (cache1, if cached && (0 <? diff) then diff else 0)
        end in
      let '(cache2, ds) := elapsedDiffs cache1 rest in
      (cache2, d :: ds)
  end.

(** [total_rows], [total_logical_reads], [total_logical_writes],
    [total_physical_reads] (lines 408-438): a failed parse is recorded and
    the value it left is still passed on. *)
Definition counterStep (i : nat) (queryHashVal queryPlanHashVal : string)
    (column : string) (row : StringMap) (st : rowState) : rowState :=
  let '(val, err) := strconv.ParseInt (cell row column) in
  let errs := appendErr (rs_errs st) err (ErrRow i) in
  let '(cache1, (cached, diff)) :=
    cacheAndDiff (rs_cache st) queryHashVal queryPlanHashVal column val in
  mkRowState cache1 errs
    (if cached && (0 <? diff)
     then pcommon.Put column (pcommon.Int diff) (rs_attrs st)
     else rs_attrs st).

(** [execution_count], [total_worker_time], [total_grant_kb] (lines
    440-472): a failed parse is recorded and the column is skipped. *)
Definition parsedCounterStep (queryHashVal queryPlanHashVal : string)
    (column : string) (scale : Z -> Z) (row : StringMap) (st : rowState)
  : rowState :=
  let '(val, err) := strconv.ParseInt (cell row column) in
  match err with
  | Some e => mkRowState (rs_cache st) (List.app (rs_errs st) [e]) (rs_attrs st)
  | None =>
      let '(cache1, (cached, diff)) :=
        cacheAndDiff (rs_cache st) queryHashVal queryPlanHashVal column
          (scale val) in
      mkRowState cache1 (rs_errs st)
        (if cached && (0 <? diff)
         then pcommon.Put column (pcommon.Int diff) (rs_attrs st)
         else rs_attrs st)
  end.

Definition textStep (attr : string)
    (obfuscate : string -> string * option error) (text : string)
    (st : rowState) : rowState :=
  let '(obfuscated, err) := obfuscate text in
  mkRowState (rs_cache st) (appendErr (rs_errs st) err (fun e => e))
    (pcommon.Put attr (pcommon.Str obfuscated) (rs_attrs st)).

(** Lines 392-487: the attributes of the record of the row at position [i],
    with the cache and the errors the row leaves. *)
Definition rowRecord (env : Env) (i : nat) (row : StringMap) (diff : Z)
    (cache : option (lru.Cache Z)) (errs : list error) : rowState :=
  let queryHashVal := hex.EncodeToString (cell row "query_hash") in
  let queryPlanHashVal := hex.EncodeToString (cell row "query_plan_hash") in
  let attrs :=
    pcommon.Put "total_elapsed_time" (pcommon.Int diff)
      (pcommon.Put "query_plan_hash" (pcommon.Str queryPlanHashVal)
         (pcommon.Put "query_hash" (pcommon.Str queryHashVal)
            (pcommon.Put instanceNameKey
               (pcommon.Str (cell row instanceNameKey))
               (pcommon.Put computerNameKey
                  (pcommon.Str (cell row computerNameKey)) [])))) in
  let s0 := mkRowState cache errs attrs in
  let s1 := counterStep i queryHashVal queryPlanHashVal "total_rows" row s0 in
  let s2 :=
    counterStep i queryHashVal queryPlanHashVal "total_logical_reads" row s1 in
  let s3 :=
    counterStep i queryHashVal queryPlanHashVal "total_logical_writes" row s2 in
  let s4 :=
    counterStep i queryHashVal queryPlanHashVal "total_physical_reads" row s3 in
  let s5 :=
    parsedCounterStep queryHashVal queryPlanHashVal "execution_count"
      (fun v => v) row s4 in
  let s6 :=
    parsedCounterStep queryHashVal queryPlanHashVal "total_worker_time"
      (fun v => Int64.div v 1000) row s5 in
  let s7 :=
    parsedCounterStep queryHashVal queryPlanHashVal "total_grant_kb"
      (fun v => v) row s6 in
  let s8 := textStep "query_text" (obfuscateSQL env) (cell row "text") s7 in
  textStep "normalized_query_plan" (obfuscateXMLPlan env)
    (cell row "query_plan") s8.

Definition emitRow (env : Env) (i : nat) (row : StringMap) (diff : Z)
    (st : logState) : logState :=
  let s := rowRecord env i row diff (ls_cache st) (ls_errs st) in
  mkLogState (rs_cache s) (rs_errs s)
    (plog.appendInOwnResource (ls_logs st)
       (plog.mkLogRecord (rs_attrs s) "")).

(** Lines 382-390: stop at position [topQueryCount], skip a zero slot.
    [None] is an index out of range on [totalElapsedTimeDiffs]. *)
Fixpoint emitLoop (env : Env) (topQueryCount : Z) (i : nat)
    (rows : list StringMap) (diffs : list Z) (st : logState)
  : option logState :=
  match rows with
  | [] => Some st
  | row :: rest =>
      if intOfUint topQueryCount <=? Z.of_nat i then Some st
      else
        match nth_error diffs i with
        | None => None
        | Some d =>
            if d =? 0 then emitLoop env topQueryCount (S i) rest diffs st
            else
              emitLoop env topQueryCount (S i) rest diffs
                (emitRow env i row d st)
        end
  end.

(** The mapper: the new cache with what is returned, or [None] for a
    run-time panic. *)
Definition recordDatabaseQueryTextAndPlan (env : Env)
    (cache : option (lru.Cache Z))
    (queryRows : list StringMap * option queryError) (topQueryCount : Z)
  : option (option (lru.Cache Z) * (plog.Logs * option (list error))) :=
  match snd queryRows with
  | Some (HardError msg) =>
      Some (cache,
            ([], Some [ErrWrap
                         "sqlServerScraperHelper failed getting metric rows"
                         (ErrMsg msg)]))
  | _ =>
      let rows := fst queryRows in
      let '(cache1, totalElapsedTimeDiffs) := elapsedDiffs cache rows in
      match sortRows env rows totalElapsedTimeDiffs with
      | None => None
      | Some rows =>
          let totalElapsedTimeDiffs := sortDiffs env totalElapsedTimeDiffs in
          match
            emitLoop env topQueryCount 0 rows totalElapsedTimeDiffs
              (mkLogState cache1 [] plog.NewLogs)
          with
          | None => None
          | Some st =>
              Some (ls_cache st, (ls_logs st, errors.Join (ls_errs st)))
          end
      end
  end.

(** *** The dispatch, lines 106-134 *)

Section Dispatch.

Variable env : Env.
Variables recordDatabaseIOMetrics recordDatabasePerfCounterMetrics
  recordDatabaseStatusMetrics : metricMapper.

Definition ScrapeMetrics (s : sqlServerScraperHelper)
  : sqlServerScraperHelper
    * (list metadata.ResourceMetrics * option (list error)) :=
  if String.eqb (sqlQuery s)
       (getSQLServerDatabaseIOQuery env (instanceName s))
  then finishMetrics (recordDatabaseIOMetrics s)
  else if String.eqb (sqlQuery s)
            (getSQLServerPerformanceCounterQuery env (instanceName s))
  then finishMetrics (recordDatabasePerfCounterMetrics s)
  else if String.eqb (sqlQuery s)
            (getSQLServerPropertiesQuery env (instanceName s))
  then finishMetrics (recordDatabaseStatusMetrics s)
  else (s, ([], Some (unsupportedMetrics (sqlQuery s)))).

Definition ScrapeLogs (s : sqlServerScraperHelper)
  : option (sqlServerScraperHelper * (plog.Logs * option (list error))) :=
  if String.eqb (sqlQuery s)
       (getSQLServerQueryTextAndPlanQuery env (instanceName s)
          (maxQuerySampleCount s) (lookbackTime s))
  then
    match
      recordDatabaseQueryTextAndPlan env (cache s) (client s)
        (topQueryCount s)
    with
    | None => None
    | Some (c, r) => Some (withCache s c, r)
    end
  else Some (s, ([], Some (unsupportedLogs (sqlQuery s)))).

End Dispatch.

End Scraper.

(** ** [unnamed/part_004]: QueryMetrics (lines 338-477) and QueryTextAndPlan
    (lines 479-652) *)

Module Part004.

(** Lines 362-376 and 505-521, the same loop in both mappers: as in the
    first copy of [scraper.go], and a failed parse is also recorded. *)
Fixpoint elapsedDiffs (cache : option (lru.Cache Z)) (errs : list error)
    (rows : list StringMap)
  : option (lru.Cache Z) * list error * list Z :=
  match rows with
  | [] => (cache, errs, [])
  | row :: rest =>
      let queryHashVal := hex.EncodeToString (cell row "query_hash") in
      let queryPlanHashVal :=
        hex.EncodeToString (cell row "query_plan_hash") in
      let '(elapsedTime, err) :=
        strconv.ParseInt (cell row "total_elapsed_time") in
      let '(cache1, errs1, d) :=
        match err with
        | Some e => (cache, List.app errs [e], 0)
        | None =>
            let '(cache1, (cached, diff)) :=
              cacheAndDiff cache queryHashVal queryPlanHashVal
                "total_elapsed_time" (Int64.div elapsedTime 1000) in
            (cache1, errs, if cached && (0 <? diff) then diff else 0)
        end in
      let '(cache2, errs2, ds) := elapsedDiffs cache1 errs1 rest in
      (cache2, errs2, d :: ds)
  end.

(** *** QueryMetrics *)

Definition metricStep (i : nat) (queryHashVal queryPlanHashVal : string)
    (column point : string) (row : StringMap) (st : metricState)
  : metricState :=
  let '(val, err) := strconv.ParseInt (cell row column) in
  let errs := appendErr (ms_errs st) err (ErrRow i) in
  let '(cache1, (cached, diff)) :=
    cacheAndDiff (ms_cache st) queryHashVal queryPlanHashVal column val in
  mkMetricState cache1 errs
    (if cached && (0 <? diff)
     then metadata.RecordDataPoint point (pcommon.Int diff) (ms_mb st)
     else ms_mb st).

Definition parsedMetricStep (queryHashVal queryPlanHashVal : string)
    (column point : string) (scale : Z -> Z) (row : StringMap)
    (st : metricState) : metricState :=
  let '(val, err) := strconv.ParseInt (cell row column) in
  match err with
  | Some e => mkMetricState (ms_cache st) (List.app (ms_errs st) [e]) (ms_mb st)
  | None =>
      let '(cache1, (cached, diff)) :=
        cacheAndDiff (ms_cache st) queryHashVal queryPlanHashVal column
          (scale val) in
      mkMetricState cache1 (ms_errs st)
        (if cached && (0 <? diff)
         then metadata.RecordDataPoint point (pcommon.Int diff) (ms_mb st)
         else ms_mb st)
  end.

(** Lines 396-474. *)
Definition emitMetricRow (i : nat) (row : StringMap) (diff : Z)
    (st : metricState) : metricState :=
  let queryHashVal := hex.EncodeToString (cell row "query_hash") in
  let queryPlanHashVal := hex.EncodeToString (cell row "query_plan_hash") in
  let rb :=
    pcommon.Put "sqlserver.query_plan_hash" (pcommon.Str queryPlanHashVal)
      (pcommon.Put "sqlserver.query_hash" (pcommon.Str queryHashVal)
         (pcommon.Put "sqlserver.instance_name"
            (pcommon.Str (cell row instanceNameKey))
            (pcommon.Put "sqlserver.computer_name"
               (pcommon.Str (cell row computerNameKey))
               (pcommon.Put "sqlserver.computer_name"
                  (pcommon.Str (cell row computerNameKey)) [])))) in
  let s0 :=
    mkMetricState (ms_cache st) (ms_errs st)
      (metadata.RecordDataPoint "SqlserverQueryTotalElapsedTime"
         (pcommon.Int diff) (ms_mb st)) in
  let s1 :=
    metricStep i queryHashVal queryPlanHashVal "total_rows"
      "SqlserverQueryReturnedRows" row s0 in
  let s2 :=
    metricStep i queryHashVal queryPlanHashVal "total_logical_reads"
      "SqlserverQueryTotalLogicalReads" row s1 in
  let s3 :=
    metricStep i queryHashVal queryPlanHashVal "total_logical_writes"
      "SqlserverQueryTotalLogicalWrites" row s2 in
  let s4 :=
    metricStep i queryHashVal queryPlanHashVal "total_physical_reads"
      "SqlserverQueryTotalPhysicalReads" row s3 in
  let s5 :=
    parsedMetricStep queryHashVal queryPlanHashVal "execution_count"
      "SqlserverQueryExecutionCount" (fun v => v) row s4 in
  let s6 :=
    parsedMetricStep queryHashVal queryPlanHashVal "total_worker_time"
      "SqlserverQueryTotalWorkerTime" (fun v => Int64.div v 1000) row s5 in
  let s7 :=
    parsedMetricStep queryHashVal queryPlanHashVal "total_grant_kb"
      "SqlserverQueryTotalGrantKb" (fun v => v) row s6 in
  mkMetricState (ms_cache s7) (ms_errs s7)
    (metadata.EmitForResource rb (ms_mb s7)).

(** Lines 386-394: stop at position [topQueryCount], skip a zero slot. *)
Fixpoint emitMetricLoop (topQueryCount : Z) (i : nat)
    (rows : list StringMap) (diffs : list Z) (st : metricState)
  : option metricState :=
  match rows with
  | [] => Some st
  | row :: rest =>
      if intOfUint topQueryCount <=? Z.of_nat i then Some st
      else
        match nth_error diffs i with
        | None => None
        | Some d =>
            if d =? 0 then emitMetricLoop topQueryCount (S i) rest diffs st
            else
              emitMetricLoop topQueryCount (S i) rest diffs
                (emitMetricRow i row d st)
        end
  end.

Definition recordDatabaseQueryMetrics (env : Env)
    (cache : option (lru.Cache Z)) (mb : metadata.MetricsBuilder)
    (queryRows : list StringMap * option queryError) (topQueryCount : Z)
  : option (option (lru.Cache Z) * metadata.MetricsBuilder
            * option (list error)) :=
  match snd queryRows with
  | Some (HardError msg) =>
      Some (cache, mb,
            Some [ErrWrap
                    "sqlServerScraperHelper failed getting metric rows"
                    (ErrMsg msg)])
  | _ =>
      let rows := fst queryRows in
      let '(cache1, errs, totalElapsedTimeDiffs) :=
        elapsedDiffs cache [] rows in
      match sortRows env rows totalElapsedTimeDiffs with
      | None => None
      | Some rows =>
          let totalElapsedTimeDiffs := sortDiffs env totalElapsedTimeDiffs in
          match
            emitMetricLoop topQueryCount 0 rows totalElapsedTimeDiffs
              (mkMetricState cache1 errs mb)
          with
          | None => None
          | Some st => Some (ms_cache st, ms_mb st, errors.Join (ms_errs st))
          end
      end
  end.

(** *** QueryTextAndPlan *)

Definition DBPrefix : string := "db.".

(** Lines 561-599: the attribute is put whenever the key was cached. *)
Definition counterStep (i : nat) (queryHashVal queryPlanHashVal : string)
    (column : string) (row : StringMap) (st : rowState) : rowState :=
  let '(val, err) := strconv.ParseInt (cell row column) in
  let errs := appendErr (rs_errs st) err (ErrRow i) in
  let '(cache1, (cached, diff)) :=
    cacheAndDiff (rs_cache st) queryHashVal queryPlanHashVal column val in
  mkRowState cache1 errs
    (if cached
     then pcommon.Put (DBPrefix ++ column) (pcommon.Int diff) (rs_attrs st)
     else rs_attrs st).

(** Lines 601-632. *)
Definition parsedCounterStep (i : nat)
    (queryHashVal queryPlanHashVal : string) (column : string)
    (scale : Z -> Z) (row : StringMap) (st : rowState) : rowState :=
  let '(val, err) := strconv.ParseInt (cell row column) in
  match err with
  | Some e =>
      mkRowState (rs_cache st) (List.app (rs_errs st) [ErrRow i e])
        (rs_attrs st)
  | None =>
      let '(cache1, (cached, diff)) :=
        cacheAndDiff (rs_cache st) queryHashVal queryPlanHashVal column
          (scale val) in
      mkRowState cache1 (rs_errs st)
        (if cached
         then pcommon.Put (DBPrefix ++ column) (pcommon.Int diff) (rs_attrs st)
         else rs_attrs st)
  end.

Definition textStep (attr : string)
    (obfuscate : string -> string * option error) (text : string)
    (st : rowState) : rowState :=
  let '(obfuscated, err) := obfuscate text in
  mkRowState (rs_cache st) (appendErr (rs_errs st) err (fun e => e))
    (pcommon.Put attr (pcommon.Str obfuscated) (rs_attrs st)).

(** Lines 543-649: the attributes of the record of the row at position [i],
    with the cache and the errors the row leaves. *)
Definition rowRecord (env : Env) (i : nat) (row : StringMap) (diff : Z)
    (cache : option (lru.Cache Z)) (errs : list error) : rowState :=
  let queryHashVal := hex.EncodeToString (cell row "query_hash") in
  let queryPlanHashVal := hex.EncodeToString (cell row "query_plan_hash") in
  let attrs :=
    pcommon.Put (DBPrefix ++ "total_elapsed_time") (pcommon.Int diff)
      (pcommon.Put (DBPrefix ++ "query_plan_hash")
         (pcommon.Str queryPlanHashVal)
         (pcommon.Put (DBPrefix ++ "query_hash") (pcommon.Str queryHashVal)
            (pcommon.Put instanceNameKey
               (pcommon.Str (cell row instanceNameKey))
               (pcommon.Put computerNameKey
                  (pcommon.Str (cell row computerNameKey)) [])))) in
  let s0 := mkRowState cache errs attrs in
  let s1 := counterStep i queryHashVal queryPlanHashVal "total_rows" row s0 in
  let s2 :=
    counterStep i queryHashVal queryPlanHashVal "total_logical_reads" row s1 in
  let s3 :=
    counterStep i queryHashVal queryPlanHashVal "total_logical_writes" row s2 in
  let s4 :=
    counterStep i queryHashVal queryPlanHashVal "total_physical_reads" row s3 in
  let s5 :=
    parsedCounterStep i queryHashVal queryPlanHashVal "execution_count"
      (fun v => v) row s4 in
  let s6 :=
    parsedCounterStep i queryHashVal queryPlanHashVal "total_worker_time"
      (fun v => Int64.div v 1000) row s5 in
  let s7 :=
    parsedCounterStep i queryHashVal queryPlanHashVal "total_grant_kb"
      (fun v => v) row s6 in
  let s8 :=
    textStep (DBPrefix ++ "query_text") (obfuscateSQL env)
      (cell row "query_text") s7 in
  textStep (DBPrefix ++ "query_plan") (obfuscateXMLPlan env)
    (cell row "query_plan") s8.

Record scopeState : Type := mkScopeState {
  ss_cache : option (lru.Cache Z);
  ss_errs : list error;
  ss_records : list plog.LogRecord
}.

(** Lines 536-542: a position beyond [topQueryCount] is passed over; there
    is no test on the slot of [totalElapsedTimeDiffs]. *)
Fixpoint emitLoop (env : Env) (topQueryCount : Z) (i : nat)
    (rows : list StringMap) (diffs : list Z) (st : scopeState)
  : option scopeState :=
  match rows with
  | [] => Some st
  | row :: rest =>
      if intOfUint topQueryCount <? Z.of_nat i
      then emitLoop env topQueryCount (S i) rest diffs st
      else
        match nth_error diffs i with
        | None => None
        | Some d =>
            let s := rowRecord env i row d (ss_cache st) (ss_errs st) in
            emitLoop env topQueryCount (S i) rest diffs
              (mkScopeState (rs_cache s) (rs_errs s)
                 (List.app (ss_records st)
                    [plog.mkLogRecord (rs_attrs s) ""]))
        end
  end.

Definition scopeName : string :=
  "github.com/open-telemetry/opentelemetry-collector-contrib/receiver/sqlserverreceiver".

Definition recordDatabaseQueryTextAndPlan (env : Env)
    (cache : option (lru.Cache Z))
    (queryRows : list StringMap * option queryError) (topQueryCount : Z)
  : option (option (lru.Cache Z) * (plog.Logs * option (list error))) :=
  match snd queryRows with
  | Some (HardError msg) =>
      Some (cache,
            ([], Some [ErrWrap "sqlServerScraperHelper failed getting rows"
                         (ErrMsg msg)]))
  | _ =>
      let rows := fst queryRows in
      let '(cache1, errs, totalElapsedTimeDiffs) :=
        elapsedDiffs cache [] rows in
      match sortRows env rows totalElapsedTimeDiffs with
      | None => None
      | Some rows =>
          let totalElapsedTimeDiffs := sortDiffs env totalElapsedTimeDiffs in
          match
            emitLoop env topQueryCount 0 rows totalElapsedTimeDiffs
              (mkScopeState cache1 errs [])
          with
          | None => None
          | Some st =>
              Some (ss_cache st,
                    ([plog.mkResourceLogs
                        [("db.system.type",
                          pcommon.Str "microsoft.sql_server")]
                        [plog.mkScopeLogs scopeName "development"
                           (ss_records st)]],
                     errors.Join (ss_errs st)))
          end
      end
  end.

(** *** The dispatch, lines 103-136 *)

Section Dispatch.

Variable env : Env.
Variables recordDatabaseIOMetrics recordDatabasePerfCounterMetrics
  recordDatabaseStatusMetrics : metricMapper.
Variable recordDatabaseSampleQuery :
  sqlServerScraperHelper ->
  option (sqlServerScraperHelper * (plog.Logs * option (list error))).

Definition queryMetricsMapper (s : sqlServerScraperHelper)
  : option (sqlServerScraperHelper * option (list error)) :=
  match
    recordDatabaseQueryMetrics env (cache s) (mb s) (client s)
      (topQueryCount s)
  with
  | None => None
  | Some (c, b, err) => Some (withBuilder (withCache s c) b, err)
  end.

Definition ScrapeMetrics (s : sqlServerScraperHelper)
  : option (sqlServerScraperHelper
            * (list metadata.ResourceMetrics * option (list error))) :=
  if String.eqb (sqlQuery s)
       (getSQLServerDatabaseIOQuery env (instanceName s))
  then Some (finishMetrics (recordDatabaseIOMetrics s))
  else if String.eqb (sqlQuery s)
            (getSQLServerPerformanceCounterQuery env (instanceName s))
  then Some (finishMetrics (recordDatabasePerfCounterMetrics s))
  else if String.eqb (sqlQuery s)
            (getSQLServerPropertiesQuery env (instanceName s))
  then Some (finishMetrics (recordDatabaseStatusMetrics s))
  else if String.eqb (sqlQuery s)
            (getSQLServerQueryMetricsQuery env (instanceName s)
               (maxQuerySampleCount s) (lookbackTime s))
  then option_map finishMetrics (queryMetricsMapper s)
  else Some (s, ([], Some (unsupportedMetrics (sqlQuery s)))).

Definition ScrapeLogs (s : sqlServerScraperHelper)
  : option (sqlServerScraperHelper * (plog.Logs * option (list error))) :=
  if String.eqb (sqlQuery s)
       (getSQLServerQueryTextAndPlanQuery env (instanceName s)
          (maxQuerySampleCount s) (lookbackTime s))
  then
    match
      recordDatabaseQueryTextAndPlan env (cache s) (client s)
        (topQueryCount s)
    with
    | None => None
    | Some (c, r) => Some (withCache s c, r)
    end
  else if String.eqb (sqlQuery s) (getSQLServerQuerySamplesQuery env)
  then recordDatabaseSampleQuery s
  else Some (s, ([], Some (unsupportedLogs (sqlQuery s)))).

End Dispatch.

End Part004.

(** ** The wait type classifier, [scraper.go:1557-1606] ([part_004:894-943]
    is the same text) *)

Fixpoint anyOf (s : string) (f : string -> string -> bool) (vals : list string)
  : bool :=
  match vals with
  | [] => false
  | v :: rest => if f s v then true else anyOf s f rest
  end.

Definition getWaitCategory (env : Env) (s : string) : nat * string :=
  match detailedWaitTypes env s with
  | Some code => (code, waitTypes env code)
  | None =>
      if strings.HasPrefix s "LOCK_M_" then (3%nat, "Lock")
      else if strings.HasPrefix s "LATCH_" then (4%nat, "Latch")
      else if strings.HasPrefix s "PAGELATCH_" then (5%nat, "Buffer Latch")
      else if strings.HasPrefix s "PAGEIOLATCH_" then (6%nat, "Buffer IO")
      else if anyOf s strings.HasPrefix ["CLR"; "SQLCLR"]
      then (8%nat, "SQL CLR")
      else if strings.HasPrefix s "DBMIRROR" then (9%nat, "Mirroring")
      else if anyOf s strings.HasPrefix
                ["XACT"; "DTC"; "TRAN_MARKLATCH_"; "MSQL_XACT_"]
      then (10%nat, "Transaction")
      else if strings.HasPrefix s "SLEEP_" then (11%nat, "Idle")
      else if strings.HasPrefix s "PREEMPTIVE_" then (12%nat, "Preemptive")
      else if strings.HasPrefix s "BROKER_"
              && negb (String.eqb s "BROKER_RECEIVE_WAITFOR")
      then (13%nat, "Service Broker")
      else if anyOf s strings.HasPrefix ["HT"; "BMP"; "BP"]
      then (16%nat, "Parallelism")
      else if anyOf s strings.HasPrefix ["SE_REPL_"; "REPL_"; "PWAIT_HADR_"]
              || (strings.HasPrefix s "HADR_"
                  && negb (String.eqb s "HADR_THROTTLE_LOG_RATE_GOVERNOR"))
      then (22%nat, "Replication")
      else if strings.HasPrefix s "RBIO_RG_" then (23%nat, "Log Rate Governor")
      else (0%nat, "Unknown")
  end.

(** ** The second copy of [scraper.go]: a [float64] cache *)

Record rowStateF : Type := mkRowStateF {
  rf_cache : option (lru.Cache float);
  rf_errs : list error;
  rf_attrs : pcommon.Map
}.

Record logStateF : Type := mkLogStateF {
  lf_cache : option (lru.Cache float);
  lf_errs : list error;
  lf_logs : plog.Logs
}.

Module ScraperF.

(** Lines 1510-1534: the guard rejects [val <= 0]. *)
Definition cacheAndDiff (cache : option (lru.Cache float))
    (queryHash queryPlanHash column : string) (val : float)
  : option (lru.Cache float) * (bool * float) :=
  match cache with
  | None => (None, (false, 0%float))
  | Some c =>
      if PrimFloat.leb val 0%float then (Some c, (false, 0%float))
      else
        let key := counterKey queryHash queryPlanHash column in
        match lru.Get key c with
        | (c1, None) => (Some (fst (lru.Add key val c1)), (false, val))
        | (c1, Some cached) =>
            if PrimFloat.ltb cached val
            then (Some (fst (lru.Add key val c1)),
                  (true, PrimFloat.sub val cached))
            else (Some c1, (true, 0%float))
        end
  end.

(** *** QueryTextAndPlan, lines 1087-1247 *)

(** The plan hash component of the cache key in the first loop (line 1114)
    and in the second loop (line 1140). *)
Definition firstLoopPlanHash (row : StringMap) : string :=
  hex.EncodeToString (cell row "query_plan_handle").

Definition secondLoopPlanHash (row : StringMap) : string :=
  hex.EncodeToString (cell row "query_plan_hash").

(** Lines 1111-1124. *)
Fixpoint elapsedDiffs (env : Env) (cache : option (lru.Cache float))
    (rows : list StringMap) : option (lru.Cache float) * list Z :=
  match rows with
  | [] => (cache, [])
  | row :: rest =>
      let queryHashVal := hex.EncodeToString (cell row "query_hash") in
      let queryPlanHashVal := firstLoopPlanHash row in
      let '(elapsedTime, err) :=
        ParseFloat env (cell row "total_elapsed_time") in
      let '(cache1, d) :=
        match err with
        | Some _ => (cache, 0)
        | None =>
            let '(cache1, (cached, diff)) :=
              cacheAndDiff cache queryHashVal queryPlanHashVal
                "total_elapsed_time" elapsedTime in
            (cache1,
             if cached && PrimFloat.ltb 0%float diff
             then int64OfFloat env diff else 0)
        end in
      let '(cache2, ds) := elapsedDiffs env cache1 rest in
      (cache2, d :: ds)
  end.

(** Lines 1154-1188: integer columns, cached as floats. *)
Definition counterStep (env : Env) (i : nat)
    (queryHashVal queryPlanHashVal : string) (column : string)
    (row : StringMap) (st : rowStateF) : rowStateF :=
  let '(val, err) := strconv.ParseInt (cell row column) in
  let errs := appendErr (rf_errs st) err (ErrRow i) in
  let '(cache1, (cached, diff)) :=
    cacheAndDiff (rf_cache st) queryHashVal queryPlanHashVal column
      (float64OfInt env val) in
  mkRowStateF cache1 errs
    (if cached && PrimFloat.ltb 0%float diff
     then pcommon.Put column (pcommon.Int (int64OfFloat env diff))
            (rf_attrs st)
     else rf_attrs st).

(** Lines 1190-1218: float columns; a failed parse is only logged. *)
Definition parsedCounterStep (env : Env)
    (queryHashVal queryPlanHashVal : string) (column : string)
    (row : StringMap) (st : rowStateF) : rowStateF :=
  let '(val, err) := ParseFloat env (cell row column) in
  match err with
  | Some _ => st
  | None =>
      let '(cache1, (cached, diff)) :=
        cacheAndDiff (rf_cache st) queryHashVal queryPlanHashVal column val in
      mkRowStateF cache1 (rf_errs st)
        (if cached && PrimFloat.ltb 0%float diff
         then pcommon.Put column (pcommon.Double diff) (rf_attrs st)
         else rf_attrs st)
  end.

Definition textStep (attr : string)
    (obfuscate : string -> string * option error) (text : string)
    (st : rowStateF) : rowStateF :=
  let '(obfuscated, err) := obfuscate text in
  mkRowStateF (rf_cache st) (appendErr (rf_errs st) err (fun e => e))
    (pcommon.Put attr (pcommon.Str obfuscated) (rf_attrs st)).

(** Lines 1139-1243. *)
Definition rowRecord (env : Env) (i : nat) (row : StringMap) (diff : Z)
    (cache : option (lru.Cache float)) (errs : list error) : rowStateF :=
  let queryHashVal := hex.EncodeToString (cell row "query_hash") in
  let queryPlanHashVal := secondLoopPlanHash row in
  let attrs :=
    pcommon.Put "total_elapsed_time" (pcommon.Double (float64OfInt env diff))
      (pcommon.Put "query_plan_hash" (pcommon.Str queryPlanHashVal)
         (pcommon.Put "query_hash" (pcommon.Str queryHashVal)
            (pcommon.Put instanceNameKey
               (pcommon.Str (cell row instanceNameKey))
               (pcommon.Put computerNameKey
                  (pcommon.Str (cell row computerNameKey)) [])))) in
  let s0 := mkRowStateF cache errs attrs in
  let s1 :=
    counterStep env i queryHashVal queryPlanHashVal "total_rows" row s0 in
  let s2 :=
    counterStep env i queryHashVal queryPlanHashVal "total_logical_reads"
      row s1 in
  let s3 :=
    counterStep env i queryHashVal queryPlanHashVal "total_logical_writes"
      row s2 in
  let s4 :=
    counterStep env i queryHashVal queryPlanHashVal "total_physical_reads"
      row s3 in
  let s5 :=
    parsedCounterStep env queryHashVal queryPlanHashVal "execution_count"
      row s4 in
  let s6 :=
    parsedCounterStep env queryHashVal queryPlanHashVal "total_worker_time"
      row s5 in
  let s7 :=
    parsedCounterStep env queryHashVal queryPlanHashVal "total_grant_kb"
      row s6 in
  let s8 := textStep "query_text" (obfuscateSQL env) (cell row "text") s7 in
  let s9 :=
    mkRowStateF (rf_cache s8) (rf_errs s8)
      (pcommon.Put "query_plan" (pcommon.Str (cell row "query_plan"))
         (rf_attrs s8)) in
  textStep "normalized_query_plan" (obfuscateXMLPlan env)
    (cell row "query_plan") s9.

Definition emitRow (env : Env) (i : nat) (row : StringMap) (diff : Z)
    (st : logStateF) : logStateF :=
  let s := rowRecord env i row diff (lf_cache st) (lf_errs st) in
  mkLogStateF (rf_cache s) (rf_errs s)
    (plog.appendInOwnResource (lf_logs st)
       (plog.mkLogRecord (rf_attrs s) "text")).

(** Lines 1129-1137. *)
Fixpoint emitLoop (env : Env) (topQueryCount : Z) (i : nat)
    (rows : list StringMap) (diffs : list Z) (st : logStateF)
  : option logStateF :=
  match rows with
  | [] => Some st
  | row :: rest =>
      if intOfUint topQueryCount <=? Z.of_nat i then Some st
      else
        match nth_error diffs i with
        | None => None
        | Some d =>
            if d =? 0 then emitLoop env topQueryCount (S i) rest diffs st
            else
              emitLoop env topQueryCount (S i) rest diffs
                (emitRow env i row d st)
        end
  end.

Definition recordDatabaseQueryTextAndPlan (env : Env)
    (cache : option (lru.Cache float))
    (queryRows : list StringMap * option queryError) (topQueryCount : Z)
  : option (option (lru.Cache float) * (plog.Logs * option (list error))) :=
  match snd queryRows with
  | Some (HardError msg) =>
      Some (cache,
            ([], Some [ErrWrap
                         "sqlServerScraperHelper failed getting metric rows"
                         (ErrMsg msg)]))
  | _ =>
      let rows := fst queryRows in
      let '(cache1, totalElapsedTimeDiffs) := elapsedDiffs env cache rows in
      match sortRows env rows totalElapsedTimeDiffs with
      | None => None
      | Some rows =>
          let totalElapsedTimeDiffs := sortDiffs env totalElapsedTimeDiffs in
          match
            emitLoop env topQueryCount 0 rows totalElapsedTimeDiffs
              (mkLogStateF cache1 [] plog.NewLogs)
          with
          | None => None
          | Some st =>
              Some (lf_cache st, (lf_logs st, errors.Join (lf_errs st)))
          end
      end
  end.

(** *** QuerySamples, lines 1249-1439 *)

Definition sampleKey (row : StringMap) : string :=
  hex.EncodeToString (cell row "query_hash") ++ "-"
  ++ hex.EncodeToString (cell row "query_plan_hash").

(** A numeric cell that may be empty: 0 then, else what [Atoi] leaves. *)
Definition atoiOrZero (s : string) : Z :=
  if String.eqb s "" then 0 else fst (strconv.Atoi s).

Definition putInt (k : string) (n : Z) (m : pcommon.Map) : pcommon.Map :=
  pcommon.Put k (pcommon.Int n) m.

Definition putStr (k : string) (s : string) (m : pcommon.Map) : pcommon.Map :=
  pcommon.Put k (pcommon.Str s) m.

Definition putDouble (k : string) (f : float) (m : pcommon.Map)
  : pcommon.Map :=
  pcommon.Put k (pcommon.Double f) m.

(** Lines 1390-1431: the attributes of a sample, in the order they are put. *)
Definition sampleRecord (env : Env) (row : StringMap) : plog.LogRecord :=
  let col := cell row in
  let int k := putInt k (fst (strconv.Atoi (col k))) in
  let str k := putStr k (col k) in
  let waitCategory := getWaitCategory env (col "wait_type") in
  let puts : list (pcommon.Map -> pcommon.Map) :=
    [ str "user_name"; str "db_name";
      putInt "client_port" (atoiOrZero (col "client_port"));
      str "query_start"; int "session_id"; str "session_status";
      str "host_name"; str "command";
      putStr "statement_text" (fst (obfuscateSQL env (col "statement_text")));
      int "blocking_session_id"; str "wait_type"; int "wait_time";
      str "wait_resource"; int "open_transaction_count";
      int "transaction_id";
      putDouble "percent_complete"
        (fst (ParseFloat32 env (col "percent_complete")));
      putDouble "estimated_completion_time"
        (fst (ParseFloat32 env (col "estimated_completion_time")));
      int "cpu_time"; int "total_elapsed_time"; int "reads"; int "writes";
      int "logical_reads"; int "transaction_isolation_level";
      putInt "lock_timeout" (atoiOrZero (col "lock_timeout"));
      putInt "deadlock_priority" (atoiOrZero (col "deadlock_priority"));
      int "row_count";
      putStr "query_hash" (hex.EncodeToString (col "query_hash"));
      putStr "query_plan_hash" (hex.EncodeToString (col "query_plan_hash"));
      putStr "context_info" (hex.EncodeToString (col "context_info"));
      str "login_name"; str "original_login_name"; str "object_name";
      putInt "wait_code" (Z.of_nat (fst waitCategory));
      putStr "wait_category" (snd waitCategory);
      str "object_name" ] in
  plog.mkLogRecord (fold_left (fun m put => put m) puts []) "sample".

(** Lines 1294-1436: the loop over the rows.  A row whose key is not in the
    cache is emitted; [Add] sits in the other branch. *)
Fixpoint sampleLoop (env : Env) (rows : list StringMap)
    (cache : lru.Cache float) (logs : plog.Logs)
  : lru.Cache float * plog.Logs :=
  match rows with
  | [] => (cache, logs)
  | row :: rest =>
      let cacheKey := sampleKey row in
      match lru.Get cacheKey cache with
      | (cache1, None) =>
          sampleLoop env rest cache1
            (plog.appendInOwnResource logs (sampleRecord env row))
      | (cache1, Some _) =>
          sampleLoop env rest (fst (lru.Add cacheKey 1%float cache1)) logs
      end
  end.

(** [None] is the nil dereference of a scraper without a cache. *)
Definition recordDatabaseSampleQuery (env : Env)
    (cache : option (lru.Cache float))
    (queryRows : list StringMap * option queryError)
  : option (option (lru.Cache float) * (plog.Logs * option (list error))) :=
  match snd queryRows with
  | Some (HardError msg) =>
      Some (cache,
            ([], Some [ErrWrap
                         "sqlServerScraperHelper failed getting log rows"
                         (ErrMsg msg)]))
  | _ =>
      match fst queryRows, cache with
      | [], _ => Some (cache, (plog.NewLogs, errors.Join []))
      | _ :: _, None => None
      | rows, Some c =>
          let '(c1, logs) := sampleLoop env rows c plog.NewLogs in
          Some (Some c1, (logs, errors.Join []))
      end
  end.

End ScraperF.

(** ** A concrete environment for closed examples

    [sort.insertionSort] is what [sort.Slice] runs on the short slices of the
    examples.  The encoder prints tokens without name spaces the way
    [xml.Encoder] does; the decoder knows the token streams of the documents
    the examples use.  The number conversions stand in for Go's on the
    integers below 2^53, where they are exact. *)

Module Example.

Definition quoteChar : ascii := ascii_of_nat 34.

Definition quote : string := String quoteChar EmptyString.

Definition escapeChar (c : ascii) : string :=
  if Ascii.eqb c "&" then "&amp;"
  else if Ascii.eqb c "<" then "&lt;"
  else if Ascii.eqb c ">" then "&gt;"
  else if Ascii.eqb c quoteChar then "&#34;"
  else if Ascii.eqb c "'" then "&#39;"
  else String c EmptyString.

Fixpoint escapeText (s : string) : string :=
  match s with
  | EmptyString => EmptyString
  | String c rest => escapeChar c ++ escapeText rest
  end.

Definition printAttr (a : xml.Attr) : string :=
  " " ++ xml.Local (xml.AttrName a) ++ "=" ++ quote
  ++ escapeText (xml.Value a) ++ quote.

Definition printToken (t : xml.Token) : string :=
  match t with
  | xml.StartElement name attr =>
      "<" ++ xml.Local name ++ String.concat "" (map printAttr attr) ++ ">"
  | xml.EndElement name => "</" ++ xml.Local name ++ ">"
  | xml.CharData data => escapeText data
  | xml.Comment data => "<!--" ++ data ++ "-->"
  | xml.ProcInst target inst => "<?" ++ target ++ " " ++ inst ++ "?>"
  | xml.Directive data => "<!" ++ data ++ ">"
  end.

Definition elem (local : string) : xml.Name := xml.mkName "" local.

Definition paddedText : string := "<a> x </a>".

Definition paddedTextTokens : list xml.Token :=
  [xml.StartElement (elem "a") []; xml.CharData " x ";
   xml.EndElement (elem "a")].

Definition plainPlan : string :=
  "<Plan Cost=" ++ quote ++ "1" ++ quote ++ "><Op>scan</Op></Plan>".

Definition plainPlanTokens : list xml.Token :=
  [xml.StartElement (elem "Plan") [xml.mkAttr (elem "Cost") "1"];
   xml.StartElement (elem "Op") []; xml.CharData "scan";
   xml.EndElement (elem "Op"); xml.EndElement (elem "Plan")].

Definition decoder (raw : string) : list xml.Token * xml.stop :=
  if String.eqb raw paddedText then (paddedTextTokens, xml.EOF)
  else if String.eqb raw plainPlan then (plainPlanTokens, xml.EOF)
  else ([], xml.Fail (ErrMsg "XML syntax error")).

Definition floatOfInt (n : Z) : float :=
  if n <? 0 then PrimFloat.opp (PrimFloat.of_uint63 (Uint63.of_Z (- n)))
  else PrimFloat.of_uint63 (Uint63.of_Z n).

Definition intOfFloat (f : float) : Z :=
  match FloatOps.Prim2SF f with
  | SpecFloat.S754_finite s m e =>
      let v := if e <? 0 then Z.pos m / 2 ^ (- e) else Z.pos m * 2 ^ e in
      if s then - v else v
  | SpecFloat.S754_zero _ => 0
  | _ => Int64.min
  end.

Definition parseFloat (s : string) : float * option error :=
  match strconv.parseSigned "ParseFloat" s with
  | (n, None) => (floatOfInt n, None)
  | (_, Some e) => (0%float, Some e)
  end.

Definition waitTable (s : string) : option nat :=
  if String.eqb s "SOS_SCHEDULER_YIELD" then Some 1%nat
  else if String.eqb s "THREADPOOL" then Some 2%nat
  else None.

Definition waitNames (code : nat) : string :=
  match code with
  | 1%nat => "CPU"
  | 2%nat => "Worker Thread"
  | _ => ""
  end.

Definition env (Slice : forall A : Type, (A -> A -> bool) -> list A -> list A)
  : Env :=
  {| Slice := Slice;
     obfuscateSQL := fun text => (text, None);
     NewDecoder := decoder;
     Encoder := string;
     NewEncoder := "";
     EncodeToken := fun enc t => inl (enc ++ printToken t);
     Flush := fun enc => inl enc;
     bufferString := fun enc => enc;
     ParseFloat := parseFloat;
     ParseFloat32 := parseFloat;
     int64OfFloat := intOfFloat;
     float64OfInt := floatOfInt;
     detailedWaitTypes := waitTable;
     waitTypes := waitNames;
     getSQLServerDatabaseIOQuery := fun i => "io " ++ i;
     getSQLServerPerformanceCounterQuery := fun i => "perf " ++ i;
     getSQLServerPropertiesQuery := fun i => "props " ++ i;
     getSQLServerQueryMetricsQuery := fun i _ _ => "top " ++ i;
     getSQLServerQueryTextAndPlanQuery := fun i _ _ => "plan " ++ i;
     getSQLServerQuerySamplesQuery := "samples" |}.

Definition insertionEnv : Env := env sort.insertionSort.

Definition pdqsortEnv : Env := env sort.pdqsort.

(** A row of the top query result set, by hash, plan hash, handle and the
    elapsed time in microseconds; the other counters are all [n]. *)
Definition row (hash planHash handle : string) (elapsed n : string)
  : StringMap :=
  [("query_hash", hash); ("query_plan_hash", planHash);
   ("query_plan_handle", handle); ("total_elapsed_time", elapsed);
   ("total_rows", n); ("total_logical_reads", n);
   ("total_logical_writes", n); ("total_physical_reads", n);
   ("execution_count", n); ("total_worker_time", n); ("total_grant_kb", n);
   ("text", "select 1"); ("query_text", "select 1");
   ("query_plan", plainPlan); (computerNameKey, "H"); (instanceNameKey, "I")].

Definition cacheOf {V : Type} (n : nat) (l : list (string * V)) : lru.Cache V :=
  lru.mkCache n l.

(** Thirteen rows named by their input position.  All have the same elapsed
    time difference but the last, whose difference is larger. *)
Definition named (k : nat) : StringMap :=
  [("query_hash", String (ascii_of_nat (65 + k)) EmptyString)].

Definition thirteenRows : list StringMap := map named (seq 0 13).

Definition thirteenDiffs : list Z := [1; 1; 1; 1; 1; 1; 1; 1; 1; 1; 1; 1; 2].

End Example.

(** ** Sequences of [cacheAndDiff] calls *)

Record call : Type := mkCall {
  callHash : string;
  callPlanHash : string;
  callColumn : string;
  callVal : Z
}.

Definition callKey (cl : call) : string :=
  counterKey (callHash cl) (callPlanHash cl) (callColumn cl).

(** One call of a run: the cache before, the call, what it reported, the
    cache after. *)
Record observation : Type := mkObservation {
  before : lru.Cache Z;
  made : call;
  reported : bool * Z;
  after : lru.Cache Z
}.

Fixpoint observe (c : lru.Cache Z) (calls : list call) : list observation :=
  match calls with
  | [] => []
  | cl :: rest =>
      match
        cacheAndDiff (Some c) (callHash cl) (callPlanHash cl) (callColumn cl)
          (callVal cl)
      with
      | (Some c', r) => mkObservation c cl r c' :: observe c' rest
      | (None, _) => []
      end
  end.

(** The values a cache holds are counters: not negative, within [int64]. *)
Definition counters (c : lru.Cache Z) : Prop :=
  Forall (fun kv => 0 <= snd kv <= Int64.max) (lru.items c).

(** "The stored value for each key never decreases", read over a whole run:
    a key stored after some call and again after a later one holds no smaller
    value then. *)
Definition neverDecreases (run : list observation) : Prop :=
  forall (i j : nat) (oi oj : observation) (k : string) (a b : Z),
    (i <= j)%nat ->
    nth_error run i = Some oi -> nth_error run j = Some oj ->
    lru.Peek k (after oi) = Some a -> lru.Peek k (after oj) = Some b ->
    a <= b.

(** ** The classifier as the spec words it (section 4.5.6)

    The prefix rules in the order the spec lists them, each with the bucket
    it names; the first rule that applies decides, and no rule gives
    [(0, "Unknown")]. *)

Definition specRules : list ((string -> bool) * (nat * string)) :=
  let pre (p : string) (s : string) := String.prefix p s in
  [ (pre "LOCK_M_", (3%nat, "Lock"));
    (pre "PAGELATCH_", (5%nat, "Buffer Latch"));
    (pre "PAGEIOLATCH_", (6%nat, "Buffer IO"));
    (pre "LATCH_", (4%nat, "Latch"));
    (fun s => pre "CLR" s || pre "SQLCLR" s, (8%nat, "SQL CLR"));
    (pre "DBMIRROR", (9%nat, "Mirroring"));
    (fun s => pre "XACT" s || pre "DTC" s || pre "TRAN_MARKLATCH_" s
              || pre "MSQL_XACT_" s, (10%nat, "Transaction"));
    (pre "SLEEP_", (11%nat, "Idle"));
    (pre "PREEMPTIVE_", (12%nat, "Preemptive"));
    (fun s => pre "BROKER_" s && negb (String.eqb s "BROKER_RECEIVE_WAITFOR"),
     (13%nat, "Service Broker"));
    (fun s => pre "HT" s || pre "BMP" s || pre "BP" s, (16%nat, "Parallelism"));
    (fun s => pre "SE_REPL_" s || pre "REPL_" s || pre "PWAIT_HADR_" s
              || (pre "HADR_" s
                  && negb (String.eqb s "HADR_THROTTLE_LOG_RATE_GOVERNOR")),
     (22%nat, "Replication"));
    (pre "RBIO_RG_", (23%nat, "Log Rate Governor")) ].

Definition classifyBySpecOrder (s : string) : nat * string :=
  match find (fun rule => fst rule s) specRules with
  | Some rule => snd rule
  | None => (0%nat, "Unknown")
  end.

(** ** The [cacheAndDiff] calls of one row of QueryTextAndPlan

    The seven secondary columns in the order they are handled, each with the
    value handed to [cacheAndDiff]: what [ParseInt] left for the first four,
    the parsed value for the last three ([total_worker_time] divided by
    1000), and no call when one of the last three does not parse. *)

Definition alwaysInput (row : StringMap) (column : string) : option Z :=
  Some (fst (strconv.ParseInt (cell row column))).

Definition parsedInput (row : StringMap) (column : string) (scale : Z -> Z)
  : option Z :=
  match strconv.ParseInt (cell row column) with
  | (v, None) => Some (scale v)
  | (_, Some _) => None
  end.

Definition counterInputs (row : StringMap) : list (string * option Z) :=
  let always (column : string) := (column, alwaysInput row column) in
  let parsed (column : string) (scale : Z -> Z) :=
    (column, parsedInput row column scale) in
  [ always "total_rows"; always "total_logical_reads";
    always "total_logical_writes"; always "total_physical_reads";
    parsed "execution_count" (fun v => v);
    parsed "total_worker_time" (fun v => Int64.div v 1000);
    parsed "total_grant_kb" (fun v => v) ].

(** What each of those calls reports, made in order on the cache the row
    starts with. *)
Fixpoint replay (cache : option (lru.Cache Z))
    (queryHashVal queryPlanHashVal : string)
    (inputs : list (string * option Z))
  : list (string * option (bool * Z)) :=
  match inputs with
  | [] => []
  | (column, None) :: rest =>
      (column, None) :: replay cache queryHashVal queryPlanHashVal rest
  | (column, Some v) :: rest =>
      let '(cache1, r) :=
        cacheAndDiff cache queryHashVal queryPlanHashVal column v in
      (column, Some r) :: replay cache1 queryHashVal queryPlanHashVal rest
  end.

(** The cache a call leaves, and the cache as it was when no call is made. *)
Definition nextCache (cache : option (lru.Cache Z))
    (queryHashVal queryPlanHashVal column : string) (input : option Z)
  : option (lru.Cache Z) :=
  match input with
  | Some v => fst (cacheAndDiff cache queryHashVal queryPlanHashVal column v)
  | None => cache
  end.

(** The rows of a batch whose cached elapsed time delta is strictly
    positive, counted. *)
Definition positiveDeltas (diffs : list Z) : nat :=
  List.length (filter (fun d => 0 <? d) diffs).

Definition nonzero (d : Z) : bool := negb (d =? 0).

(** Descending order on differences. *)
Definition descending (l : list Z) : Prop := StronglySorted Z.ge l.

(** ** Steps of a row, for the attributes of the secondary counters

    A step hands at most one value to [cacheAndDiff]; it is like the call of
    its column when it leaves the cache of that call and puts the difference
    under [name] exactly when [guard] holds of what the call reports, all
    other attributes being left as they were. *)

Definition stepLike (step : rowState -> rowState)
    (queryHashVal queryPlanHashVal column : string) (input : option Z)
    (name : string) (guard : bool * Z -> bool) : Prop :=
  forall (st : rowState) (k : string),
    rs_cache (step st)
    = nextCache (rs_cache st) queryHashVal queryPlanHashVal column input
    /\ pcommon.Get k (rs_attrs (step st))
       = match input with
         | Some v =>
             let r :=
               snd (cacheAndDiff (rs_cache st) queryHashVal queryPlanHashVal
                      column v) in
             if String.eqb k name && guard r then Some (pcommon.Int (snd r))
             else pcommon.Get k (rs_attrs st)
         | None => pcommon.Get k (rs_attrs st)
         end.

(** A step with its column and the value it hands on. *)
Definition counterStepOf : Type :=
  (rowState -> rowState) * (string * option Z).

Definition runSteps (steps : list counterStepOf) (st : rowState) : rowState :=
  fold_left (fun s step => fst step s) steps st.

Definition stepsLike (queryHashVal queryPlanHashVal : string)
    (name : string -> string) (guard : bool * Z -> bool)
    (steps : list counterStepOf) : Prop :=
  Forall
    (fun step =>
       stepLike (fst step) queryHashVal queryPlanHashVal (fst (snd step))
         (snd (snd step)) (name (fst (snd step))) guard)
    steps.

(** ** Plans the obfuscator has nothing to do on *)

(** No attribute of the token has one of the four targeted names. *)
Definition untargeted (t : xml.Token) : Prop :=
  match t with
  | xml.StartElement _ attr =>
      Forall
        (fun a => ~ In (xml.Local (xml.AttrName a)) XMLPlanObfuscationAttrs)
        attr
  | _ => True
  end.

(** Character data that is not white space only. *)
Definition notBlank (t : xml.Token) : Prop :=
  match t with
  | xml.CharData data => bytes.TrimSpace data <> ""
  | _ => True
  end.

(** Character data without white space at either end. *)
Definition trimmed (t : xml.Token) : Prop :=
  match t with
  | xml.CharData data => bytes.TrimSpace data = data
  | _ => True
  end.

(** ** What the cache keeps

    A cache as [lru.New] makes it and as [Get] and [Add] leave it: no key is
    stored twice, and there are no more entries than [size]. *)

Definition withinCapacity {V : Type} (c : lru.Cache V) : Prop :=
  NoDup (lru.keys c) /\ (List.length (lru.items c) <= lru.size c)%nat.

(** The readings of one counter over successive scrapes, as the calls they
    make. *)
Definition readings (queryHash queryPlanHash column : string)
    (vals : list Z) : list call :=
  map (mkCall queryHash queryPlanHash column) vals.

(** The differences a run reports, added up. *)
Definition reportedSum (run : list observation) : Z :=
  fold_right Z.add 0 (map (fun o => snd (reported o)) run).

(** The cache a run leaves. *)
Definition finalCache (c : lru.Cache Z) (run : list observation)
  : lru.Cache Z :=
  last (map after run) c.

(** ** Every byte, for checks that run over all of them *)

Definition allBytes : list ascii := map ascii_of_nat (seq 0 256).

(** ** Attributes the plan obfuscator rewrites *)

(** [attr.Name.Local] is one of [XMLPlanObfuscationAttrs]. *)
Definition targetedAttr (a : xml.Attr) : bool :=
  existsb (String.eqb (xml.Local (xml.AttrName a))) XMLPlanObfuscationAttrs.

(** The attribute with its value replaced by what [obfuscateSQL] returns for
    it. *)
Definition obfuscatedAttr (env : Env) (a : xml.Attr) : xml.Attr :=
  xml.mkAttr (xml.AttrName a) (fst (obfuscateSQL env (xml.Value a))).

(** ** What a record of a ranked mapper says about its row *)




(** The key under which the first loop of a ranked mapper caches the elapsed
    time of a row. *)
Definition elapsedKey (row : StringMap) : string :=
  counterKey (hex.EncodeToString (cell row "query_hash"))
    (hex.EncodeToString (cell row "query_plan_hash")) "total_elapsed_time".

(** The two hashes that identify the query of a row. *)
Definition rowHashes (row : StringMap) : string * string :=
  (cell row "query_hash", cell row "query_plan_hash").

(** The errors [strconv.ParseInt] reports on the elapsed times of a batch,
    in row order. *)
Definition elapsedParseErrors (rows : list StringMap) : list error :=
  flat_map
    (fun row =>
       match snd (strconv.ParseInt (cell row "total_elapsed_time")) with
       | Some e => [e]
       | None => []
       end)
    rows.

(** ** [confmap/provider/vaultprovider/provider.go]: [extractKey]

    [strings.LastIndex] is written out from its documented behaviour (the
    index of the last instance of [substr], -1 when there is none); a slice
    expression [s[lo:hi]] panics unless [0 <= lo <= hi <= len(s)], and
    [None] is that panic. *)

Module vaultprovider.

Definition schemeName : string := "vault".

Definition emptyUriError : error := ErrMsg "empty URI".
Definition invalidSchemeError : error := ErrMsg "invalid scheme".

Definition len (s : string) : Z := Z.of_nat (String.length s).

(** [strings.LastIndex(s, substr)] on the part of [s] that starts at
    position [pos]. *)
Fixpoint lastIndexFrom (substr s : string) (pos : nat) : Z :=
  match s with
  | EmptyString => if String.prefix substr s then Z.of_nat pos else -1
  | String _ rest =>
      let later := lastIndexFrom substr rest (S pos) in
      if 0 <=? later then later
      else if String.prefix substr s then Z.of_nat pos else -1
  end.

Definition LastIndex (s substr : string) : Z := lastIndexFrom substr s 0.

(** [s[lo:hi]] *)
Definition slice (s : string) (lo hi : Z) : option string :=
  if (0 <=? lo) && (lo <=? hi) && (hi <=? len s)
  then Some (String.substring (Z.to_nat lo) (Z.to_nat (hi - lo)) s)
  else None.

Definition extractKey (uri : string) : option (string * string * option error) :=
  if String.eqb uri "" then Some ("", "", Some emptyUriError)
  else if negb (strings.HasPrefix uri (schemeName ++ ":"))
  then Some ("", "", Some invalidSchemeError)
  else
    match slice uri (len (schemeName ++ ":")) (len uri) with
    | None => None
    | Some withoutScheme =>
        let indexOfKeyPart := LastIndex withoutScheme ":" in
        match slice withoutScheme 0 indexOfKeyPart with
        | None => None
        | Some path =>
            match
              slice withoutScheme (indexOfKeyPart + 1) (len withoutScheme)
            with
            | None => None
            | Some key => Some (path, key, None)
            end
        end
    end.

End vaultprovider.

(** A string without [":"]. *)
Definition noColon (s : string) : Prop :=
  ~ In ":"%char (list_ascii_of_string s).

(** * Properties *)

Arguments cacheAndDiff : simpl never.
Arguments ScraperF.cacheAndDiff : simpl never.

(** ** The LRU cache *)

Section LruFacts.

Context {V : Type}.
Implicit Types (c : lru.Cache V) (l : list (string * V)) (k : string).

Lemma find_remove_other : forall l k k',
  k <> k' -> lru.find k' (lru.remove k l) = lru.find k' l.
Proof.
  induction l as [|[k0 v0] l IH]; intros k k' Hne; simpl; [reflexivity|].
  destruct (String.eqb_spec k k0) as [->|Hk0]; simpl.
  - destruct (String.eqb_spec k' k0) as [->|_]; [congruence|reflexivity].
  - destruct (String.eqb_spec k' k0); [reflexivity|auto].
Qed.

Lemma find_moved_front : forall l k k' v,
  lru.find k l = Some v ->
  lru.find k' ((k, v) :: lru.remove k l) = lru.find k' l.
Proof.
  intros l k k' v Hf. simpl.
  destruct (String.eqb_spec k' k) as [->|Hne]; [now rewrite Hf|].
  apply find_remove_other. congruence.
Qed.

Lemma find_removelast : forall l k v,
  lru.find k (removelast l) = Some v -> lru.find k l = Some v.
Proof.
  induction l as [|[k0 v0] l IH]; intros k v; simpl; [discriminate|].
  destruct l as [|p l']; [discriminate|].
  remember (p :: l') as t. simpl.
  destruct (String.eqb k k0); [auto|]. apply IH.
Qed.

Lemma Get_result : forall c k, snd (lru.Get k c) = lru.Peek k c.
Proof.
  intros c k. unfold lru.Get, lru.Peek.
  destruct (lru.find k (lru.items c)); reflexivity.
Qed.

Lemma Get_Peek : forall c k k',
  lru.Peek k' (fst (lru.Get k c)) = lru.Peek k' c.
Proof.
  intros c k k'. unfold lru.Get, lru.Peek.
  destruct (lru.find k (lru.items c)) eqn:Hf; simpl; [|reflexivity].
  now apply find_moved_front.
Qed.

Lemma Get_size : forall c k, lru.size (fst (lru.Get k c)) = lru.size c.
Proof.
  intros c k. unfold lru.Get.
  destruct (lru.find k (lru.items c)); reflexivity.
Qed.

Lemma Add_size : forall c k v, lru.size (fst (lru.Add k v c)) = lru.size c.
Proof.
  intros c k v. unfold lru.Add.
  destruct (lru.find k (lru.items c)); [reflexivity|].
  destruct (_ <? _)%nat; reflexivity.
Qed.

(** A positive size keeps what [Add] has just stored. *)
Lemma Add_Peek_same : forall c k v,
  (0 < lru.size c)%nat -> lru.Peek k (fst (lru.Add k v c)) = Some v.
Proof.
  intros c k v Hsize. unfold lru.Add, lru.Peek.
  destruct (lru.find k (lru.items c)); simpl.
  - now rewrite String.eqb_refl.
  - destruct (Nat.ltb_spec (lru.size c) (S (List.length (lru.items c))));
      simpl.
    + destruct (lru.items c) as [|p l] eqn:Hitems; simpl in *; [lia|].
      now rewrite String.eqb_refl.
    + now rewrite String.eqb_refl.
Qed.

(** [Add] changes no other key, except that it may evict one. *)
Lemma Add_Peek_other : forall c k v k' x,
  k' <> k ->
  lru.Peek k' (fst (lru.Add k v c)) = Some x -> lru.Peek k' c = Some x.
Proof.
  intros c k v k' x Hne. unfold lru.Add, lru.Peek.
  destruct (lru.find k (lru.items c)) eqn:Hf; simpl.
  - destruct (String.eqb_spec k' k); [congruence|].
    rewrite find_remove_other by congruence. auto.
  - destruct (_ <? _)%nat; simpl; intros H.
    + apply (find_removelast ((k, v) :: lru.items c)) in H.
      simpl in H. destruct (String.eqb_spec k' k); [congruence|auto].
    + destruct (String.eqb_spec k' k); [congruence|auto].
Qed.

Lemma In_remove : forall l k p, In p (lru.remove k l) -> In p l.
Proof.
  induction l as [|[k0 v0] l IH]; intros k p; simpl; [auto|].
  destruct (String.eqb k k0); simpl; intuition eauto.
Qed.

Lemma In_removelast : forall (A : Type) (l : list A) (x : A),
  In x (removelast l) -> In x l.
Proof.
  induction l as [|a l IH]; intros x; simpl; [auto|].
  destruct l; simpl in *; intuition.
Qed.

Lemma find_In : forall l k v, lru.find k l = Some v -> In (k, v) l.
Proof.
  induction l as [|[k0 v0] l IH]; intros k v; simpl; [discriminate|].
  destruct (String.eqb_spec k k0) as [->|_]; [intros [= ->]; auto|auto].
Qed.

(** Every entry after [Get] was there before. *)
Lemma Get_items : forall c k p,
  In p (lru.items (fst (lru.Get k c))) -> In p (lru.items c).
Proof.
  intros c k p. unfold lru.Get.
  destruct (lru.find k (lru.items c)) eqn:Hf; simpl; [|auto].
  intros [<-|H]; [now apply find_In|eapply In_remove; eauto].
Qed.

(** Every entry after [Add] is the added one or was there before. *)
Lemma Add_items : forall c k v p,
  In p (lru.items (fst (lru.Add k v c))) -> p = (k, v) \/ In p (lru.items c).
Proof.
  intros c k v p. unfold lru.Add.
  destruct (lru.find k (lru.items c)); simpl.
  - intros [<-|H]; [auto|right; eapply In_remove; eauto].
  - destruct (_ <? _)%nat; simpl.
    + intros H. apply (In_removelast _ ((k, v) :: lru.items c)) in H.
      destruct H as [<-|H]; auto.
    + intros [<-|H]; auto.
Qed.

End LruFacts.

(** ** [cacheAndDiff] *)

Lemma wrap_in_range : forall x, Int64.in_range x -> Int64.wrap x = x.
Proof.
  intros x [Hlo Hhi]. unfold Int64.wrap, Int64.min, Int64.max in *.
  rewrite Z.mod_small; lia.
Qed.

Lemma sub_counters_exact : forall v cached,
  0 <= cached -> cached <= v -> v <= Int64.max -> Int64.sub v cached = v - cached.
Proof.
  intros v cached Hc Hle Hv. apply wrap_in_range.
  unfold Int64.in_range, Int64.min, Int64.max in *. lia.
Qed.

Section CacheAndDiffInt.

Variables (c : lru.Cache Z) (queryHash queryPlanHash column : string) (v : Z).

Let key : string := counterKey queryHash queryPlanHash column.
Let out := cacheAndDiff (Some c) queryHash queryPlanHash column v.

Lemma cacheAndDiff_negative : v < 0 -> out = (Some c, (false, 0)).
Proof.
  intros Hneg. unfold out, cacheAndDiff.
  destruct (Z.ltb_spec v 0); [reflexivity|lia].
Qed.

Lemma cacheAndDiff_first :
  (0 < lru.size c)%nat -> 0 <= v -> lru.Peek key c = None ->
  exists c', out = (Some c', (false, v)) /\ lru.Peek key c' = Some v.
Proof.
  intros Hsize Hv Habs. unfold out, cacheAndDiff.
  destruct (Z.ltb_spec v 0); [lia|]. fold key.
  pose proof (Get_result c key) as Hres. rewrite Habs in Hres.
  destruct (lru.Get key c) as [c1 r] eqn:Hget. simpl in Hres. subst r.
  eexists; split; [reflexivity|].
  apply Add_Peek_same.
  replace c1 with (fst (lru.Get key c)) by now rewrite Hget.
  now rewrite Get_size.
Qed.

Lemma cacheAndDiff_grown : forall cached,
  (0 < lru.size c)%nat -> 0 <= v -> lru.Peek key c = Some cached ->
  cached < v ->
  exists c', out = (Some c', (true, Int64.sub v cached))
             /\ lru.Peek key c' = Some v.
Proof.
  intros cached Hsize Hv Hpres Hlt. unfold out, cacheAndDiff.
  destruct (Z.ltb_spec v 0); [lia|]. fold key.
  pose proof (Get_result c key) as Hres. rewrite Hpres in Hres.
  destruct (lru.Get key c) as [c1 r] eqn:Hget. simpl in Hres. subst r.
  destruct (Z.ltb_spec cached v); [|lia].
  eexists; split; [reflexivity|].
  apply Add_Peek_same.
  replace c1 with (fst (lru.Get key c)) by now rewrite Hget.
  now rewrite Get_size.
Qed.

Lemma cacheAndDiff_not_grown : forall cached,
  0 <= v -> lru.Peek key c = Some cached -> v <= cached ->
  exists c', out = (Some c', (true, 0))
             /\ forall k, lru.Peek k c' = lru.Peek k c.
Proof.
  intros cached Hv Hpres Hle. unfold out, cacheAndDiff.
  destruct (Z.ltb_spec v 0); [lia|]. fold key.
  pose proof (Get_result c key) as Hres. rewrite Hpres in Hres.
  pose proof (Get_Peek c key) as Hpeek.
  destruct (lru.Get key c) as [c1 r] eqn:Hget. simpl in Hres, Hpeek. subst r.
  destruct (Z.ltb_spec cached v); [lia|].
  eexists; split; [reflexivity|exact Hpeek].
Qed.

End CacheAndDiffInt.

Section CacheAndDiffFloat.

Variables (c : lru.Cache float) (queryHash queryPlanHash column : string)
  (v : float).

Let key : string := counterKey queryHash queryPlanHash column.
Let out := ScraperF.cacheAndDiff (Some c) queryHash queryPlanHash column v.

Lemma cacheAndDiffF_rejected :
  PrimFloat.leb v 0 = true -> out = (Some c, (false, 0%float)).
Proof. intros H. unfold out, ScraperF.cacheAndDiff. now rewrite H. Qed.

Lemma cacheAndDiffF_first :
  (0 < lru.size c)%nat -> PrimFloat.leb v 0 = false ->
  lru.Peek key c = None ->
  exists c', out = (Some c', (false, v)) /\ lru.Peek key c' = Some v.
Proof.
  intros Hsize Hv Habs. unfold out, ScraperF.cacheAndDiff.
  rewrite Hv. fold key.
  pose proof (Get_result c key) as Hres. rewrite Habs in Hres.
  destruct (lru.Get key c) as [c1 r] eqn:Hget. simpl in Hres. subst r.
  eexists; split; [reflexivity|].
  apply Add_Peek_same.
  replace c1 with (fst (lru.Get key c)) by now rewrite Hget.
  now rewrite Get_size.
Qed.

Lemma cacheAndDiffF_grown : forall cached,
  (0 < lru.size c)%nat -> PrimFloat.leb v 0 = false ->
  lru.Peek key c = Some cached -> PrimFloat.ltb cached v = true ->
  exists c', out = (Some c', (true, PrimFloat.sub v cached))
             /\ lru.Peek key c' = Some v.
Proof.
  intros cached Hsize Hv Hpres Hlt. unfold out, ScraperF.cacheAndDiff.
  rewrite Hv. fold key.
  pose proof (Get_result c key) as Hres. rewrite Hpres in Hres.
  destruct (lru.Get key c) as [c1 r] eqn:Hget. simpl in Hres. subst r.
  rewrite Hlt.
  eexists; split; [reflexivity|].
  apply Add_Peek_same.
  replace c1 with (fst (lru.Get key c)) by now rewrite Hget.
  now rewrite Get_size.
Qed.

Lemma cacheAndDiffF_not_grown : forall cached,
  PrimFloat.leb v 0 = false -> lru.Peek key c = Some cached ->
  PrimFloat.ltb cached v = false ->
  exists c', out = (Some c', (true, 0%float))
             /\ forall k, lru.Peek k c' = lru.Peek k c.
Proof.
  intros cached Hv Hpres Hle. unfold out, ScraperF.cacheAndDiff.
  rewrite Hv. fold key.
  pose proof (Get_result c key) as Hres. rewrite Hpres in Hres.
  pose proof (Get_Peek c key) as Hpeek.
  destruct (lru.Get key c) as [c1 r] eqn:Hget. simpl in Hres, Hpeek. subst r.
  rewrite Hle.
  eexists; split; [reflexivity|exact Hpeek].
Qed.

End CacheAndDiffFloat.

(** C1, as amended.  On an initialized cache (one of positive size), the
    [int64] revisions ([scraper.go:562], [part_004:844]) do what the claim
    says: a negative [v] gives [(false, 0)] and the same cache; an absent key
    is stored with [v] and gives [(false, v)]; a key cached with [c] gives
    [(true, v - c)] and is stored with [v] when [v > c], and gives
    [(true, 0)] with every stored value as before when [v <= c].  The
    subtraction is exact for counters.  The [float64] revision
    ([scraper.go:1510]) behaves the same except that its guard is
    [val <= 0]: there [v = 0] too gives [(false, 0)] and the same cache. *)
Theorem cacheAndDiff_by_revision :
  forall (c : lru.Cache Z) (cf : lru.Cache float)
         (queryHash queryPlanHash column : string) (v : Z) (vf : float),
    (0 < lru.size c)%nat -> (0 < lru.size cf)%nat ->
    let key := counterKey queryHash queryPlanHash column in
    let out := cacheAndDiff (Some c) queryHash queryPlanHash column v in
    let outf :=
      ScraperF.cacheAndDiff (Some cf) queryHash queryPlanHash column vf in
    ((v < 0 -> out = (Some c, (false, 0))) /\
     (0 <= v -> lru.Peek key c = None ->
      exists c', out = (Some c', (false, v)) /\ lru.Peek key c' = Some v) /\
     (forall cached, 0 <= v -> lru.Peek key c = Some cached -> cached < v ->
      exists c', out = (Some c', (true, Int64.sub v cached))
                 /\ lru.Peek key c' = Some v
                 /\ (0 <= cached -> v <= Int64.max ->
                     Int64.sub v cached = v - cached)) /\
     (forall cached, 0 <= v -> lru.Peek key c = Some cached -> v <= cached ->
      exists c', out = (Some c', (true, 0))
                 /\ forall k, lru.Peek k c' = lru.Peek k c))
    /\
    ((PrimFloat.leb vf 0 = true -> outf = (Some cf, (false, 0%float))) /\
     (PrimFloat.leb vf 0 = false -> lru.Peek key cf = None ->
      exists c', outf = (Some c', (false, vf)) /\ lru.Peek key c' = Some vf) /\
     (forall cached, PrimFloat.leb vf 0 = false ->
      lru.Peek key cf = Some cached -> PrimFloat.ltb cached vf = true ->
      exists c', outf = (Some c', (true, PrimFloat.sub vf cached))
                 /\ lru.Peek key c' = Some vf) /\
     (forall cached, PrimFloat.leb vf 0 = false ->
      lru.Peek key cf = Some cached -> PrimFloat.ltb cached vf = false ->
      exists c', outf = (Some c', (true, 0%float))
                 /\ forall k, lru.Peek k c' = lru.Peek k cf)).
Proof.
  intros c cf queryHash queryPlanHash column v vf Hc Hcf key out outf.
  split; repeat split.
  - apply cacheAndDiff_negative.
  - now apply cacheAndDiff_first.
  - intros cached Hv Hp Hlt.
    destruct (cacheAndDiff_grown c queryHash queryPlanHash column v cached)
      as (c' & Hout & Hpeek); auto.
    exists c'. repeat split; auto.
    intros Hcached Hmax. apply sub_counters_exact; lia.
  - intros cached. now apply cacheAndDiff_not_grown.
  - apply cacheAndDiffF_rejected.
  - now apply cacheAndDiffF_first.
  - intros cached. now apply cacheAndDiffF_grown.
  - intros cached Hv Hp Hlt.
    destruct (cacheAndDiffF_not_grown cf queryHash queryPlanHash column vf
                cached) as (c' & Hout & Hpeek); auto.
    exists c'. split; auto.
Qed.

(** The theorem at a cache that holds 5 for a key, called with 9: the key is
    cached, the difference is 4, and 9 is stored. *)
Lemma cacheAndDiff_by_revision_witness :
  let c := Example.cacheOf 4 [("aa-bb-total_rows", 5)] in
  let cf := Example.cacheOf 4 [("aa-bb-total_rows", 5%float)] in
  (0 < lru.size c)%nat /\ (0 < lru.size cf)%nat /\
  exists c',
    cacheAndDiff (Some c) "aa" "bb" "total_rows" 9 = (Some c', (true, 4))
    /\ lru.Peek "aa-bb-total_rows" c' = Some 9.
Proof.
  intros c cf.
  assert (Hc : (0 < lru.size c)%nat) by (simpl; lia).
  assert (Hcf : (0 < lru.size cf)%nat) by (simpl; lia).
  split; [exact Hc|]. split; [exact Hcf|].
  destruct (cacheAndDiff_by_revision c cf "aa" "bb" "total_rows" 9 9%float
              Hc Hcf) as [(_ & _ & Hgrown & _) _].
  destruct (Hgrown 5) as (c' & Hout & Hpeek & Hexact);
    [lia|reflexivity|lia|].
  exists c'. split; [|exact Hpeek].
  rewrite Hout, Hexact; [reflexivity|lia|unfold Int64.max; lia].
Defined.

(** C1 as stated fails on the [float64] revision at [v = 0].  With the key
    cached (here with 1, so [v <= c]) the claim wants [(true, 0)], and with
    the key absent it wants 0 stored; the code reports [(false, 0)] both
    times and stores nothing. *)
Lemma cacheAndDiff_float_zero_counterexample :
  let cf := Example.cacheOf 4 [("aa-bb-total_rows", 1%float)] in
  let empty := Example.cacheOf 4 (@nil (string * float)) in
  lru.Peek "aa-bb-total_rows" cf = Some 1%float
  /\ PrimFloat.ltb 0 0 = false /\ PrimFloat.leb 0 1 = true
  /\ ScraperF.cacheAndDiff (Some cf) "aa" "bb" "total_rows" 0%float
     = (Some cf, (false, 0%float))
  /\ snd (ScraperF.cacheAndDiff (Some cf) "aa" "bb" "total_rows" 0%float)
     <> (true, 0%float)
  /\ ScraperF.cacheAndDiff (Some empty) "aa" "bb" "total_rows" 0%float
     = (Some empty, (false, 0%float))
  /\ lru.Peek "aa-bb-total_rows" empty = None.
Proof.
  cbv zeta. repeat split; try reflexivity.
  intros H. discriminate H.
Qed.

(** ** Runs of [cacheAndDiff] *)

(** What one call does to the stored values and what it reports. *)
Definition stepwise (o : observation) : Prop :=
  (forall k old new,
      lru.Peek k (before o) = Some old -> lru.Peek k (after o) = Some new ->
      old <= new
      /\ (old <> new ->
          k = callKey (made o) /\ new = callVal (made o) /\ old < new))
  /\ (0 <= callVal (made o) ->
      match lru.Peek (callKey (made o)) (before o) with
      | None => reported o = (false, callVal (made o))
      | Some cached =>
          fst (reported o) = true
          /\ (snd (reported o) = 0
              \/ (0 < snd (reported o)
                  /\ snd (reported o) = callVal (made o) - cached))
      end)
  /\ 0 <= snd (reported o).

Lemma counters_Get : forall c k, counters c -> counters (fst (lru.Get k c)).
Proof.
  unfold counters. intros c k H. rewrite Forall_forall in *.
  intros p Hp. apply H. eapply Get_items; eauto.
Qed.

Lemma counters_Add : forall c k v,
  0 <= v <= Int64.max -> counters c -> counters (fst (lru.Add k v c)).
Proof.
  unfold counters. intros c k v Hv H. rewrite Forall_forall in *.
  intros p Hp. apply Add_items in Hp. destruct Hp as [->|Hp]; [exact Hv|auto].
Qed.

Lemma counters_Peek : forall c k x,
  counters c -> lru.Peek k c = Some x -> 0 <= x <= Int64.max.
Proof.
  unfold counters, lru.Peek. intros c k x H Hf.
  rewrite Forall_forall in H. apply (H (k, x)). now apply find_In.
Qed.

Lemma stepwise_intro : forall (c c' : lru.Cache Z) (cl : call) (r : bool * Z),
  (forall k old new,
      lru.Peek k c = Some old -> lru.Peek k c' = Some new ->
      old = new \/ (k = callKey cl /\ new = callVal cl /\ old < new)) ->
  (0 <= callVal cl ->
   match lru.Peek (callKey cl) c with
   | None => r = (false, callVal cl)
   | Some cached =>
       fst r = true
       /\ (snd r = 0 \/ (0 < snd r /\ snd r = callVal cl - cached))
   end) ->
  0 <= snd r ->
  stepwise (mkObservation c cl r c').
Proof.
  intros c c' cl r Hstored Hrep Hpos. unfold stepwise; simpl.
  split; [|split; assumption].
  intros k old new Ho Hn.
  destruct (Hstored k old new Ho Hn) as [->|(Hk & Hv & Hlt)].
  - split; [lia|]. intros Hne. now contradiction Hne.
  - split; [lia|]. intros _. auto.
Qed.

(** The cache after a call, read off the code. *)
Lemma cacheAndDiff_after : forall (c : lru.Cache Z) qh ph col v,
  0 <= v ->
  let key := counterKey qh ph col in
  cacheAndDiff (Some c) qh ph col v =
  match lru.Peek key c with
  | None => (Some (fst (lru.Add key v (fst (lru.Get key c)))), (false, v))
  | Some cached =>
      if cached <? v
      then (Some (fst (lru.Add key v (fst (lru.Get key c)))),
            (true, Int64.sub v cached))
      else (Some (fst (lru.Get key c)), (true, 0))
  end.
Proof.
  intros c qh ph col v Hv key. unfold cacheAndDiff. fold key.
  destruct (Z.ltb_spec v 0); [lia|].
  rewrite <- (Get_result c key).
  destruct (lru.Get key c) as [c1 [cached|]]; reflexivity.
Qed.

Lemma cacheAndDiff_step : forall (c : lru.Cache Z) (cl : call),
  (0 < lru.size c)%nat -> counters c -> callVal cl <= Int64.max ->
  exists c' r,
    cacheAndDiff (Some c) (callHash cl) (callPlanHash cl) (callColumn cl)
      (callVal cl) = (Some c', r)
    /\ (0 < lru.size c')%nat /\ counters c'
    /\ stepwise (mkObservation c cl r c').
Proof.
  intros c cl Hsize Hcnt Hmax.
  destruct cl as [qh ph col v]. cbn [callHash callPlanHash callColumn callVal] in *.
  set (cl := mkCall qh ph col v).
  set (key := counterKey qh ph col).
  assert (Hother : forall k old new,
             k <> key -> lru.Peek k c = Some old ->
             lru.Peek k (fst (lru.Add key v (fst (lru.Get key c)))) = Some new ->
             old = new).
  { intros k old new Hne Ho Hn. apply Add_Peek_other in Hn; [|assumption].
    rewrite Get_Peek in Hn. congruence. }
  assert (Hnew : lru.Peek key (fst (lru.Add key v (fst (lru.Get key c))))
                 = Some v).
  { apply Add_Peek_same. now rewrite Get_size. }
  destruct (Z.ltb_spec v 0) as [Hneg|Hv].
  - exists c, (false, 0). rewrite cacheAndDiff_negative by assumption.
    split; [reflexivity|]. split; [assumption|]. split; [assumption|].
    apply stepwise_intro; cbn [callVal cl snd]; [|lia|lia].
    intros k old new Ho Hn. left. congruence.
  - rewrite cacheAndDiff_after by assumption. fold key.
    destruct (lru.Peek key c) as [cached|] eqn:Hpeek.
    + pose proof (counters_Peek c key cached Hcnt Hpeek) as Hcached.
      destruct (Z.ltb_spec cached v) as [Hlt|Hle].
      * eexists; eexists. split; [reflexivity|].
        split; [now rewrite Add_size, Get_size|].
        split; [apply counters_Add; [lia|now apply counters_Get]|].
        apply stepwise_intro; unfold callKey;
          cbn [callVal callHash callPlanHash callColumn cl snd fst];
          fold key.
        -- intros k old new Ho Hn.
           destruct (String.eqb_spec k key) as [->|Hne].
           ++ right. rewrite Hpeek in Ho. rewrite Hnew in Hn.
              injection Ho as <-. injection Hn as <-. auto.
           ++ left. eapply Hother; eauto.
        -- intros _. rewrite Hpeek. split; [reflexivity|]. right.
           rewrite sub_counters_exact by lia. lia.
        -- rewrite sub_counters_exact by lia. lia.
      * eexists; eexists. split; [reflexivity|].
        split; [now rewrite Get_size|].
        split; [now apply counters_Get|].
        apply stepwise_intro; unfold callKey;
          cbn [callVal callHash callPlanHash callColumn cl snd fst];
          fold key.
        -- intros k old new Ho Hn. left. rewrite Get_Peek in Hn. congruence.
        -- intros _. rewrite Hpeek. split; [reflexivity|]. now left.
        -- lia.
    + eexists; eexists. split; [reflexivity|].
      split; [now rewrite Add_size, Get_size|].
      split; [apply counters_Add; [lia|now apply counters_Get]|].
      apply stepwise_intro; unfold callKey;
        cbn [callVal callHash callPlanHash callColumn cl snd fst];
        fold key.
      * intros k old new Ho Hn.
        destruct (String.eqb_spec k key) as [->|Hne]; [congruence|].
        left. eapply Hother; eauto.
      * intros _. rewrite Hpeek. reflexivity.
      * lia.
Qed.

(** C10, as amended.  Across any sequence of [cacheAndDiff] calls that starts
    from an initialized cache of counters, each call leaves every key that
    stays stored with the value it had or with a strictly larger one, the
    latter only for the key of the call and only with the value of the call;
    no difference reported is negative; for a nonnegative input a first
    observation reports the input itself and a later one zero or the strictly
    positive difference to the cached value.  (What is not claimed: a key
    that the LRU bound evicted counts as a first observation again and may
    come back with a smaller value.) *)
Theorem cacheAndDiff_run_stepwise_monotone :
  forall (calls : list call) (c : lru.Cache Z),
    (0 < lru.size c)%nat -> counters c ->
    Forall (fun cl => callVal cl <= Int64.max) calls ->
    List.length (observe c calls) = List.length calls
    /\ Forall stepwise (observe c calls).
Proof.
  induction calls as [|cl calls IH]; intros c Hsize Hcnt Hcalls; simpl.
  - split; [reflexivity|constructor].
  - inversion Hcalls as [|? ? Hcl Hrest]; subst.
    destruct (cacheAndDiff_step c cl Hsize Hcnt Hcl)
      as (c' & r & Hout & Hsize' & Hcnt' & Hstep).
    rewrite Hout. destruct (IH c' Hsize' Hcnt' Hrest) as [Hlen Hall].
    simpl. split; [now rewrite Hlen|now constructor].
Qed.

(** The theorem on a fresh cache of size 2 and two observations of one key. *)
Lemma cacheAndDiff_run_witness :
  let c := Example.cacheOf 2 (@nil (string * Z)) in
  let calls :=
    [mkCall "aa" "bb" "total_rows" 10; mkCall "aa" "bb" "total_rows" 15] in
  (0 < lru.size c)%nat /\ counters c
  /\ Forall (fun cl => callVal cl <= Int64.max) calls
  /\ map reported (observe c calls) = [(false, 10); (true, 5)]
  /\ Forall stepwise (observe c calls).
Proof.
  intros c calls.
  assert (Hsize : (0 < lru.size c)%nat) by (simpl; lia).
  assert (Hcnt : counters c) by constructor.
  assert (Hcalls : Forall (fun cl => callVal cl <= Int64.max) calls).
  { repeat constructor; unfold Int64.max; simpl; lia. }
  split; [exact Hsize|]. split; [exact Hcnt|]. split; [exact Hcalls|].
  split; [reflexivity|].
  exact (proj2 (cacheAndDiff_run_stepwise_monotone calls c Hsize Hcnt Hcalls)).
Defined.

(** C10 as stated fails when the LRU bound evicts a key between two of its
    observations.  On a cache of size 1 the key [aa-bb-total_rows] is stored
    with 10, evicted by the insertion of another key, and stored again with
    3: its stored value went down, and all three calls report a first
    observation. *)
Lemma cacheAndDiff_eviction_counterexample :
  let run :=
    observe (Example.cacheOf 1 (@nil (string * Z)))
      [mkCall "aa" "bb" "total_rows" 10; mkCall "cc" "dd" "total_rows" 5;
       mkCall "aa" "bb" "total_rows" 3] in
  map reported run = [(false, 10); (false, 5); (false, 3)]
  /\ map (fun o => lru.Peek "aa-bb-total_rows" (after o)) run
     = [Some 10; None; Some 3]
  /\ ~ neverDecreases run.
Proof.
  cbv zeta. split; [reflexivity|]. split; [reflexivity|].
  intros H.
  assert (Hle : 10 <= 3).
  { eapply (H 0%nat 2%nat _ _ "aa-bb-total_rows");
      [lia|reflexivity|reflexivity|reflexivity|reflexivity]. }
  lia.
Qed.

(** ** Sorting *)

Section InsertionSort.

Context {A : Type} (less : A -> A -> bool).

Lemma insertBack_perm : forall (x : A) (r : list A),
  Permutation (x :: r) (sort.insertBack less x r).
Proof.
  induction r as [|y r IH]; simpl; [reflexivity|].
  destruct (less x y); [|reflexivity].
  rewrite perm_swap. now constructor.
Qed.

Lemma insertion_fold_perm : forall (x acc : list A),
  Permutation (List.app x acc)
    (fold_left (fun acc e => sort.insertBack less e acc) x acc).
Proof.
  induction x as [|e x IH]; intros acc; simpl; [reflexivity|].
  rewrite <- IH. rewrite <- insertBack_perm. apply Permutation_middle.
Qed.

Lemma insertionSort_perm : forall x : list A,
  Permutation x (sort.insertionSort A less x).
Proof.
  intros x. unfold sort.insertionSort.
  rewrite <- Permutation_rev. rewrite <- insertion_fold_perm.
  now rewrite app_nil_r.
Qed.

Hypothesis Hless : sort.strictWeak less.

(** On the reversed prefix an element never is less than a later one. *)
Let backSorted : list A -> Prop :=
  StronglySorted (fun a b => less a b = false).

Lemma insertBack_sorted : forall (x : A) (r : list A),
  backSorted r -> backSorted (sort.insertBack less x r).
Proof.
  destruct Hless as [Hasym Hneg].
  induction r as [|y r IH]; intros Hr; simpl.
  - repeat constructor.
  - inversion Hr as [|? ? Hr' Hy]; subst.
    destruct (less x y) eqn:Hxy.
    + constructor; [now apply IH|].
      rewrite Forall_forall in *. intros z Hz.
      apply (Permutation_in _ (Permutation_sym (insertBack_perm x r))) in Hz.
      destruct Hz as [<-|Hz]; [now apply Hasym|now apply Hy].
    + constructor; [assumption|].
      constructor; [assumption|].
      rewrite Forall_forall in *. intros z Hz.
      apply Hneg with y; [assumption|now apply Hy].
Qed.

Lemma insertion_fold_sorted : forall (x acc : list A),
  backSorted acc ->
  backSorted (fold_left (fun acc e => sort.insertBack less e acc) x acc).
Proof.
  induction x as [|e x IH]; intros acc Hacc; simpl; [assumption|].
  apply IH. now apply insertBack_sorted.
Qed.

End InsertionSort.

Lemma StronglySorted_app_one : forall (A : Type) (R : A -> A -> Prop)
    (l : list A) (x : A),
  StronglySorted R l -> Forall (fun y => R y x) l ->
  StronglySorted R (List.app l [x]).
Proof.
  induction l as [|a l IH]; intros x Hs Hall; simpl.
  - repeat constructor.
  - inversion Hs; inversion Hall; subst.
    constructor; [now apply IH|].
    apply Forall_app. split; [assumption|now constructor].
Qed.

Lemma StronglySorted_rev : forall (A : Type) (R : A -> A -> Prop) (l : list A),
  StronglySorted R l -> StronglySorted (fun a b => R b a) (rev l).
Proof.
  induction l as [|a l IH]; intros Hs; simpl; [constructor|].
  inversion Hs as [|? ? Hl Ha]; subst.
  apply StronglySorted_app_one; [now apply IH|].
  rewrite Forall_forall in *. intros y Hy. apply Ha. now apply in_rev.
Qed.

(** Insertion sort keeps the promise of [sort.Slice]. *)
Lemma insertionSort_contract : sort.Slice_contract sort.insertionSort.
Proof.
  constructor.
  - intros A less x. apply insertionSort_perm.
  - intros A less x Hless. unfold sort.insertionSort.
    apply (StronglySorted_rev A (fun a b => less a b = false)).
    apply insertion_fold_sorted; [assumption|constructor].
Qed.

Lemma descending_head_max : forall (a : Z) (l : list Z) (x : Z),
  descending (a :: l) -> In x (a :: l) -> x <= a.
Proof.
  intros a l x Hs Hin. inversion Hs as [|? ? _ Hall]; subst.
  destruct Hin as [<-|Hin]; [lia|].
  rewrite Forall_forall in Hall. specialize (Hall x Hin). lia.
Qed.

(** A list has one descending arrangement. *)
Lemma descending_perm_eq : forall l1 l2 : list Z,
  descending l1 -> descending l2 -> Permutation l1 l2 -> l1 = l2.
Proof.
  induction l1 as [|a l1 IH]; intros l2 H1 H2 Hp.
  - apply Permutation_nil in Hp. now subst.
  - destruct l2 as [|b l2];
      [apply Permutation_sym, Permutation_nil in Hp; discriminate|].
    assert (Hab : a = b).
    { assert (b <= a).
      { apply (descending_head_max a l1); [assumption|].
        apply (Permutation_in _ (Permutation_sym Hp)). now left. }
      assert (a <= b).
      { apply (descending_head_max b l2); [assumption|].
        apply (Permutation_in _ Hp). now left. }
      lia. }
    subst b. f_equal. apply IH.
    + now inversion H1.
    + now inversion H2.
    + now apply Permutation_cons_inv in Hp.
Qed.

Lemma StronglySorted_map : forall (A B : Type) (R : A -> A -> Prop)
    (Q : B -> B -> Prop) (f : A -> B) (l : list A),
  (forall a b, R a b -> Q (f a) (f b)) ->
  StronglySorted R l -> StronglySorted Q (map f l).
Proof.
  intros A B R Q f l HRQ. induction 1 as [|a l Hs IH Hall]; simpl.
  - constructor.
  - constructor; [assumption|].
    rewrite Forall_forall in *. intros y Hy.
    apply in_map_iff in Hy. destruct Hy as (x & <- & Hx). auto.
Qed.

Lemma map_nth_seq : forall (A : Type) (l : list A) (d : A),
  map (fun i => nth i l d) (seq 0 (List.length l)) = l.
Proof.
  intros A l d. induction l as [|a l IH]; simpl; [reflexivity|].
  f_equal. rewrite <- seq_shift, map_map. exact IH.
Qed.

Lemma byValue_strictWeak : forall values : list Z,
  sort.strictWeak (fun a b : nat => nth b values 0 <? nth a values 0).
Proof.
  intros values. split.
  - intros a b H. apply Z.ltb_lt in H. apply Z.ltb_ge. lia.
  - intros a b c H1 H2. apply Z.ltb_ge in H1, H2. apply Z.ltb_ge. lia.
Qed.

Lemma greater_strictWeak : sort.strictWeak (fun a b : Z => b <? a).
Proof.
  split.
  - intros a b H. apply Z.ltb_lt in H. apply Z.ltb_ge. lia.
  - intros a b c H1 H2. apply Z.ltb_ge in H1, H2. apply Z.ltb_ge. lia.
Qed.

Section SortedJointly.

Variable env : Env.
Hypothesis Hsort : sort.Slice_contract (Slice env).

Lemma sortDiffs_perm : forall diffs, Permutation diffs (sortDiffs env diffs).
Proof. intros diffs. apply (sort.Slice_perm _ Hsort). Qed.

Lemma sortDiffs_descending : forall diffs, descending (sortDiffs env diffs).
Proof.
  intros diffs.
  pose proof (sort.Slice_sorted _ Hsort Z (fun a b => b <? a) diffs
                greater_strictWeak) as H.
  unfold descending, sortDiffs.
  rewrite <- (map_id (Slice env Z _ diffs)).
  eapply StronglySorted_map; [|exact H].
  intros a b Hab. simpl in Hab. apply Z.ltb_ge in Hab. lia.
Qed.

Lemma sortDiffs_length : forall diffs,
  List.length (sortDiffs env diffs) = List.length diffs.
Proof.
  intros diffs. symmetry. apply Permutation_length, sortDiffs_perm.
Qed.

Lemma sortedIndices_perm : forall values,
  Permutation (seq 0 (List.length values)) (sortedIndices env values).
Proof. intros values. apply (sort.Slice_perm _ Hsort). Qed.

Lemma sortedIndices_values : forall values,
  map (fun i => nth i values 0) (sortedIndices env values)
  = sortDiffs env values.
Proof.
  intros values. apply descending_perm_eq.
  - unfold descending, sortedIndices.
    eapply StronglySorted_map;
      [|apply (sort.Slice_sorted _ Hsort); apply byValue_strictWeak].
    intros a b H. simpl in H. apply Z.ltb_ge in H. lia.
  - apply sortDiffs_descending.
  - rewrite <- sortDiffs_perm.
    rewrite <- (map_nth_seq Z values 0) at 2.
    apply Permutation_map, Permutation_sym, sortedIndices_perm.
Qed.

Lemma sortRows_indices : forall rows values,
  List.length rows = List.length values ->
  sortRows env rows values
  = Some (map (fun i => nth i rows []) (sortedIndices env values)).
Proof.
  intros rows values Hlen. unfold sortRows.
  rewrite Hlen, Nat.ltb_irrefl, Nat.sub_diag. simpl.
  now rewrite app_nil_r.
Qed.

End SortedJointly.

(** C6, as amended.  For rows and differences of one length, and any
    [sort.Slice] that keeps its documented promise, [sortRows] and the sort
    of [totalElapsedTimeDiffs] arrange both by one permutation [idx] of the
    input positions: the i-th row of the result is the input row [idx[i]],
    the i-th difference is the difference of that same input row, and the
    differences descend.  (Not claimed: the order among rows of equal
    difference, which [sort.Slice] leaves open.) *)
Theorem sortRows_jointly_descending :
  forall (env : Env) (rows : list StringMap) (values : list Z),
    sort.Slice_contract (Slice env) ->
    List.length rows = List.length values ->
    exists (idx : list nat) (sorted : list StringMap),
      Permutation (seq 0 (List.length rows)) idx
      /\ sortRows env rows values = Some sorted
      /\ sorted = map (fun i => nth i rows []) idx
      /\ sortDiffs env values = map (fun i => nth i values 0) idx
      /\ descending (sortDiffs env values).
Proof.
  intros env rows values Hsort Hlen.
  exists (sortedIndices env values), (map (fun i => nth i rows [])
                                       (sortedIndices env values)).
  split; [rewrite Hlen; now apply sortedIndices_perm|].
  split; [now apply sortRows_indices|].
  split; [reflexivity|].
  split; [symmetry; now apply sortedIndices_values|].
  now apply sortDiffs_descending.
Qed.

(** The theorem on three rows with the differences 10, 500 and 100. *)
Lemma sortRows_jointly_descending_witness :
  let rows := [Example.named 0; Example.named 1; Example.named 2] in
  let values := [10; 500; 100] in
  sort.Slice_contract (Slice Example.insertionEnv)
  /\ List.length rows = List.length values
  /\ sortRows Example.insertionEnv rows values
     = Some [Example.named 1; Example.named 2; Example.named 0]
  /\ sortDiffs Example.insertionEnv values = [500; 100; 10]
  /\ exists (idx : list nat) (sorted : list StringMap),
      Permutation (seq 0 (List.length rows)) idx
      /\ sortRows Example.insertionEnv rows values = Some sorted
      /\ sorted = map (fun i => nth i rows []) idx
      /\ sortDiffs Example.insertionEnv values
         = map (fun i => nth i values 0) idx
      /\ descending (sortDiffs Example.insertionEnv values).
Proof.
  intros rows values.
  split; [exact insertionSort_contract|].
  split; [reflexivity|].
  split; [reflexivity|].
  split; [reflexivity|].
  exact (sortRows_jointly_descending Example.insertionEnv rows values
           insertionSort_contract eq_refl).
Defined.

(** C6 as stated fails on ties.  Of thirteen rows the first twelve have the
    same difference and the last a larger one.  [sort.Slice] runs one round
    of pattern-defeating quicksort on the thirteen indices: the pivot, index
    6, is exchanged with index 0, then index 12 with index 1.  In the result
    the row of input position 6 stands before the rows of positions 2 to 5
    and 0, and the row of position 1 stands last. *)
Lemma sortRows_ties_counterexample :
  let rows := Example.thirteenRows in
  let values := Example.thirteenDiffs in
  List.length rows = List.length values
  /\ sortedIndices Example.pdqsortEnv values
     = [12; 6; 2; 3; 4; 5; 0; 7; 8; 9; 10; 11; 1]%nat
  /\ sortRows Example.pdqsortEnv rows values
     = Some (map Example.named [12; 6; 2; 3; 4; 5; 0; 7; 8; 9; 10; 11; 1]%nat)
  /\ nth 0 values 0 = nth 6 values 0
  /\ sortRows Example.pdqsortEnv rows values
     <> Some (map Example.named [12; 0; 1; 2; 3; 4; 5; 6; 7; 8; 9; 10; 11]%nat).
Proof.
  cbv zeta. split; [reflexivity|]. split; [reflexivity|].
  split; [reflexivity|]. split; [reflexivity|].
  vm_compute. discriminate.
Qed.

(** ** The wait type classifier *)

Lemma anyOf_HasPrefix_2 : forall s p q,
  anyOf s strings.HasPrefix [p; q] = String.prefix p s || String.prefix q s.
Proof.
  intros s p q. unfold strings.HasPrefix. simpl.
  destruct (String.prefix p s), (String.prefix q s); reflexivity.
Qed.

Lemma anyOf_HasPrefix_3 : forall s p q r,
  anyOf s strings.HasPrefix [p; q; r]
  = String.prefix p s || String.prefix q s || String.prefix r s.
Proof.
  intros s p q r. unfold strings.HasPrefix. simpl.
  destruct (String.prefix p s), (String.prefix q s), (String.prefix r s);
    reflexivity.
Qed.

Lemma anyOf_HasPrefix_4 : forall s p q r t,
  anyOf s strings.HasPrefix [p; q; r; t]
  = String.prefix p s || String.prefix q s || String.prefix r s
    || String.prefix t s.
Proof.
  intros s p q r t. unfold strings.HasPrefix. simpl.
  destruct (String.prefix p s), (String.prefix q s), (String.prefix r s),
    (String.prefix t s); reflexivity.
Qed.

Lemma prefix_cons : forall (a c : ascii) (p s : string),
  String.prefix (String a p) (String c s) = Ascii.eqb a c && String.prefix p s.
Proof.
  intros a c p s. cbn [String.prefix].
  destruct (ascii_dec a c) as [->|Hne].
  - now rewrite Ascii.eqb_refl.
  - destruct (Ascii.eqb_spec a c); [contradiction|reflexivity].
Qed.

(** A name under the [LATCH_] rule is under neither page latch rule: the
    one place where the code orders the rules differently from the spec. *)
Lemma latch_excludes_page_latch : forall s,
  String.prefix "LATCH_" s = true ->
  String.prefix "PAGELATCH_" s = false
  /\ String.prefix "PAGEIOLATCH_" s = false.
Proof.
  intros [|c s] H; [discriminate H|].
  rewrite !prefix_cons in *.
  destruct (Ascii.eqb_spec "L" c) as [<-|Hne]; [|discriminate H].
  split; reflexivity.
Qed.

(** The switch of [getWaitCategory] agrees with the rules in the order of
    the spec. *)
Lemma getWaitCategory_spec_order : forall (env : Env) (s : string),
  detailedWaitTypes env s = None ->
  getWaitCategory env s = classifyBySpecOrder s.
Proof.
  intros env s Htab. unfold getWaitCategory. rewrite Htab.
  rewrite anyOf_HasPrefix_2, anyOf_HasPrefix_4, !anyOf_HasPrefix_3.
  unfold classifyBySpecOrder, specRules, strings.HasPrefix.
  cbn [find fst snd].
  destruct (String.prefix "LOCK_M_" s); [reflexivity|].
  destruct (String.prefix "LATCH_" s) eqn:Hlatch.
  - destruct (latch_excludes_page_latch s Hlatch) as [-> ->]. reflexivity.
  - destruct (String.prefix "PAGELATCH_" s); [reflexivity|].
    destruct (String.prefix "PAGEIOLATCH_" s); [reflexivity|].
    repeat
      match goal with
      | |- context [if ?b then _ else _] => destruct b; try reflexivity
      end.
Qed.

(** C7.  [getWaitCategory] is a function of the tables and the name, so it
    is total and deterministic.  For every name that is not in the detailed
    table it returns the bucket of the first prefix rule that applies, taken
    in the order of the spec, and [(0, "Unknown")] when none applies; so
    [PAGEIOLATCH_SH] gives [(6, "Buffer IO")] and
    [HADR_THROTTLE_LOG_RATE_GOVERNOR] gives [(0, "Unknown")] when the table
    does not list them. *)
Theorem getWaitCategory_first_applicable_rule :
  forall (env : Env) (s : string),
    detailedWaitTypes env s = None ->
    (exists! r, getWaitCategory env s = r)
    /\ getWaitCategory env s = classifyBySpecOrder s
    /\ ((forall rule, In rule specRules -> fst rule s = false) ->
        getWaitCategory env s = (0%nat, "Unknown"))
    /\ (s = "PAGEIOLATCH_SH" -> getWaitCategory env s = (6%nat, "Buffer IO"))
    /\ (s = "HADR_THROTTLE_LOG_RATE_GOVERNOR" ->
        getWaitCategory env s = (0%nat, "Unknown"))
    /\ (s = "HADR_SYNC_COMMIT" ->
        getWaitCategory env s = (22%nat, "Replication")).
Proof.
  intros env s Htab.
  pose proof (getWaitCategory_spec_order env s Htab) as Heq.
  split; [exists (getWaitCategory env s); split; [reflexivity|auto]|].
  split; [exact Heq|].
  split.
  - intros Hnone. rewrite Heq. unfold classifyBySpecOrder.
    destruct (find (fun rule => fst rule s) specRules) as [rule|] eqn:Hfind;
      [|reflexivity].
    apply find_some in Hfind. destruct Hfind as [Hin Happ].
    rewrite (Hnone rule Hin) in Happ. discriminate.
  - rewrite Heq. repeat split; intros ->; reflexivity.
Qed.

(** The theorem in the example environment, whose table does not list
    [PAGEIOLATCH_SH]. *)
Lemma getWaitCategory_witness :
  detailedWaitTypes Example.insertionEnv "PAGEIOLATCH_SH" = None
  /\ getWaitCategory Example.insertionEnv "PAGEIOLATCH_SH"
     = (6%nat, "Buffer IO").
Proof.
  split; [reflexivity|].
  destruct (getWaitCategory_first_applicable_rule Example.insertionEnv
              "PAGEIOLATCH_SH" eq_refl) as (_ & _ & _ & H & _).
  exact (H eq_refl).
Defined.

(** ** The dispatch *)

(** C9.  A configured query that equals none of the catalog outputs of the
    metric kinds makes [ScrapeMetrics] return empty metrics and an error; one
    that equals none of the catalog outputs of the log kinds makes
    [ScrapeLogs] return empty logs and an error.  The scraper itself is left
    as it was.  This holds for the dispatch of [scraper.go:106-134] (three
    metric kinds, one log kind) and for that of [part_004:103-136] (four
    metric kinds, two log kinds), whatever the mappers do. *)
Theorem Scrape_unsupported_query :
  forall (env : Env) (io perf status : metricMapper)
         (samples : sqlServerScraperHelper ->
                    option (sqlServerScraperHelper
                            * (plog.Logs * option (list error))))
         (s : sqlServerScraperHelper),
    let q := sqlQuery s in
    let ioQuery := getSQLServerDatabaseIOQuery env (instanceName s) in
    let perfQuery :=
      getSQLServerPerformanceCounterQuery env (instanceName s) in
    let propsQuery := getSQLServerPropertiesQuery env (instanceName s) in
    let topQuery :=
      getSQLServerQueryMetricsQuery env (instanceName s)
        (maxQuerySampleCount s) (lookbackTime s) in
    let planQuery :=
      getSQLServerQueryTextAndPlanQuery env (instanceName s)
        (maxQuerySampleCount s) (lookbackTime s) in
    let samplesQuery := getSQLServerQuerySamplesQuery env in
    (q <> ioQuery -> q <> perfQuery -> q <> propsQuery ->
     Scraper.ScrapeMetrics env io perf status s
     = (s, ([], Some (unsupportedMetrics q))))
    /\ (q <> planQuery ->
        Scraper.ScrapeLogs env s = Some (s, ([], Some (unsupportedLogs q))))
    /\ (q <> ioQuery -> q <> perfQuery -> q <> propsQuery -> q <> topQuery ->
        Part004.ScrapeMetrics env io perf status s
        = Some (s, ([], Some (unsupportedMetrics q))))
    /\ (q <> planQuery -> q <> samplesQuery ->
        Part004.ScrapeLogs env samples s
        = Some (s, ([], Some (unsupportedLogs q)))).
Proof.
  intros env io perf status samples s q ioQuery perfQuery propsQuery topQuery
    planQuery samplesQuery.
  unfold Scraper.ScrapeMetrics, Scraper.ScrapeLogs, Part004.ScrapeMetrics,
    Part004.ScrapeLogs.
  fold q ioQuery perfQuery propsQuery topQuery planQuery samplesQuery.
  repeat split; intros;
    repeat
      match goal with
      | H : ?a <> ?b |- context [String.eqb ?a ?b] =>
          rewrite (proj2 (String.eqb_neq a b) H)
      end;
    reflexivity.
Qed.

(** The theorem on a scraper configured with a query outside the catalog. *)
Lemma Scrape_unsupported_query_witness :
  let env := Example.insertionEnv in
  let s :=
    mkHelper "Invalid SQL query" "I" 10 10 10 ([], None)
      metadata.NewMetricsBuilder (lru.New 8) in
  let idle : metricMapper := fun s => (s, None) in
  sqlQuery s <> getSQLServerDatabaseIOQuery env (instanceName s)
  /\ sqlQuery s <> getSQLServerPerformanceCounterQuery env (instanceName s)
  /\ sqlQuery s <> getSQLServerPropertiesQuery env (instanceName s)
  /\ Scraper.ScrapeMetrics env idle idle idle s
     = (s, ([], Some [ErrMsg "Attempted to get metrics from unsupported query: Invalid SQL query"])).
Proof.
  intros env s idle.
  assert (H1 : sqlQuery s <> getSQLServerDatabaseIOQuery env (instanceName s))
    by (intros H; discriminate H).
  assert (H2 : sqlQuery s
               <> getSQLServerPerformanceCounterQuery env (instanceName s))
    by (intros H; discriminate H).
  assert (H3 : sqlQuery s <> getSQLServerPropertiesQuery env (instanceName s))
    by (intros H; discriminate H).
  split; [exact H1|]. split; [exact H2|]. split; [exact H3|].
  exact (proj1 (Scrape_unsupported_query env idle idle idle
                  (fun s => Some (s, ([], None))) s) H1 H2 H3).
Defined.

(** ** The plan obfuscator *)

Lemma obfuscateAttr_untargeted : forall (env : Env) (a : xml.Attr),
  ~ In (xml.Local (xml.AttrName a)) XMLPlanObfuscationAttrs ->
  obfuscateAttr env a = a.
Proof.
  intros env a Hout. unfold obfuscateAttr, XMLPlanObfuscationAttrs in *.
  simpl in *.
  repeat
    match goal with
    | |- context [String.eqb ?x ?y] =>
        destruct (String.eqb_spec x y) as [Heq|_];
        [exfalso; apply Hout; rewrite Heq; tauto|]
    end.
  reflexivity.
Qed.

Lemma rewriteToken_untouched : forall (env : Env) (t : xml.Token),
  untargeted t -> trimmed t -> rewriteToken env t = t.
Proof.
  intros env [name attr| | | | |] Hattr Htrim; simpl in *;
    try reflexivity.
  - f_equal. induction Hattr as [|a attr Ha _ IH]; simpl; [reflexivity|].
    now rewrite obfuscateAttr_untargeted, IH.
  - now rewrite Htrim.
Qed.

Lemma encodeLoop_ext : forall (env : Env) (f g : xml.Token -> xml.Token)
    (tokens : list xml.Token) (enc : Encoder env),
  Forall (fun t => f t = g t) tokens ->
  encodeLoop env f enc tokens = encodeLoop env g enc tokens.
Proof.
  intros env f g tokens. induction tokens as [|t tokens IH]; intros enc Hall.
  - reflexivity.
  - inversion Hall as [|? ? Ht Hrest]; subst. simpl. rewrite Ht.
    destruct (EncodeToken env enc (g t)); [now apply IH|reflexivity].
Qed.

(** C8, as amended.  For every plan whose tokens carry none of the four
    targeted attribute names and whose character data has no white space at
    either end (so none that is white space only), [obfuscateXMLPlan] returns
    what decoding the plan and encoding its tokens unchanged returns: the
    same text and no error whenever that re-serialisation succeeds, which it
    can only on a well-formed plan. *)
Theorem obfuscateXMLPlan_identity_on_trimmed_plans :
  forall (env : Env) (rawPlan : string),
    Forall (fun t => untargeted t /\ trimmed t) (fst (NewDecoder env rawPlan)) ->
    obfuscateXMLPlan env rawPlan = reserializeXML env rawPlan
    /\ (forall out,
           reserializeXML env rawPlan = (out, None) ->
           obfuscateXMLPlan env rawPlan = (out, None)
           /\ snd (NewDecoder env rawPlan) = xml.EOF).
Proof.
  intros env rawPlan Hall.
  assert (Heq : obfuscateXMLPlan env rawPlan = reserializeXML env rawPlan).
  { unfold obfuscateXMLPlan, reserializeXML, encodePlan.
    destruct (NewDecoder env rawPlan) as [tokens stop]. simpl in Hall.
    rewrite (encodeLoop_ext env (rewriteToken env) (fun t => t)); [reflexivity|].
    eapply Forall_impl; [|exact Hall].
    intros t [Hu Ht]. now apply rewriteToken_untouched. }
  split; [exact Heq|].
  intros out Hout. split; [now rewrite Heq|].
  unfold reserializeXML, encodePlan in Hout.
  destruct (NewDecoder env rawPlan) as [tokens stop]. simpl.
  destruct (encodeLoop env (fun t => t) (NewEncoder env) tokens);
    [|discriminate Hout].
  destruct stop; [reflexivity|discriminate Hout].
Qed.

(** The theorem on a plan with an attribute and text, none of them targeted
    or padded. *)
Lemma obfuscateXMLPlan_identity_witness :
  Forall (fun t => untargeted t /\ trimmed t)
    (fst (NewDecoder Example.insertionEnv Example.plainPlan))
  /\ obfuscateXMLPlan Example.insertionEnv Example.plainPlan
     = (Example.plainPlan, None).
Proof.
  assert (Hall : Forall (fun t => untargeted t /\ trimmed t)
                   (fst (NewDecoder Example.insertionEnv Example.plainPlan))).
  { repeat constructor; simpl; intuition discriminate. }
  split; [exact Hall|].
  exact (proj1 (proj2 (obfuscateXMLPlan_identity_on_trimmed_plans
                         Example.insertionEnv Example.plainPlan Hall)
                  Example.plainPlan eq_refl)).
Defined.

(** C8 as stated fails on character data that has white space around other
    text.  The plan [<a> x </a>] is well formed, has no attribute at all and
    no character data that is white space only; its re-serialisation is the
    plan itself, but [obfuscateXMLPlan] returns [<a>x</a>]: [bytes.TrimSpace]
    is applied to every [CharData] token. *)
Lemma obfuscateXMLPlan_padded_text_counterexample :
  NewDecoder Example.insertionEnv Example.paddedText
  = ([xml.StartElement (Example.elem "a") []; xml.CharData " x ";
      xml.EndElement (Example.elem "a")], xml.EOF)
  /\ Forall (fun t => untargeted t /\ notBlank t)
       (fst (NewDecoder Example.insertionEnv Example.paddedText))
  /\ reserializeXML Example.insertionEnv Example.paddedText
     = ("<a> x </a>", None)
  /\ obfuscateXMLPlan Example.insertionEnv Example.paddedText
     = ("<a>x</a>", None)
  /\ obfuscateXMLPlan Example.insertionEnv Example.paddedText
     <> reserializeXML Example.insertionEnv Example.paddedText.
Proof.
  split; [reflexivity|].
  split; [repeat constructor; simpl; discriminate|].
  split; [reflexivity|]. split; [reflexivity|].
  vm_compute. discriminate.
Qed.

(** ** QuerySamples *)

(** The loop stores no key: what the cache holds afterwards it held before. *)
Lemma sampleLoop_stores_no_key : forall (env : Env) (rows : list StringMap)
    (c : lru.Cache float) (logs : plog.Logs) (k : string) (x : float),
  lru.Peek k (fst (ScraperF.sampleLoop env rows c logs)) = Some x ->
  exists y, lru.Peek k c = Some y.
Proof.
  intros env rows. induction rows as [|row rows IH]; intros c logs k x H.
  - simpl in H. eauto.
  - simpl in H.
    pose proof (Get_result c (ScraperF.sampleKey row)) as Hres.
    pose proof (Get_Peek c (ScraperF.sampleKey row) k) as Hsame.
    destruct (lru.Get (ScraperF.sampleKey row) c) as [c1 [hit|]];
      simpl in Hres, Hsame.
    + apply IH in H. destruct H as [y Hy].
      destruct (String.eqb_spec k (ScraperF.sampleKey row)) as [->|Hne].
      * eauto.
      * apply Add_Peek_other in Hy; [|assumption].
        rewrite Hsame in Hy. eauto.
    + apply IH in H. destruct H as [y Hy]. rewrite Hsame in Hy. eauto.
Qed.

Lemma LogRecordCount_append : forall (logs : plog.Logs) (r : plog.LogRecord),
  plog.LogRecordCount (plog.appendInOwnResource logs r)
  = S (plog.LogRecordCount logs).
Proof.
  intros logs r. unfold plog.LogRecordCount, plog.records,
    plog.appendInOwnResource.
  rewrite flat_map_app, length_app. simpl. lia.
Qed.

(** On a cache without sample keys every row is emitted, also a row whose
    key an earlier row of the same scrape had. *)
Lemma sampleLoop_emits_every_row : forall (env : Env) (rows : list StringMap)
    (c : lru.Cache float) (logs : plog.Logs),
  Forall (fun row => lru.Peek (ScraperF.sampleKey row) c = None) rows ->
  plog.LogRecordCount (snd (ScraperF.sampleLoop env rows c logs))
  = (plog.LogRecordCount logs + List.length rows)%nat.
Proof.
  intros env rows. induction rows as [|row rows IH]; intros c logs Hall.
  - simpl. lia.
  - inversion Hall as [|? ? Hrow Hrest]; subst. simpl.
    pose proof (Get_result c (ScraperF.sampleKey row)) as Hres.
    pose proof (Get_Peek c (ScraperF.sampleKey row)) as Hsame.
    rewrite Hrow in Hres.
    destruct (lru.Get (ScraperF.sampleKey row) c) as [c1 r];
      simpl in Hres, Hsame. subst r.
    rewrite IH.
    + rewrite LogRecordCount_append. lia.
    + eapply Forall_impl; [|exact Hrest].
      intros r Hr. simpl in Hr. now rewrite Hsame.
Qed.

(** C5 at its failing input: two rows with one query hash and one plan hash,
    scraped on a fresh cache.  Both are emitted, and the cache holds no key
    afterwards. *)
Theorem sampleQuery_duplicate_rows_both_emitted :
  let row := Example.row "a" "p" "h" "5000" "7" in
  exists (c : lru.Cache float) (logs : plog.Logs),
    ScraperF.recordDatabaseSampleQuery Example.insertionEnv (lru.New 8)
      ([row; row], None) = Some (Some c, (logs, None))
    /\ ScraperF.sampleKey row = "61-70"
    /\ plog.LogRecordCount logs = 2%nat
    /\ map (fun r => pcommon.Get "query_hash" (plog.Attributes r))
         (plog.records logs)
       = [Some (pcommon.Str "61"); Some (pcommon.Str "61")]
    /\ lru.items c = [].
Proof.
  cbv zeta. eexists; eexists.
  split; [vm_compute; reflexivity|].
  repeat split; reflexivity.
Qed.

(** ** QueryTextAndPlan of the [float64] revision *)

(** C4 at its failing input: a row whose plan hash is [p] (hex 70) and whose
    plan handle is [h] (hex 68), scraped twice with a growing elapsed time.
    The elapsed time is cached under the key made from the handle, the
    record carries the plan hash, and the other counters are cached under
    keys made from the plan hash. *)
Theorem textAndPlan_float_keys_on_plan_handle :
  let env := Example.insertionEnv in
  let first := Example.row "a" "p" "h" "5000" "7" in
  let second := Example.row "a" "p" "h" "9000" "8" in
  ScraperF.firstLoopPlanHash first = "68"
  /\ ScraperF.secondLoopPlanHash first = "70"
  /\ exists c1 c2 logs,
      ScraperF.recordDatabaseQueryTextAndPlan env (lru.New 16) ([first], None) 5
      = Some (Some c1, ([], None))
      /\ lru.keys c1 = ["61-68-total_elapsed_time"]
      /\ ScraperF.recordDatabaseQueryTextAndPlan env (Some c1)
           ([second], None) 5
         = Some (Some c2, (logs, None))
      /\ map (fun r => pcommon.Get "query_plan_hash" (plog.Attributes r))
           (plog.records logs)
         = [Some (pcommon.Str "70")]
      /\ lru.Peek "61-68-total_elapsed_time" c2 = Some 9000%float
      /\ lru.Peek "61-70-total_elapsed_time" c2 = None
      /\ lru.Peek "61-70-total_rows" c2 = Some 8%float.
Proof.
  cbv zeta. split; [reflexivity|]. split; [reflexivity|].
  eexists; eexists; eexists.
  split; [vm_compute; reflexivity|].
  split; [reflexivity|].
  split; [vm_compute; reflexivity|].
  repeat split; reflexivity.
Qed.

(** ** The ranked mappers: how many records *)

Lemma skipn_nth_error : forall (A : Type) (l : list A) (i : nat) (d : A),
  nth_error l i = Some d -> skipn i l = d :: skipn (S i) l.
Proof.
  induction l as [|a l IH]; intros [|i] d H; simpl in *; try discriminate.
  - now injection H as ->.
  - now apply IH.
Qed.

Lemma nonzero_positive : forall diffs : list Z,
  Forall (fun d => 0 <= d) diffs ->
  List.length (filter nonzero diffs) = positiveDeltas diffs.
Proof.
  unfold positiveDeltas. induction 1 as [|d diffs Hd _ IH]; simpl;
    [reflexivity|].
  unfold nonzero at 1.
  destruct (Z.eqb_spec d 0), (Z.ltb_spec 0 d); simpl; lia.
Qed.

Lemma filter_length_perm : forall (A : Type) (f : A -> bool) (l l' : list A),
  Permutation l l' -> List.length (filter f l) = List.length (filter f l').
Proof.
  intros A f l l' Hp. induction Hp; simpl;
    repeat match goal with |- context [f ?x] => destruct (f x) end;
    simpl; lia.
Qed.

Lemma intOfUint_le : forall n, 0 <= n < 2 ^ 64 -> intOfUint n <= n.
Proof.
  intros n Hn. unfold intOfUint, Int64.wrap.
  destruct (Z.lt_ge_cases n (2 ^ 63)) as [Hlt|Hge].
  - rewrite Z.mod_small; lia.
  - replace (n + 2 ^ 63) with ((n - 2 ^ 63) + 1 * 2 ^ 64) by lia.
    rewrite Z.mod_add by lia. rewrite Z.mod_small; lia.
Qed.

Lemma Scraper_elapsedDiffs_shape : forall (rows : list StringMap)
    (cache : option (lru.Cache Z)),
  List.length (snd (Scraper.elapsedDiffs cache rows)) = List.length rows
  /\ Forall (fun d => 0 <= d) (snd (Scraper.elapsedDiffs cache rows)).
Proof.
  induction rows as [|row rows IH]; intros cache; simpl.
  - split; [reflexivity|constructor].
  - destruct (strconv.ParseInt (cell row "total_elapsed_time")) as [v [e|]].
    + destruct (IH cache) as [Hlen Hall].
      destruct (Scraper.elapsedDiffs cache rows) as [c2 ds]. simpl in *.
      split; [now rewrite Hlen|now constructor].
    + destruct (cacheAndDiff cache _ _ _ _) as [c1 [cached diff]].
      destruct (IH c1) as [Hlen Hall].
      destruct (Scraper.elapsedDiffs c1 rows) as [c2 ds]. simpl in *.
      split; [now rewrite Hlen|].
      constructor; [|assumption].
      destruct cached; simpl; [|lia].
      destruct (Z.ltb_spec 0 diff); lia.
Qed.

Lemma Scraper_emitLoop_bound : forall (env : Env) (topQueryCount : Z)
    (rows : list StringMap) (diffs : list Z) (i : nat) (st : logState),
  (i + List.length rows <= List.length diffs)%nat ->
  exists st',
    Scraper.emitLoop env topQueryCount i rows diffs st = Some st'
    /\ (plog.LogRecordCount (ls_logs st')
        <= plog.LogRecordCount (ls_logs st)
           + List.length (filter nonzero (skipn i diffs)))%nat
    /\ Z.of_nat (plog.LogRecordCount (ls_logs st'))
       <= Z.of_nat (plog.LogRecordCount (ls_logs st))
          + Z.max 0 (intOfUint topQueryCount - Z.of_nat i).
Proof.
  intros env topQueryCount rows.
  induction rows as [|row rows IH]; intros diffs i st Hlen; simpl in *.
  - exists st. split; [reflexivity|]. split; lia.
  - destruct (Z.leb_spec (intOfUint topQueryCount) (Z.of_nat i)) as [Hstop|Hgo].
    + exists st. split; [reflexivity|]. split; lia.
    + destruct (nth_error diffs i) as [d|] eqn:Hnth.
      2:{ apply nth_error_None in Hnth. lia. }
      rewrite (skipn_nth_error _ _ _ _ Hnth). cbn [filter].
      unfold nonzero at 1.
      destruct (Z.eqb_spec d 0) as [Hzero|Hpos]; cbn [negb List.length].
      * destruct (IH diffs (S i) st) as (st' & Hrun & Hcount & Htop); [lia|].
        exists st'. split; [exact Hrun|]. split; lia.
      * destruct (IH diffs (S i) (Scraper.emitRow env i row d st))
          as (st' & Hrun & Hcount & Htop); [lia|].
        exists st'. split; [exact Hrun|].
        unfold Scraper.emitRow in Hcount, Htop.
        cbn [ls_logs] in Hcount, Htop.
        rewrite LogRecordCount_append in Hcount, Htop.
        split; lia.
Qed.

(** X13.  The QueryTextAndPlan mapper of the first copy of [scraper.go] keeps
    both bounds of C2 and never panics. *)
Lemma Scraper_textAndPlan_bounds : forall (env : Env)
    (cache : option (lru.Cache Z))
    (queryRows : list StringMap * option queryError) (topQueryCount : Z),
  sort.Slice_contract (Slice env) ->
  0 <= topQueryCount < 2 ^ 64 ->
  exists cache' logs errs,
    Scraper.recordDatabaseQueryTextAndPlan env cache queryRows topQueryCount
    = Some (cache', (logs, errs))
    /\ Z.of_nat (plog.LogRecordCount logs) <= topQueryCount
    /\ (plog.LogRecordCount logs
        <= positiveDeltas (snd (Scraper.elapsedDiffs cache (fst queryRows))))%nat.
Proof.
  intros env cache [rows warn] topQueryCount Hsort Htop.
  unfold Scraper.recordDatabaseQueryTextAndPlan. simpl fst. simpl snd.
  assert (Hhard : forall msg,
             exists cache' logs errs,
               Some (cache, (@nil plog.ResourceLogs,
                             Some [ErrWrap
                                     "sqlServerScraperHelper failed getting metric rows"
                                     (ErrMsg msg)]))
               = Some (cache', (logs, errs))
               /\ Z.of_nat (plog.LogRecordCount logs) <= topQueryCount
               /\ (plog.LogRecordCount logs
                   <= positiveDeltas (snd (Scraper.elapsedDiffs cache rows)))%nat).
  { intros msg. eexists; eexists; eexists. split; [reflexivity|].
    unfold plog.LogRecordCount. simpl. split; lia. }
  assert (Hrun :
            exists cache' logs errs,
              (let '(cache1, totalElapsedTimeDiffs) :=
                 Scraper.elapsedDiffs cache rows in
               match sortRows env rows totalElapsedTimeDiffs with
               | None => None
               | Some rows0 =>
                   match
                     Scraper.emitLoop env topQueryCount 0 rows0
                       (sortDiffs env totalElapsedTimeDiffs)
                       (mkLogState cache1 [] plog.NewLogs)
                   with
                   | None => None
                   | Some st =>
                       Some (ls_cache st,
                             (ls_logs st, errors.Join (ls_errs st)))
                   end
               end) = Some (cache', (logs, errs))
              /\ Z.of_nat (plog.LogRecordCount logs) <= topQueryCount
              /\ (plog.LogRecordCount logs
                  <= positiveDeltas (snd (Scraper.elapsedDiffs cache rows)))%nat).
  { destruct (Scraper_elapsedDiffs_shape rows cache) as [Hlen Hnonneg].
    destruct (Scraper.elapsedDiffs cache rows) as [cache1 diffs].
    simpl in Hlen, Hnonneg. simpl snd.
    rewrite (sortRows_indices env rows diffs) by now rewrite Hlen.
    destruct (Scraper_emitLoop_bound env topQueryCount
                (map (fun i => nth i rows []) (sortedIndices env diffs))
                (sortDiffs env diffs) 0 (mkLogState cache1 [] plog.NewLogs))
      as (st' & Hloop & Hcount & Hbound).
    { rewrite length_map, sortDiffs_length by assumption.
      rewrite <- (Permutation_length (sortedIndices_perm env Hsort diffs)).
      rewrite length_seq. lia. }
    rewrite Hloop. eexists; eexists; eexists. split; [reflexivity|].
    cbn [ls_logs skipn] in Hcount, Hbound.
    change (plog.LogRecordCount plog.NewLogs) with 0%nat in Hcount, Hbound.
    cbn [ls_logs].
    pose proof (intOfUint_le topQueryCount Htop).
    split; [lia|].
    rewrite <- (nonzero_positive diffs Hnonneg).
    rewrite (filter_length_perm Z nonzero diffs (sortDiffs env diffs))
      by now apply sortDiffs_perm.
    lia. }
  destruct warn as [[|msg]|]; [exact Hrun|apply Hhard|exact Hrun].
Qed.

Lemma Part004_elapsedDiffs_shape : forall (rows : list StringMap)
    (cache : option (lru.Cache Z)) (errs : list error),
  List.length (snd (Part004.elapsedDiffs cache errs rows)) = List.length rows
  /\ Forall (fun d => 0 <= d) (snd (Part004.elapsedDiffs cache errs rows)).
Proof.
  induction rows as [|row rows IH]; intros cache errs; simpl.
  - split; [reflexivity|constructor].
  - destruct (strconv.ParseInt (cell row "total_elapsed_time")) as [v [e|]].
    + destruct (IH cache (List.app errs [e])) as [Hlen Hall].
      destruct (Part004.elapsedDiffs cache (List.app errs [e]) rows)
        as [[c2 e2] ds]. simpl in *.
      split; [now rewrite Hlen|now constructor].
    + destruct (cacheAndDiff cache _ _ _ _) as [c1 [cached diff]].
      destruct (IH c1 errs) as [Hlen Hall].
      destruct (Part004.elapsedDiffs c1 errs rows) as [[c2 e2] ds].
      simpl in *.
      split; [now rewrite Hlen|].
      constructor; [|assumption].
      destruct cached; simpl; [|lia].
      destruct (Z.ltb_spec 0 diff); lia.
Qed.

Lemma metricStep_buffer : forall i qh ph column point row st,
  metadata.buffer (ms_mb (Part004.metricStep i qh ph column point row st))
  = metadata.buffer (ms_mb st).
Proof.
  intros. unfold Part004.metricStep.
  destruct (strconv.ParseInt (cell row column)) as [v e].
  destruct (cacheAndDiff _ _ _ _ _) as [c1 [cached diff]].
  cbn [ms_mb]. destruct (cached && (0 <? diff)); reflexivity.
Qed.

Lemma parsedMetricStep_buffer : forall qh ph column point scale row st,
  metadata.buffer
    (ms_mb (Part004.parsedMetricStep qh ph column point scale row st))
  = metadata.buffer (ms_mb st).
Proof.
  intros. unfold Part004.parsedMetricStep.
  destruct (strconv.ParseInt (cell row column)) as [v [e|]]; [reflexivity|].
  destruct (cacheAndDiff _ _ _ _ _) as [c1 [cached diff]].
  cbn [ms_mb]. destruct (cached && (0 <? diff)); reflexivity.
Qed.

(** One row commits one resource. *)
Lemma emitMetricRow_buffer : forall i row d st,
  List.length (metadata.buffer (ms_mb (Part004.emitMetricRow i row d st)))
  = S (List.length (metadata.buffer (ms_mb st))).
Proof.
  intros. unfold Part004.emitMetricRow. cbn [ms_mb].
  unfold metadata.EmitForResource. cbn [metadata.buffer].
  rewrite length_app.
  rewrite !parsedMetricStep_buffer, !metricStep_buffer. simpl. lia.
Qed.

Lemma Part004_emitMetricLoop_bound : forall (topQueryCount : Z)
    (rows : list StringMap) (diffs : list Z) (i : nat) (st : metricState),
  (i + List.length rows <= List.length diffs)%nat ->
  exists st',
    Part004.emitMetricLoop topQueryCount i rows diffs st = Some st'
    /\ (List.length (metadata.buffer (ms_mb st'))
        <= List.length (metadata.buffer (ms_mb st))
           + List.length (filter nonzero (skipn i diffs)))%nat
    /\ Z.of_nat (List.length (metadata.buffer (ms_mb st')))
       <= Z.of_nat (List.length (metadata.buffer (ms_mb st)))
          + Z.max 0 (intOfUint topQueryCount - Z.of_nat i).
Proof.
  intros topQueryCount rows.
  induction rows as [|row rows IH]; intros diffs i st Hlen; simpl in *.
  - exists st. split; [reflexivity|]. split; lia.
  - destruct (Z.leb_spec (intOfUint topQueryCount) (Z.of_nat i)) as [Hstop|Hgo].
    + exists st. split; [reflexivity|]. split; lia.
    + destruct (nth_error diffs i) as [d|] eqn:Hnth.
      2:{ apply nth_error_None in Hnth. lia. }
      rewrite (skipn_nth_error _ _ _ _ Hnth). cbn [filter].
      unfold nonzero at 1.
      destruct (Z.eqb_spec d 0) as [Hzero|Hpos]; cbn [negb List.length].
      * destruct (IH diffs (S i) st) as (st' & Hrun & Hcount & Htop); [lia|].
        exists st'. split; [exact Hrun|]. split; lia.
      * destruct (IH diffs (S i) (Part004.emitMetricRow i row d st))
          as (st' & Hrun & Hcount & Htop); [lia|].
        exists st'. split; [exact Hrun|].
        rewrite emitMetricRow_buffer in Hcount, Htop.
        split; lia.
Qed.

(** X14.  The QueryMetrics mapper of [part_004] keeps both bounds of C2 too:
    the resources it commits are at most [topQueryCount] and at most the
    rows with a positive elapsed time delta. *)
Lemma Part004_queryMetrics_bounds : forall (env : Env)
    (cache : option (lru.Cache Z))
    (queryRows : list StringMap * option queryError) (topQueryCount : Z),
  sort.Slice_contract (Slice env) ->
  0 <= topQueryCount < 2 ^ 64 ->
  exists cache' b errs,
    Part004.recordDatabaseQueryMetrics env cache metadata.NewMetricsBuilder
      queryRows topQueryCount = Some (cache', b, errs)
    /\ Z.of_nat (List.length (metadata.buffer b)) <= topQueryCount
    /\ (List.length (metadata.buffer b)
        <= positiveDeltas
             (snd (Part004.elapsedDiffs cache [] (fst queryRows))))%nat.
Proof.
  intros env cache [rows warn] topQueryCount Hsort Htop.
  unfold Part004.recordDatabaseQueryMetrics. simpl fst. simpl snd.
  assert (Hrun :
            exists cache' b errs,
              (let '(cache1, errs, totalElapsedTimeDiffs) :=
                 Part004.elapsedDiffs cache [] rows in
               match sortRows env rows totalElapsedTimeDiffs with
               | None => None
               | Some rows0 =>
                   match
                     Part004.emitMetricLoop topQueryCount 0 rows0
                       (sortDiffs env totalElapsedTimeDiffs)
                       (mkMetricState cache1 errs metadata.NewMetricsBuilder)
                   with
                   | None => None
                   | Some st =>
                       Some (ms_cache st, ms_mb st, errors.Join (ms_errs st))
                   end
               end) = Some (cache', b, errs)
              /\ Z.of_nat (List.length (metadata.buffer b)) <= topQueryCount
              /\ (List.length (metadata.buffer b)
                  <= positiveDeltas
                       (snd (Part004.elapsedDiffs cache [] rows)))%nat).
  { destruct (Part004_elapsedDiffs_shape rows cache []) as [Hlen Hnonneg].
    destruct (Part004.elapsedDiffs cache [] rows) as [[cache1 errs1] diffs].
    simpl in Hlen, Hnonneg. simpl snd.
    rewrite (sortRows_indices env rows diffs) by now rewrite Hlen.
    destruct (Part004_emitMetricLoop_bound topQueryCount
                (map (fun i => nth i rows []) (sortedIndices env diffs))
                (sortDiffs env diffs) 0
                (mkMetricState cache1 errs1 metadata.NewMetricsBuilder))
      as (st' & Hloop & Hcount & Hbound).
    { rewrite length_map, sortDiffs_length by assumption.
      rewrite <- (Permutation_length (sortedIndices_perm env Hsort diffs)).
      rewrite length_seq. lia. }
    rewrite Hloop. eexists; eexists; eexists. split; [reflexivity|].
    cbn [ms_mb skipn metadata.buffer metadata.NewMetricsBuilder List.length]
      in Hcount, Hbound.
    pose proof (intOfUint_le topQueryCount Htop).
    split; [lia|].
    rewrite <- (nonzero_positive diffs Hnonneg).
    rewrite (filter_length_perm Z nonzero diffs (sortDiffs env diffs))
      by now apply sortDiffs_perm.
    lia. }
  destruct warn as [[|msg]|]; [exact Hrun| |exact Hrun].
  eexists; eexists; eexists. split; [reflexivity|]. simpl. split; lia.
Qed.

(** C2 at its failing inputs, all on the QueryTextAndPlan mapper of
    [part_004:479].  A fresh cache and one row: one record is emitted, with
    [topQueryCount = 0] as with [topQueryCount = 5], although no row has a
    positive delta.  A cache that holds the counters of two rows, both rows
    with grown elapsed times and [topQueryCount = 1]: two records are
    emitted.  The mapper of the first copy of [scraper.go] emits none and
    one on the same inputs. *)
Theorem Part004_textAndPlan_exceeds_topN :
  let env := Example.insertionEnv in
  let fresh := Example.row "a" "p" "h" "5000" "7" in
  let first := [Example.row "a" "p" "h" "5000" "7";
                Example.row "b" "q" "g" "5000" "7"] in
  let second := [Example.row "a" "p" "h" "9000" "8";
                 Example.row "b" "q" "g" "7000" "9"] in
  (exists c logs,
      Part004.recordDatabaseQueryTextAndPlan env (lru.New 64) ([fresh], None) 0
      = Some (c, (logs, None))
      /\ plog.LogRecordCount logs = 1%nat
      /\ positiveDeltas (snd (Part004.elapsedDiffs (lru.New 64) [] [fresh]))
         = 0%nat)
  /\ (exists c logs,
         Part004.recordDatabaseQueryTextAndPlan env (lru.New 64)
           ([fresh], None) 5 = Some (c, (logs, None))
         /\ plog.LogRecordCount logs = 1%nat)
  /\ (exists c1 logs1 c2 logs2,
         Part004.recordDatabaseQueryTextAndPlan env (lru.New 64) (first, None) 0
         = Some (c1, (logs1, None))
         /\ Part004.recordDatabaseQueryTextAndPlan env c1 (second, None) 1
            = Some (c2, (logs2, None))
         /\ plog.LogRecordCount logs2 = 2%nat
         /\ positiveDeltas (snd (Part004.elapsedDiffs c1 [] second)) = 2%nat)
  /\ (exists c logs,
         Scraper.recordDatabaseQueryTextAndPlan env (lru.New 64)
           ([fresh], None) 0 = Some (c, (logs, None))
         /\ plog.LogRecordCount logs = 0%nat)
  /\ (exists c1 logs1 c2 logs2,
         Scraper.recordDatabaseQueryTextAndPlan env (lru.New 64) (first, None) 5
         = Some (c1, (logs1, None))
         /\ Scraper.recordDatabaseQueryTextAndPlan env c1 (second, None) 1
            = Some (c2, (logs2, None))
         /\ plog.LogRecordCount logs2 = 1%nat).
Proof.
  cbv zeta. repeat split.
  - eexists; eexists. split; [vm_compute; reflexivity|].
    split; reflexivity.
  - eexists; eexists. split; [vm_compute; reflexivity|]. reflexivity.
  - eexists; eexists; eexists; eexists.
    split; [vm_compute; reflexivity|].
    split; [vm_compute; reflexivity|].
    split; reflexivity.
  - eexists; eexists. split; [vm_compute; reflexivity|]. reflexivity.
  - eexists; eexists; eexists; eexists.
    split; [vm_compute; reflexivity|].
    split; [vm_compute; reflexivity|]. reflexivity.
Qed.

(** ** QueryTextAndPlan: the attributes of the secondary counters *)

Lemma Get_Put : forall (k k' : string) (v : pcommon.Value) (m : pcommon.Map),
  pcommon.Get k (pcommon.Put k' v m)
  = if String.eqb k k' then Some v else pcommon.Get k m.
Proof.
  intros k k' v m. induction m as [|[k0 v0] m IH]; simpl.
  - reflexivity.
  - destruct (String.eqb_spec k' k0) as [->|Hne]; simpl.
    + destruct (String.eqb_spec k k0); reflexivity.
    + destruct (String.eqb_spec k k0) as [->|Hk0].
      * destruct (String.eqb_spec k0 k'); [congruence|reflexivity].
      * exact IH.
Qed.

Lemma Get_guarded_Put : forall (b : bool) (k k' : string) (v : pcommon.Value)
    (m : pcommon.Map),
  pcommon.Get k (if b then pcommon.Put k' v m else m)
  = if String.eqb k k' && b then Some v else pcommon.Get k m.
Proof.
  intros [|] k k' v m; rewrite ?Get_Put, ?andb_true_r, ?andb_false_r;
    reflexivity.
Qed.

Lemma replay_cons : forall (c : option (lru.Cache Z)) qh ph column input rest,
  replay c qh ph ((column, input) :: rest)
  = (column, option_map (fun v => snd (cacheAndDiff c qh ph column v)) input)
    :: replay (nextCache c qh ph column input) qh ph rest.
Proof.
  intros c qh ph column [v|] rest; cbn [replay option_map nextCache];
    [|reflexivity].
  destruct (cacheAndDiff c qh ph column v) as [c1 r]. reflexivity.
Qed.

Lemma replay_columns : forall inputs (c : option (lru.Cache Z)) qh ph column x,
  In (column, x) (replay c qh ph inputs) -> In column (map fst inputs).
Proof.
  induction inputs as [|[col input] inputs IH]; intros c qh ph column x H.
  - contradiction.
  - rewrite replay_cons in H. destruct H as [H|H].
    + injection H as <- _. now left.
    + right. eapply IH; eauto.
Qed.

Section RunSteps.

Variables (qh ph : string) (name : string -> string)
  (guard : bool * Z -> bool).

Lemma runSteps_other : forall steps st k,
  stepsLike qh ph name guard steps ->
  ~ In k (map (fun step => name (fst (snd step))) steps) ->
  pcommon.Get k (rs_attrs (runSteps steps st)) = pcommon.Get k (rs_attrs st).
Proof.
  induction steps as [|[step [col input]] steps IH]; intros st k Hlike Hk.
  - reflexivity.
  - inversion Hlike as [|? ? Hstep Hrest]; subst. cbn [fst snd] in *.
    change (runSteps ((step, (col, input)) :: steps) st)
      with (runSteps steps (step st)).
    rewrite IH; [|assumption|intros Hin; apply Hk; now right].
    destruct (Hstep st k) as [_ ->].
    assert (Hne : String.eqb k (name col) = false).
    { apply String.eqb_neq. intros ->. apply Hk. now left. }
    rewrite Hne. now destruct input.
Qed.

Lemma runSteps_replay : forall steps st column r,
  stepsLike qh ph name guard steps ->
  NoDup (map (fun step => name (fst (snd step))) steps) ->
  In (column, Some r) (replay (rs_cache st) qh ph (map snd steps)) ->
  pcommon.Get (name column) (rs_attrs (runSteps steps st))
  = if guard r then Some (pcommon.Int (snd r))
    else pcommon.Get (name column) (rs_attrs st).
Proof.
  induction steps as [|[step [col input]] steps IH];
    intros st column r Hlike Hdup Hin.
  - contradiction.
  - inversion Hlike as [|? ? Hstep Hrest]; subst.
    inversion Hdup as [|? ? Hfresh Hdup']; subst. cbn [fst snd] in *.
    change (runSteps ((step, (col, input)) :: steps) st)
      with (runSteps steps (step st)).
    cbn [map snd] in Hin. rewrite replay_cons in Hin.
    destruct Hin as [Hhead|Htail].
    + injection Hhead as <- Hr.
      rewrite runSteps_other by assumption.
      destruct (Hstep st (name col)) as [_ ->].
      destruct input as [v|]; [|discriminate Hr].
      cbn [option_map] in Hr. injection Hr as <-.
      cbv zeta. now rewrite String.eqb_refl.
    + destruct (Hstep st (name column)) as [Hcache Hget].
      rewrite <- Hcache in Htail.
      rewrite (IH (step st) column r) by assumption.
      rewrite Hget.
      assert (Hne : String.eqb (name column) (name col) = false).
      { apply String.eqb_neq. intros Heq. apply Hfresh. rewrite <- Heq.
        apply replay_columns in Htail. rewrite map_map in Htail.
        apply in_map_iff in Htail. destruct Htail as (s' & Hs' & Hin').
        apply in_map_iff. exists s'. split; [now rewrite Hs'|assumption]. }
      rewrite Hne. now destruct input.
Qed.

End RunSteps.

Lemma Part004_counterStep_like : forall i qh ph column row,
  stepLike (Part004.counterStep i qh ph column row) qh ph column
    (alwaysInput row column) (Part004.DBPrefix ++ column) fst.
Proof.
  intros i qh ph column row st k.
  unfold Part004.counterStep, alwaysInput, nextCache.
  destruct (strconv.ParseInt (cell row column)) as [v e]. cbn [fst].
  destruct (cacheAndDiff _ _ _ _ _) as [c1 [cached diff]].
  cbn [rs_cache rs_attrs fst snd]. split; [reflexivity|].
  apply Get_guarded_Put.
Qed.

Lemma Part004_parsedCounterStep_like : forall i qh ph column scale row,
  stepLike (Part004.parsedCounterStep i qh ph column scale row) qh ph column
    (parsedInput row column scale) (Part004.DBPrefix ++ column) fst.
Proof.
  intros i qh ph column scale row st k.
  unfold Part004.parsedCounterStep, parsedInput, nextCache.
  destruct (strconv.ParseInt (cell row column)) as [v [e|]];
    [split; reflexivity|].
  destruct (cacheAndDiff _ _ _ _ _) as [c1 [cached diff]].
  cbn [rs_cache rs_attrs fst snd]. split; [reflexivity|].
  apply Get_guarded_Put.
Qed.

Lemma Scraper_counterStep_like : forall i qh ph column row,
  stepLike (Scraper.counterStep i qh ph column row) qh ph column
    (alwaysInput row column) column (fun r => fst r && (0 <? snd r)).
Proof.
  intros i qh ph column row st k.
  unfold Scraper.counterStep, alwaysInput, nextCache.
  destruct (strconv.ParseInt (cell row column)) as [v e]. cbn [fst].
  destruct (cacheAndDiff _ _ _ _ _) as [c1 [cached diff]].
  cbn [rs_cache rs_attrs fst snd]. split; [reflexivity|].
  apply Get_guarded_Put.
Qed.

Lemma Scraper_parsedCounterStep_like : forall qh ph column scale row,
  stepLike (Scraper.parsedCounterStep qh ph column scale row) qh ph column
    (parsedInput row column scale) column (fun r => fst r && (0 <? snd r)).
Proof.
  intros qh ph column scale row st k.
  unfold Scraper.parsedCounterStep, parsedInput, nextCache.
  destruct (strconv.ParseInt (cell row column)) as [v [e|]];
    [split; reflexivity|].
  destruct (cacheAndDiff _ _ _ _ _) as [c1 [cached diff]].
  cbn [rs_cache rs_attrs fst snd]. split; [reflexivity|].
  apply Get_guarded_Put.
Qed.

Lemma Part004_textStep_Get : forall attr obfuscate text st k,
  pcommon.Get k (rs_attrs (Part004.textStep attr obfuscate text st))
  = if String.eqb k attr then Some (pcommon.Str (fst (obfuscate text)))
    else pcommon.Get k (rs_attrs st).
Proof.
  intros. unfold Part004.textStep. destruct (obfuscate text) as [t e].
  cbn [rs_attrs fst]. apply Get_Put.
Qed.

Lemma Scraper_textStep_Get : forall attr obfuscate text st k,
  pcommon.Get k (rs_attrs (Scraper.textStep attr obfuscate text st))
  = if String.eqb k attr then Some (pcommon.Str (fst (obfuscate text)))
    else pcommon.Get k (rs_attrs st).
Proof.
  intros. unfold Scraper.textStep. destruct (obfuscate text) as [t e].
  cbn [rs_attrs fst]. apply Get_Put.
Qed.

Ltac seven_columns H :=
  cbn [counterInputs map fst] in H;
  repeat (destruct H as [<-|H]; [reflexivity|]); contradiction.

Ltac names_differ :=
  cbn [map fst snd];
  repeat (apply NoDup_cons;
          [cbn [In]; intros Hsame;
           repeat (destruct Hsame as [Hsame|Hsame]; [discriminate Hsame|]);
           contradiction|]);
  apply NoDup_nil.

(** The seven counter steps of a row of [part_004], in order. *)
Lemma Part004_rowRecord_steps :
  forall env i row d (c : option (lru.Cache Z)) errs,
  exists (steps : list counterStepOf) (s0 : rowState),
    Part004.rowRecord env i row d c errs
    = Part004.textStep (Part004.DBPrefix ++ "query_plan")
        (obfuscateXMLPlan env) (cell row "query_plan")
        (Part004.textStep (Part004.DBPrefix ++ "query_text")
           (obfuscateSQL env) (cell row "query_text") (runSteps steps s0))
    /\ map snd steps = counterInputs row
    /\ rs_cache s0 = c
    /\ (forall column, In column (map fst (counterInputs row)) ->
        pcommon.Get (Part004.DBPrefix ++ column) (rs_attrs s0) = None)
    /\ NoDup (map (fun step => Part004.DBPrefix ++ fst (snd step)) steps)
    /\ stepsLike (hex.EncodeToString (cell row "query_hash"))
         (hex.EncodeToString (cell row "query_plan_hash"))
         (append Part004.DBPrefix) fst steps.
Proof.
  intros env i row d c errs.
  set (qh := hex.EncodeToString (cell row "query_hash")).
  set (ph := hex.EncodeToString (cell row "query_plan_hash")).
  exists
    [ (Part004.counterStep i qh ph "total_rows" row,
       ("total_rows", alwaysInput row "total_rows"));
      (Part004.counterStep i qh ph "total_logical_reads" row,
       ("total_logical_reads", alwaysInput row "total_logical_reads"));
      (Part004.counterStep i qh ph "total_logical_writes" row,
       ("total_logical_writes", alwaysInput row "total_logical_writes"));
      (Part004.counterStep i qh ph "total_physical_reads" row,
       ("total_physical_reads", alwaysInput row "total_physical_reads"));
      (Part004.parsedCounterStep i qh ph "execution_count" (fun v => v) row,
       ("execution_count", parsedInput row "execution_count" (fun v => v)));
      (Part004.parsedCounterStep i qh ph "total_worker_time"
         (fun v => Int64.div v 1000) row,
       ("total_worker_time",
        parsedInput row "total_worker_time" (fun v => Int64.div v 1000)));
      (Part004.parsedCounterStep i qh ph "total_grant_kb" (fun v => v) row,
       ("total_grant_kb", parsedInput row "total_grant_kb" (fun v => v))) ].
  exists
    (mkRowState c errs
       (pcommon.Put (Part004.DBPrefix ++ "total_elapsed_time") (pcommon.Int d)
          (pcommon.Put (Part004.DBPrefix ++ "query_plan_hash")
             (pcommon.Str ph)
             (pcommon.Put (Part004.DBPrefix ++ "query_hash") (pcommon.Str qh)
                (pcommon.Put instanceNameKey
                   (pcommon.Str (cell row instanceNameKey))
                   (pcommon.Put computerNameKey
                      (pcommon.Str (cell row computerNameKey)) [])))))).
  split.
  { unfold Part004.rowRecord, runSteps. cbn [fold_left fst]. reflexivity. }
  split; [reflexivity|]. split; [reflexivity|].
  split; [intros column Hin; seven_columns Hin|].
  split; [names_differ|].
  unfold stepsLike.
  repeat (apply Forall_cons;
          [cbn [fst snd];
           first [apply Part004_counterStep_like
                 |apply Part004_parsedCounterStep_like]|]).
  apply Forall_nil.
Qed.

(** The seven counter steps of a row of the first copy of [scraper.go]. *)
Lemma Scraper_rowRecord_steps :
  forall env i row d (c : option (lru.Cache Z)) errs,
  exists (steps : list counterStepOf) (s0 : rowState),
    Scraper.rowRecord env i row d c errs
    = Scraper.textStep "normalized_query_plan" (obfuscateXMLPlan env)
        (cell row "query_plan")
        (Scraper.textStep "query_text" (obfuscateSQL env) (cell row "text")
           (runSteps steps s0))
    /\ map snd steps = counterInputs row
    /\ rs_cache s0 = c
    /\ (forall column, In column (map fst (counterInputs row)) ->
        pcommon.Get column (rs_attrs s0) = None)
    /\ NoDup (map (fun step => fst (snd step)) steps)
    /\ stepsLike (hex.EncodeToString (cell row "query_hash"))
         (hex.EncodeToString (cell row "query_plan_hash"))
         (fun column => column) (fun r => fst r && (0 <? snd r)) steps.
Proof.
  intros env i row d c errs.
  set (qh := hex.EncodeToString (cell row "query_hash")).
  set (ph := hex.EncodeToString (cell row "query_plan_hash")).
  exists
    [ (Scraper.counterStep i qh ph "total_rows" row,
       ("total_rows", alwaysInput row "total_rows"));
      (Scraper.counterStep i qh ph "total_logical_reads" row,
       ("total_logical_reads", alwaysInput row "total_logical_reads"));
      (Scraper.counterStep i qh ph "total_logical_writes" row,
       ("total_logical_writes", alwaysInput row "total_logical_writes"));
      (Scraper.counterStep i qh ph "total_physical_reads" row,
       ("total_physical_reads", alwaysInput row "total_physical_reads"));
      (Scraper.parsedCounterStep qh ph "execution_count" (fun v => v) row,
       ("execution_count", parsedInput row "execution_count" (fun v => v)));
      (Scraper.parsedCounterStep qh ph "total_worker_time"
         (fun v => Int64.div v 1000) row,
       ("total_worker_time",
        parsedInput row "total_worker_time" (fun v => Int64.div v 1000)));
      (Scraper.parsedCounterStep qh ph "total_grant_kb" (fun v => v) row,
       ("total_grant_kb", parsedInput row "total_grant_kb" (fun v => v))) ].
  exists
    (mkRowState c errs
       (pcommon.Put "total_elapsed_time" (pcommon.Int d)
          (pcommon.Put "query_plan_hash" (pcommon.Str ph)
             (pcommon.Put "query_hash" (pcommon.Str qh)
                (pcommon.Put instanceNameKey
                   (pcommon.Str (cell row instanceNameKey))
                   (pcommon.Put computerNameKey
                      (pcommon.Str (cell row computerNameKey)) [])))))).
  split.
  { unfold Scraper.rowRecord, runSteps. cbn [fold_left fst]. reflexivity. }
  split; [reflexivity|]. split; [reflexivity|].
  split; [intros column Hin; seven_columns Hin|].
  split; [names_differ|].
  unfold stepsLike.
  repeat (apply Forall_cons;
          [cbn [fst snd];
           first [apply Scraper_counterStep_like
                 |apply Scraper_parsedCounterStep_like]|]).
  apply Forall_nil.
Qed.

(** C3, as amended.  Take a row of QueryTextAndPlan, the cache it starts
    with, and any of the seven secondary counter columns for which
    [cacheAndDiff] is called, [total_worker_time] with the parsed value
    divided by 1000.  With [(cached, diff)] what that call reports: the
    mapper of [part_004:479] sets the attribute of the column to [diff]
    exactly when [cached] holds, also for a zero [diff]; the mapper of
    [scraper.go:336] sets it exactly when [cached] holds and [diff] is
    strictly positive. *)
Theorem textAndPlan_counter_attributes :
  forall (env : Env) (i : nat) (row : StringMap) (d : Z)
         (c : option (lru.Cache Z)) (errs : list error)
         (column : string) (r : bool * Z),
    In (column, Some r)
       (replay c (hex.EncodeToString (cell row "query_hash"))
          (hex.EncodeToString (cell row "query_plan_hash"))
          (counterInputs row)) ->
    pcommon.Get (Part004.DBPrefix ++ column)
      (rs_attrs (Part004.rowRecord env i row d c errs))
    = (if fst r then Some (pcommon.Int (snd r)) else None)
    /\ pcommon.Get column
         (rs_attrs (Scraper.rowRecord env i row d c errs))
       = (if fst r && (0 <? snd r) then Some (pcommon.Int (snd r)) else None).
Proof.
  intros env i row d c errs column r Hin.
  pose proof (replay_columns _ _ _ _ _ _ Hin) as Hcol.
  split.
  - destruct (Part004_rowRecord_steps env i row d c errs)
      as (steps & s0 & -> & Hinputs & Hcache & Hinit & Hdup & Hlike).
    rewrite !Part004_textStep_Get.
    assert (Hplan : String.eqb (Part004.DBPrefix ++ column)
                      (Part004.DBPrefix ++ "query_plan") = false)
      by (clear - Hcol; seven_columns Hcol).
    assert (Htext : String.eqb (Part004.DBPrefix ++ column)
                      (Part004.DBPrefix ++ "query_text") = false)
      by (clear - Hcol; seven_columns Hcol).
    rewrite Hplan, Htext.
    rewrite (runSteps_replay _ _ (append Part004.DBPrefix) fst steps s0
               column r Hlike Hdup)
      by (rewrite Hinputs, Hcache; exact Hin).
    now rewrite (Hinit column Hcol).
  - destruct (Scraper_rowRecord_steps env i row d c errs)
      as (steps & s0 & -> & Hinputs & Hcache & Hinit & Hdup & Hlike).
    rewrite !Scraper_textStep_Get.
    assert (Hplan : String.eqb column "normalized_query_plan" = false)
      by (clear - Hcol; seven_columns Hcol).
    assert (Htext : String.eqb column "query_text" = false)
      by (clear - Hcol; seven_columns Hcol).
    rewrite Hplan, Htext.
    rewrite (runSteps_replay _ _ (fun column => column)
               (fun r => fst r && (0 <? snd r)) steps s0 column r Hlike Hdup)
      by (rewrite Hinputs, Hcache; exact Hin).
    now rewrite (Hinit column Hcol).
Qed.

(** The theorem on a row whose [total_rows] is 8, on a cache that holds 8
    for it: the call reports the key as cached with difference 0. *)
Lemma textAndPlan_counter_attributes_witness :
  let env := Example.insertionEnv in
  let row := Example.row "a" "p" "h" "9000" "8" in
  let c := Some (Example.cacheOf 64 [("61-70-total_rows", 8)]) in
  In ("total_rows", Some (true, 0))
     (replay c (hex.EncodeToString (cell row "query_hash"))
        (hex.EncodeToString (cell row "query_plan_hash"))
        (counterInputs row))
  /\ pcommon.Get "db.total_rows"
       (rs_attrs (Part004.rowRecord env 0 row 4 c [])) = Some (pcommon.Int 0)
  /\ pcommon.Get "total_rows"
       (rs_attrs (Scraper.rowRecord env 0 row 4 c [])) = None.
Proof.
  intros env row c.
  assert (Hin : In ("total_rows", Some (true, 0))
                  (replay c (hex.EncodeToString (cell row "query_hash"))
                     (hex.EncodeToString (cell row "query_plan_hash"))
                     (counterInputs row)))
    by (left; reflexivity).
  split; [exact Hin|].
  exact (textAndPlan_counter_attributes env 0 row 4 c [] "total_rows"
           (true, 0) Hin).
Defined.

(** C3 as stated fails on the mapper of [scraper.go:336].  The cache holds
    an elapsed time of 5 ms and 8 rows for the key; the row reports 9000
    microseconds and again 8 rows.  The record is emitted with an elapsed
    time difference of 4; [cacheAndDiff] reports [total_rows] as cached with
    difference 0, and the record has no [total_rows] attribute. *)
Lemma textAndPlan_zero_delta_counterexample :
  let env := Example.insertionEnv in
  let row := Example.row "a" "p" "h" "9000" "8" in
  let c :=
    Some (Example.cacheOf 64
            [("61-70-total_elapsed_time", 5); ("61-70-total_rows", 8)]) in
  exists c' record,
    Scraper.recordDatabaseQueryTextAndPlan env c ([row], None) 5
    = Some (c', ([plog.mkResourceLogs [] [plog.mkScopeLogs "" "" [record]]],
                 None))
    /\ pcommon.Get "total_elapsed_time" (plog.Attributes record)
       = Some (pcommon.Int 4)
    /\ In ("total_rows", Some (true, 0))
         (replay (fst (Scraper.elapsedDiffs c [row])) "61" "70"
            (counterInputs row))
    /\ pcommon.Get "total_rows" (plog.Attributes record) = None.
Proof.
  cbv zeta. eexists; eexists.
  split; [vm_compute; reflexivity|].
  split; [reflexivity|]. split; [left; reflexivity|reflexivity].
Qed.

(** ** [cacheAndDiff]: capacity, repeated and successive readings *)

Section LruShape.

Context {V : Type}.
Implicit Types (c : lru.Cache V) (l : list (string * V)) (k : string).

Lemma remove_keys_In : forall l k k',
  In k' (map fst (lru.remove k l)) -> In k' (map fst l).
Proof.
  induction l as [|[k0 v0] l IH]; intros k k'; simpl; [auto|].
  destruct (String.eqb k k0); simpl; intuition eauto.
Qed.

Lemma remove_keys_NoDup : forall l k,
  NoDup (map fst l) -> NoDup (map fst (lru.remove k l)).
Proof.
  induction l as [|[k0 v0] l IH]; intros k Hnd; simpl; [constructor|].
  inversion Hnd as [|? ? Hfresh Hrest]; subst.
  destruct (String.eqb k k0); simpl; [assumption|].
  constructor; [|now apply IH].
  intros Hin. apply Hfresh. eapply remove_keys_In; eauto.
Qed.

Lemma remove_keys_gone : forall l k,
  NoDup (map fst l) -> ~ In k (map fst (lru.remove k l)).
Proof.
  induction l as [|[k0 v0] l IH]; intros k Hnd; simpl; [auto|].
  inversion Hnd as [|? ? Hfresh Hrest]; subst.
  destruct (String.eqb_spec k k0) as [->|Hne]; simpl; [assumption|].
  intros [Heq|Hin]; [congruence|]. now apply (IH k).
Qed.

Lemma remove_length : forall l k v,
  lru.find k l = Some v -> S (List.length (lru.remove k l)) = List.length l.
Proof.
  induction l as [|[k0 v0] l IH]; intros k v; simpl; [discriminate|].
  destruct (String.eqb k k0); simpl; [reflexivity|].
  intros Hf. now rewrite (IH k v).
Qed.

Lemma find_None_keys : forall l k,
  lru.find k l = None -> ~ In k (map fst l).
Proof.
  induction l as [|[k0 v0] l IH]; intros k; simpl; [auto|].
  destruct (String.eqb_spec k k0) as [->|Hne]; [discriminate|].
  intros Hf [Heq|Hin]; [congruence|]. now apply (IH k).
Qed.

Lemma removelast_keys : forall l,
  map fst (removelast l) = removelast (map fst l).
Proof.
  induction l as [|p l IH]; [reflexivity|].
  destruct l as [|q l]; [reflexivity|].
  change (map fst (p :: removelast (q :: l))
          = fst p :: removelast (map fst (q :: l))).
  now rewrite <- IH.
Qed.

Lemma NoDup_removelast : forall (A : Type) (l : list A),
  NoDup l -> NoDup (removelast l).
Proof.
  induction l as [|a l IH]; intros Hnd; [constructor|].
  inversion Hnd as [|? ? Hfresh Hrest]; subst.
  destruct l as [|b l]; [constructor|].
  change (NoDup (a :: removelast (b :: l))).
  constructor; [|now apply IH].
  intros Hin. apply Hfresh. now apply In_removelast.
Qed.

Lemma removelast_length : forall (A : Type) (l : list A),
  List.length (removelast l) = Nat.pred (List.length l).
Proof.
  induction l as [|a l IH]; [reflexivity|].
  destruct l as [|b l]; [reflexivity|].
  change (S (List.length (removelast (b :: l))) = S (List.length l)).
  now rewrite IH.
Qed.

Lemma Get_withinCapacity : forall c k,
  withinCapacity c -> withinCapacity (fst (lru.Get k c)).
Proof.
  intros c k [Hnd Hlen]. unfold lru.Get.
  destruct (lru.find k (lru.items c)) as [v|] eqn:Hf; [|now split].
  split; unfold lru.keys in *; simpl.
  - constructor; [now apply remove_keys_gone|now apply remove_keys_NoDup].
  - now rewrite (remove_length _ _ _ Hf).
Qed.

Lemma Add_withinCapacity : forall c k v,
  withinCapacity c -> withinCapacity (fst (lru.Add k v c)).
Proof.
  intros c k v [Hnd Hlen]. unfold lru.Add.
  destruct (lru.find k (lru.items c)) as [v0|] eqn:Hf.
  - split; unfold lru.keys in *; simpl.
    + constructor; [now apply remove_keys_gone|now apply remove_keys_NoDup].
    + now rewrite (remove_length _ _ _ Hf).
  - assert (Hpushed : NoDup (map fst ((k, v) :: lru.items c))).
    { simpl. constructor; [now apply find_None_keys|assumption]. }
    destruct (Nat.ltb_spec (lru.size c) (List.length ((k, v) :: lru.items c)))
      as [Hfull|Hroom]; split; unfold lru.keys; cbn [fst lru.items lru.size].
    + rewrite removelast_keys. now apply NoDup_removelast.
    + rewrite removelast_length. simpl in *. lia.
    + exact Hpushed.
    + exact Hroom.
Qed.

(** With the key stored or room left, [Add] evicts nothing. *)
Lemma Add_Peek_room : forall c k v k',
  lru.Peek k c <> None \/ (List.length (lru.items c) < lru.size c)%nat ->
  k' <> k -> lru.Peek k' (fst (lru.Add k v c)) = lru.Peek k' c.
Proof.
  intros c k v k' Hroom Hne. unfold lru.Add, lru.Peek in *.
  destruct (lru.find k (lru.items c)) as [v0|] eqn:Hf; simpl.
  - destruct (String.eqb_spec k' k); [congruence|].
    apply find_remove_other. congruence.
  - destruct Hroom as [Habs|Hlt]; [congruence|].
    destruct (Nat.ltb_spec (lru.size c) (S (List.length (lru.items c))));
      [lia|]. simpl.
    destruct (String.eqb_spec k' k); [congruence|reflexivity].
Qed.

Lemma Get_length : forall c k,
  List.length (lru.items (fst (lru.Get k c))) = List.length (lru.items c).
Proof.
  intros c k. unfold lru.Get.
  destruct (lru.find k (lru.items c)) as [v|] eqn:Hf; [|reflexivity].
  simpl. now apply remove_length with (v := v).
Qed.

End LruShape.

(** X1.  [cacheAndDiff] keeps the cache within its capacity: whatever the
    call, a cache that stores no key twice and holds at most [size] entries
    is left that way, with the same [size]. *)
Theorem cacheAndDiff_withinCapacity :
  forall (c : lru.Cache Z) (queryHash queryPlanHash column : string) (v : Z),
    withinCapacity c ->
    exists c' r,
      cacheAndDiff (Some c) queryHash queryPlanHash column v = (Some c', r)
      /\ withinCapacity c' /\ lru.size c' = lru.size c.
Proof.
  intros c qh ph col v Hwf. unfold cacheAndDiff.
  destruct (v <? 0); [now exists c, (false, 0)|].
  set (key := counterKey qh ph col).
  pose proof (Get_withinCapacity c key Hwf) as Hget.
  pose proof (Get_size c key) as Hsize.
  destruct (lru.Get key c) as [c1 [cached|]]; cbn [fst] in Hget, Hsize.
  - destruct (cached <? v).
    + eexists; eexists. split; [reflexivity|].
      split; [now apply Add_withinCapacity|]. now rewrite Add_size.
    + eexists; eexists. split; [reflexivity|]. now split.
  - eexists; eexists. split; [reflexivity|].
    split; [now apply Add_withinCapacity|]. now rewrite Add_size.
Qed.

Lemma cacheAndDiff_withinCapacity_witness :
  let c := Example.cacheOf 1 [("aa-bb-total_rows", 5)] in
  withinCapacity c
  /\ exists c' r,
      cacheAndDiff (Some c) "cc" "dd" "total_rows" 9 = (Some c', r)
      /\ withinCapacity c' /\ lru.size c' = lru.size c.
Proof.
  intros c.
  assert (Hwf : withinCapacity c).
  { split.
    - repeat constructor. intros [].
    - simpl. lia. }
  split; [exact Hwf|].
  exact (cacheAndDiff_withinCapacity c "cc" "dd" "total_rows" 9 Hwf).
Defined.

(** X2.  A reading that does not exceed the one before it reports the key as
    cached with difference 0, and changes no stored value: after a call with
    [v], a call on the same key with [0 <= v' <= v] returns [(true, 0)]. *)
Theorem cacheAndDiff_repeated_reading :
  forall (c : lru.Cache Z) (queryHash queryPlanHash column : string)
         (v v' : Z),
    (0 < lru.size c)%nat -> 0 <= v' <= v ->
    exists c1 r1 c2,
      cacheAndDiff (Some c) queryHash queryPlanHash column v = (Some c1, r1)
      /\ cacheAndDiff (Some c1) queryHash queryPlanHash column v'
         = (Some c2, (true, 0))
      /\ forall k, lru.Peek k c2 = lru.Peek k c1.
Proof.
  intros c qh ph col v v' Hsize Hv.
  set (key := counterKey qh ph col).
  assert (Hfirst : exists c1 r1 stored,
             cacheAndDiff (Some c) qh ph col v = (Some c1, r1)
             /\ lru.Peek key c1 = Some stored /\ v <= stored).
  { rewrite cacheAndDiff_after by lia. fold key.
    assert (Hadd : lru.Peek key (fst (lru.Add key v (fst (lru.Get key c))))
                   = Some v)
      by (apply Add_Peek_same; now rewrite Get_size).
    destruct (lru.Peek key c) as [cached|] eqn:Hpeek.
    - destruct (Z.ltb_spec cached v).
      + eexists; eexists; exists v. split; [reflexivity|]. split; [exact Hadd|lia].
      + eexists; eexists; exists cached. split; [reflexivity|].
        split; [now rewrite Get_Peek|lia].
    - eexists; eexists; exists v. split; [reflexivity|]. split; [exact Hadd|lia]. }
  destruct Hfirst as (c1 & r1 & stored & Hcall & Hpeek & Hle).
  destruct (cacheAndDiff_not_grown c1 qh ph col v' stored) as (c2 & Hsecond & Hsame);
    [lia|exact Hpeek|lia|].
  exists c1, r1, c2. now repeat split.
Qed.

Lemma cacheAndDiff_repeated_reading_witness :
  let c := Example.cacheOf 4 (@nil (string * Z)) in
  (0 < lru.size c)%nat /\ 0 <= 1 <= 1
  /\ exists c1 r1 c2,
      cacheAndDiff (Some c) "query_hash" "query_plan_hash" "column" 1
      = (Some c1, r1)
      /\ cacheAndDiff (Some c1) "query_hash" "query_plan_hash" "column" 1
         = (Some c2, (true, 0))
      /\ forall k, lru.Peek k c2 = lru.Peek k c1.
Proof.
  intros c.
  assert (Hsize : (0 < lru.size c)%nat) by (simpl; lia).
  assert (Hv : 0 <= 1 <= 1) by lia.
  split; [exact Hsize|]. split; [exact Hv|].
  exact (cacheAndDiff_repeated_reading c "query_hash" "query_plan_hash"
           "column" 1 1 Hsize Hv).
Defined.

Lemma observe_cons : forall (c c' : lru.Cache Z) (cl : call) (r : bool * Z)
    (rest : list call),
  cacheAndDiff (Some c) (callHash cl) (callPlanHash cl) (callColumn cl)
    (callVal cl) = (Some c', r) ->
  observe c (cl :: rest) = mkObservation c cl r c' :: observe c' rest.
Proof. intros c c' cl r rest H. cbn [observe]. now rewrite H. Qed.

Lemma last_cons : forall (A : Type) (l : list A) (a d : A),
  last (a :: l) d = last l a.
Proof.
  induction l as [|b l IH]; intros a d; [reflexivity|].
  change (last (a :: b :: l) d) with (last (b :: l) d).
  now rewrite !IH.
Qed.

Lemma finalCache_cons : forall (c : lru.Cache Z) (o : observation)
    (run : list observation),
  finalCache c (o :: run) = finalCache (after o) run.
Proof. intros c o run. unfold finalCache. cbn [map]. apply last_cons. Qed.

(** X3.  The differences of one counter add up to its growth.  Take a key
    stored with [v0] and successive readings of it, all counters (not
    negative, within [int64]), with no call on another key in between.
    Every reading is reported as cached, the differences reported add up to
    the largest value seen minus [v0], and that largest value is what the
    cache holds in the end: a reading below the stored value reports 0 and
    is not stored, so after a counter has gone back nothing is reported
    until it passes its old maximum. *)
Theorem cacheAndDiff_differences_add_up :
  forall (vals : list Z) (c : lru.Cache Z)
         (queryHash queryPlanHash column : string) (v0 : Z),
    (0 < lru.size c)%nat -> counters c ->
    lru.Peek (counterKey queryHash queryPlanHash column) c = Some v0 ->
    Forall (fun v => 0 <= v <= Int64.max) vals ->
    let run := observe c (readings queryHash queryPlanHash column vals) in
    let highest := fold_left Z.max vals v0 in
    List.length run = List.length vals
    /\ Forall (fun o => fst (reported o) = true) run
    /\ reportedSum run = highest - v0
    /\ lru.Peek (counterKey queryHash queryPlanHash column) (finalCache c run)
       = Some highest.
Proof.
  intros vals c qh ph col. revert c.
  set (key := counterKey qh ph col).
  induction vals as [|v vals IH]; intros c v0 Hsize Hcnt Hpeek Hvals;
    cbv zeta.
  - cbn. repeat split; [constructor|lia|exact Hpeek].
  - inversion Hvals as [|? ? Hv Hrest]; subst.
    pose proof (counters_Peek c key v0 Hcnt Hpeek) as Hv0.
    assert (Hstep : exists c1 d,
               cacheAndDiff (Some c) qh ph col v = (Some c1, (true, d))
               /\ (0 < lru.size c1)%nat /\ counters c1
               /\ lru.Peek key c1 = Some (Z.max v0 v)
               /\ d = Z.max v0 v - v0).
    { rewrite cacheAndDiff_after by lia. fold key. rewrite Hpeek.
      destruct (Z.ltb_spec v0 v) as [Hlt|Hge].
      - eexists; eexists. split; [reflexivity|].
        split; [now rewrite Add_size, Get_size|].
        split; [apply counters_Add; [lia|now apply counters_Get]|].
        split.
        + rewrite Z.max_r by lia. apply Add_Peek_same. now rewrite Get_size.
        + rewrite sub_counters_exact by lia. lia.
      - eexists; eexists. split; [reflexivity|].
        split; [now rewrite Get_size|].
        split; [now apply counters_Get|].
        split; [rewrite Get_Peek, Z.max_l by lia; exact Hpeek|lia]. }
    destruct Hstep as (c1 & d & Hcall & Hsize1 & Hcnt1 & Hpeek1 & Hd).
    change (readings qh ph col (v :: vals))
      with (mkCall qh ph col v :: readings qh ph col vals).
    rewrite (observe_cons c c1 (mkCall qh ph col v) (true, d)) by exact Hcall.
    destruct (IH c1 (Z.max v0 v) Hsize1 Hcnt1 Hpeek1 Hrest)
      as (Hlen & Hall & Hsum & Hfinal).
    rewrite finalCache_cons. cbn [after List.length fold_left].
    split; [now rewrite Hlen|].
    split; [constructor; [reflexivity|exact Hall]|].
    split; [|exact Hfinal].
    unfold reportedSum in *. cbn [map fold_right reported snd].
    rewrite Hsum, Hd. lia.
Qed.

Lemma cacheAndDiff_differences_add_up_witness :
  let c := Example.cacheOf 4 [("aa-bb-total_rows", 10)] in
  let run := observe c (readings "aa" "bb" "total_rows" [15; 12; 20]) in
  (0 < lru.size c)%nat /\ counters c
  /\ map reported run = [(true, 5); (true, 0); (true, 5)]
  /\ (List.length run = 3%nat
      /\ Forall (fun o => fst (reported o) = true) run
      /\ reportedSum run = fold_left Z.max [15; 12; 20] 10 - 10
      /\ lru.Peek (counterKey "aa" "bb" "total_rows") (finalCache c run)
         = Some (fold_left Z.max [15; 12; 20] 10)).
Proof.
  intros c run.
  assert (Hsize : (0 < lru.size c)%nat) by (simpl; lia).
  assert (Hcnt : counters c).
  { repeat constructor; simpl; unfold Int64.max; lia. }
  assert (Hvals : Forall (fun v => 0 <= v <= Int64.max) [15; 12; 20]).
  { repeat constructor; unfold Int64.max; lia. }
  split; [exact Hsize|]. split; [exact Hcnt|]. split; [reflexivity|].
  exact (cacheAndDiff_differences_add_up [15; 12; 20] c "aa" "bb"
           "total_rows" 10 Hsize Hcnt eq_refl Hvals).
Defined.

(** X4.  A call evicts nothing while there is room: when the key of the call
    is already stored, or the cache holds fewer than [size] entries, every
    other key keeps the value it had. *)
Theorem cacheAndDiff_keeps_others_with_room :
  forall (c : lru.Cache Z) (queryHash queryPlanHash column : string) (v : Z),
    lru.Peek (counterKey queryHash queryPlanHash column) c <> None
    \/ (List.length (lru.items c) < lru.size c)%nat ->
    exists c' r,
      cacheAndDiff (Some c) queryHash queryPlanHash column v = (Some c', r)
      /\ forall k, k <> counterKey queryHash queryPlanHash column ->
                   lru.Peek k c' = lru.Peek k c.
Proof.
  intros c qh ph col v Hroom. unfold cacheAndDiff.
  destruct (v <? 0); [now exists c, (false, 0)|].
  set (key := counterKey qh ph col) in *.
  assert (Hroom1 : lru.Peek key (fst (lru.Get key c)) <> None
                   \/ (List.length (lru.items (fst (lru.Get key c)))
                       < lru.size (fst (lru.Get key c)))%nat)
    by now rewrite Get_Peek, Get_length, Get_size.
  pose proof (Get_Peek c key) as Hget.
  destruct (lru.Get key c) as [c1 [cached|]]; cbn [fst] in Hget, Hroom1.
  - destruct (cached <? v).
    + eexists; eexists. split; [reflexivity|]. intros k Hk.
      now rewrite Add_Peek_room, Hget.
    + eexists; eexists. split; [reflexivity|]. intros k _. apply Hget.
  - eexists; eexists. split; [reflexivity|]. intros k Hk.
    now rewrite Add_Peek_room, Hget.
Qed.

Lemma cacheAndDiff_keeps_others_with_room_witness :
  let c := Example.cacheOf 2 [("aa-bb-total_rows", 5)] in
  (lru.Peek (counterKey "cc" "dd" "total_rows") c <> None
   \/ (List.length (lru.items c) < lru.size c)%nat)
  /\ exists c' r,
      cacheAndDiff (Some c) "cc" "dd" "total_rows" 9 = (Some c', r)
      /\ forall k, k <> counterKey "cc" "dd" "total_rows" ->
                   lru.Peek k c' = lru.Peek k c.
Proof.
  intros c.
  assert (Hroom : lru.Peek (counterKey "cc" "dd" "total_rows") c <> None
                  \/ (List.length (lru.items c) < lru.size c)%nat)
    by (right; simpl; lia).
  split; [exact Hroom|].
  exact (cacheAndDiff_keeps_others_with_room c "cc" "dd" "total_rows" 9 Hroom).
Defined.

(** ** The [float64] cache and NaN *)

Lemma ltb_nan_l : forall v : float, PrimFloat.ltb nan v = false.
Proof.
  intros v. rewrite ltb_spec. unfold SFltb.
  replace (Prim2SF nan) with SpecFloat.S754_nan by reflexivity.
  reflexivity.
Qed.

(** X5.  In the [float64] revision a NaN gets into the cache and stays.  NaN
    passes the guard [val <= 0], so on a key that is not stored it is stored
    and returned as a first observation.  No value is greater than a stored
    NaN: every later call on the key changes no stored value and reports a
    difference of 0 (as cached, unless the guard rejects the value). *)
Theorem cacheAndDiffF_nan_is_kept :
  forall (c : lru.Cache float) (queryHash queryPlanHash column : string)
         (v : float),
    (0 < lru.size c)%nat ->
    let key := counterKey queryHash queryPlanHash column in
    (lru.Peek key c = None ->
     exists c',
       ScraperF.cacheAndDiff (Some c) queryHash queryPlanHash column nan
       = (Some c', (false, nan))
       /\ lru.Peek key c' = Some nan)
    /\ (lru.Peek key c = Some nan ->
        exists c',
          ScraperF.cacheAndDiff (Some c) queryHash queryPlanHash column v
          = (Some c', (negb (PrimFloat.leb v 0), 0%float))
          /\ forall k, lru.Peek k c' = lru.Peek k c).
Proof.
  intros c qh ph col v Hsize key. split.
  - intros Habs.
    apply (cacheAndDiffF_first c qh ph col nan Hsize); [reflexivity|exact Habs].
  - intros Hnan. destruct (PrimFloat.leb v 0) eqn:Hv; cbn [negb].
    + exists c. split; [|reflexivity].
      now apply cacheAndDiffF_rejected.
    + apply (cacheAndDiffF_not_grown c qh ph col v nan Hv Hnan).
      apply ltb_nan_l.
Qed.

Lemma cacheAndDiffF_nan_is_kept_witness :
  let c := Example.cacheOf 4 [("aa-bb-total_rows", nan)] in
  (0 < lru.size c)%nat
  /\ exists c',
      ScraperF.cacheAndDiff (Some c) "aa" "bb" "total_rows" 7%float
      = (Some c', (true, 0%float))
      /\ forall k, lru.Peek k c' = lru.Peek k c.
Proof.
  intros c.
  assert (Hsize : (0 < lru.size c)%nat) by (simpl; lia).
  split; [exact Hsize|].
  exact (proj2 (cacheAndDiffF_nan_is_kept c "aa" "bb" "total_rows" 7%float
                  Hsize) eq_refl).
Defined.

(** ** Cache keys *)

Lemma digit_not_dash : forall n : N, hex.digit n <> "-"%char.
Proof.
  intros n. unfold hex.digit.
  generalize (N.to_nat n). intros k.
  do 16 (destruct k as [|k]; [cbv; discriminate|]).
  cbv. discriminate.
Qed.

Lemma EncodeToString_no_dash : forall s : string,
  ~ In "-"%char (list_ascii_of_string (hex.EncodeToString s)).
Proof.
  induction s as [|v s IH]; simpl; [auto|].
  intros [H|[H|H]]; [now apply digit_not_dash in H
                    |now apply digit_not_dash in H|auto].
Qed.

(** Two strings without the separator, each followed by it: the parts are
    the same on both sides. *)
Lemma split_at_dash : forall a a' r r' : string,
  ~ In "-"%char (list_ascii_of_string a) ->
  ~ In "-"%char (list_ascii_of_string a') ->
  a ++ String "-" r = a' ++ String "-" r' -> a = a' /\ r = r'.
Proof.
  induction a as [|x a IH]; intros [|x' a'] r r' Ha Ha' Heq; simpl in *.
  - injection Heq as ->. auto.
  - injection Heq as <- _. exfalso. apply Ha'. now left.
  - injection Heq as -> _. exfalso. apply Ha. now left.
  - injection Heq as -> Heq.
    destruct (IH a' r r') as [-> ->]; auto.
Qed.

Lemma In_allBytes : forall v : ascii, In v allBytes.
Proof.
  intros v. unfold allBytes. apply in_map_iff.
  exists (nat_of_ascii v). split; [apply ascii_nat_embedding|].
  apply in_seq. pose proof (nat_ascii_bounded v). lia.
Qed.

Lemma digits_of_byte_inj : forall v v' : ascii,
  hex.digit (N.shiftr (N_of_ascii v) 4) = hex.digit (N.shiftr (N_of_ascii v') 4) ->
  hex.digit (N.land (N_of_ascii v) 15) = hex.digit (N.land (N_of_ascii v') 15) ->
  v = v'.
Proof.
  assert (Hall :
            forallb
              (fun v =>
                 forallb
                   (fun v' =>
                      implb
                        (Ascii.eqb (hex.digit (N.shiftr (N_of_ascii v) 4))
                           (hex.digit (N.shiftr (N_of_ascii v') 4))
                         && Ascii.eqb (hex.digit (N.land (N_of_ascii v) 15))
                              (hex.digit (N.land (N_of_ascii v') 15)))
                        (Ascii.eqb v v'))
                   allBytes)
              allBytes = true) by (vm_compute; reflexivity).
  intros v v' Hhi Hlo.
  rewrite forallb_forall in Hall. specialize (Hall v (In_allBytes v)).
  rewrite forallb_forall in Hall. specialize (Hall v' (In_allBytes v')).
  rewrite Hhi, Hlo, !Ascii.eqb_refl in Hall. simpl in Hall.
  now apply Ascii.eqb_eq.
Qed.

Lemma EncodeToString_inj : forall s s' : string,
  hex.EncodeToString s = hex.EncodeToString s' -> s = s'.
Proof.
  induction s as [|v s IH]; intros [|v' s'] H; simpl in H;
    try discriminate; [reflexivity|].
  injection H as Hhi Hlo Hrest.
  f_equal; [now apply digits_of_byte_inj|now apply IH].
Qed.

Lemma counterKey_hex_inj : forall a b col a' b' col' : string,
  counterKey (hex.EncodeToString a) (hex.EncodeToString b) col
  = counterKey (hex.EncodeToString a') (hex.EncodeToString b') col' ->
  a = a' /\ b = b' /\ col = col'.
Proof.
  intros a b col a' b' col' H. unfold counterKey in H.
  change ("-" ++ ?x) with (String "-" x) in H.
  apply split_at_dash in H; try apply EncodeToString_no_dash.
  destruct H as [Ha H].
  change ("-" ++ col) with (String "-" col) in H.
  change ("-" ++ col') with (String "-" col') in H.
  apply split_at_dash in H; try apply EncodeToString_no_dash.
  destruct H as [Hb Hcol].
  split; [now apply EncodeToString_inj|].
  split; [now apply EncodeToString_inj|assumption].
Qed.

(** X6.  No two counters share a cache key.  The mappers build the key from
    the hex encodings of the query hash and the plan hash and from the
    column name; a hex encoding holds no ["-"], so equal keys come from the
    same hash, the same plan hash and the same column. *)
Theorem counterKey_of_hashes_injective :
  forall (queryHash queryPlanHash column : string)
         (queryHash' queryPlanHash' column' : string),
    counterKey (hex.EncodeToString queryHash)
      (hex.EncodeToString queryPlanHash) column
    = counterKey (hex.EncodeToString queryHash')
        (hex.EncodeToString queryPlanHash') column' ->
    queryHash = queryHash' /\ queryPlanHash = queryPlanHash'
    /\ column = column'.
Proof. exact counterKey_hex_inj. Qed.

Lemma counterKey_of_hashes_injective_witness :
  counterKey (hex.EncodeToString "a") (hex.EncodeToString "p") "total_rows"
  = "61-70-total_rows"
  /\ ("a" = "a" /\ "p" = "p" /\ "total_rows" = "total_rows").
Proof.
  split; [reflexivity|].
  exact (counterKey_of_hashes_injective "a" "p" "total_rows"
           "a" "p" "total_rows" eq_refl).
Defined.

(** ** [sortRows]: rows and values of different lengths, rows that carry
    their value *)

Lemma sortedIndices_in_range : forall (env : Env) (values : list Z),
  sort.Slice_contract (Slice env) ->
  Forall (fun i => (i < List.length values)%nat) (sortedIndices env values).
Proof.
  intros env values Hsort. apply Forall_forall. intros i Hin.
  apply (Permutation_in _ (Permutation_sym (sortedIndices_perm env Hsort values)))
    in Hin.
  apply in_seq in Hin. lia.
Qed.

Lemma firstn_app_exact : forall (A : Type) (l l' : list A) (n : nat),
  n = List.length l -> firstn n (List.app l l') = l.
Proof.
  intros A l l' n ->. rewrite firstn_app, Nat.sub_diag, firstn_all.
  simpl. apply app_nil_r.
Qed.

Lemma skipn_app_exact : forall (A : Type) (l l' : list A) (n : nat),
  n = List.length l -> skipn n (List.app l l') = l'.
Proof.
  intros A l l' n ->. rewrite skipn_app, Nat.sub_diag, skipn_all. reflexivity.
Qed.

Lemma map_nth_firstn : forall (A : Type) (l : list A) (d : A) (n : nat)
    (idx : list nat),
  Forall (fun i => (i < n)%nat) idx ->
  map (fun i => nth i (firstn n l) d) idx = map (fun i => nth i l d) idx.
Proof.
  intros A l d n idx Hall. apply map_ext_Forall.
  eapply Forall_impl; [|exact Hall]. intros i Hi. cbv beta in Hi |- *.
  rewrite <- (firstn_skipn n l) at 2.
  destruct (Nat.lt_ge_cases i (List.length (firstn n l))) as [Hlt|Hge].
  - now rewrite app_nth1.
  - rewrite length_firstn in Hge.
    rewrite (nth_overflow (firstn n l)) by (rewrite length_firstn; lia).
    rewrite nth_overflow; [reflexivity|].
    rewrite firstn_skipn. lia.
Qed.

(** X7.  [sortRows] on fewer values than rows.  The result has the length of
    [rows]; its first [len(values)] entries are the first [len(values)] rows,
    rearranged; the rows beyond are not in the result, whose tail holds nil
    maps.  (More values than rows is an index out of range.) *)
Theorem sortRows_fewer_values :
  forall (env : Env) (rows : list StringMap) (values : list Z),
    sort.Slice_contract (Slice env) ->
    (List.length values <= List.length rows)%nat ->
    exists sorted,
      sortRows env rows values = Some sorted
      /\ List.length sorted = List.length rows
      /\ Permutation (firstn (List.length values) rows)
           (firstn (List.length values) sorted)
      /\ skipn (List.length values) sorted
         = repeat [] (List.length rows - List.length values).
Proof.
  intros env rows values Hsort Hlen. unfold sortRows.
  destruct (Nat.ltb_spec (List.length rows) (List.length values)); [lia|].
  set (n := List.length values).
  assert (Hidx : List.length (sortedIndices env values) = n).
  { rewrite <- (Permutation_length (sortedIndices_perm env Hsort values)).
    apply length_seq. }
  eexists. split; [reflexivity|].
  split; [rewrite length_app, length_map, repeat_length, Hidx; lia|].
  split.
  - rewrite firstn_app_exact by now rewrite length_map.
    rewrite <- (map_nth_firstn _ rows [] n)
      by now apply sortedIndices_in_range.
    rewrite <- (map_nth_seq _ (firstn n rows) []) at 1.
    apply Permutation_map.
    replace (List.length (firstn n rows)) with n
      by (rewrite length_firstn; lia).
    now apply sortedIndices_perm.
  - now rewrite skipn_app_exact by now rewrite length_map.
Qed.

Lemma sortRows_fewer_values_witness :
  let rows := [Example.named 0; Example.named 1; Example.named 2] in
  let values := [10; 500] in
  sort.Slice_contract (Slice Example.insertionEnv)
  /\ (List.length values <= List.length rows)%nat
  /\ sortRows Example.insertionEnv rows values
     = Some [Example.named 1; Example.named 0; []]
  /\ exists sorted,
      sortRows Example.insertionEnv rows values = Some sorted
      /\ List.length sorted = List.length rows
      /\ Permutation (firstn (List.length values) rows)
           (firstn (List.length values) sorted)
      /\ skipn (List.length values) sorted
         = repeat [] (List.length rows - List.length values).
Proof.
  intros rows values.
  assert (Hlen : (List.length values <= List.length rows)%nat)
    by (simpl; lia).
  split; [exact insertionSort_contract|]. split; [exact Hlen|].
  split; [reflexivity|].
  exact (sortRows_fewer_values Example.insertionEnv rows values
           insertionSort_contract Hlen).
Defined.

(** X8.  Rows that carry their value come out in the order of the sorted
    values ([TestSortRows], for every input): with [values] read off the
    rows by [weight], the weights of [sortRows rows values] are [values]
    sorted in descending order. *)
Theorem sortRows_orders_by_weight :
  forall (env : Env) (weight : StringMap -> Z) (rows : list StringMap),
    sort.Slice_contract (Slice env) ->
    exists sorted,
      sortRows env rows (map weight rows) = Some sorted
      /\ map weight sorted = sortDiffs env (map weight rows)
      /\ descending (map weight sorted)
      /\ Permutation rows sorted.
Proof.
  intros env weight rows Hsort.
  set (values := map weight rows).
  assert (Hlen : List.length rows = List.length values)
    by (unfold values; now rewrite length_map).
  rewrite (sortRows_indices env rows values Hlen).
  eexists. split; [reflexivity|].
  assert (Hw : map weight
                 (map (fun i => nth i rows []) (sortedIndices env values))
               = sortDiffs env values).
  { rewrite <- sortedIndices_values by assumption. rewrite map_map.
    apply map_ext_Forall.
    eapply Forall_impl; [|apply (sortedIndices_in_range env values Hsort)].
    intros i Hi. cbv beta in Hi |- *. unfold values in Hi |- *.
    rewrite (nth_indep (map weight rows) 0 (weight [])) by exact Hi.
    symmetry. apply map_nth. }
  split; [exact Hw|]. split; [rewrite Hw; now apply sortDiffs_descending|].
  rewrite <- (map_nth_seq _ rows []) at 1.
  apply Permutation_map. rewrite Hlen. now apply sortedIndices_perm.
Qed.

Lemma sortRows_orders_by_weight_witness :
  let weight (row : StringMap) := fst (strconv.ParseInt (cell row "column")) in
  let rows := [[("column", "10")]; [("column", "500")]; [("column", "100")]] in
  sort.Slice_contract (Slice Example.insertionEnv)
  /\ sortRows Example.insertionEnv rows (map weight rows)
     = Some [[("column", "500")]; [("column", "100")]; [("column", "10")]]
  /\ exists sorted,
      sortRows Example.insertionEnv rows (map weight rows) = Some sorted
      /\ map weight sorted = sortDiffs Example.insertionEnv (map weight rows)
      /\ descending (map weight sorted)
      /\ Permutation rows sorted.
Proof.
  intros weight rows.
  split; [exact insertionSort_contract|]. split; [reflexivity|].
  exact (sortRows_orders_by_weight Example.insertionEnv weight rows
           insertionSort_contract).
Defined.

(** ** [anyOf] and the classifier on extended names *)

(** X9.  [anyOf s f vals] holds exactly when [f s v] holds for some [v] of
    [vals]; in particular it is false on no values. *)
Theorem anyOf_iff_exists :
  forall (s : string) (f : string -> string -> bool) (vals : list string),
    anyOf s f vals = true <-> exists v, In v vals /\ f s v = true.
Proof.
  intros s f vals. induction vals as [|v vals IH]; simpl.
  - split; [discriminate|]. intros (v & [] & _).
  - destruct (f s v) eqn:Hv.
    + split; [|reflexivity]. intros _. exists v. auto.
    + rewrite IH. split.
      * intros (w & Hin & Hw). exists w. auto.
      * intros (w & [<-|Hin] & Hw); [congruence|]. exists w. auto.
Qed.

Lemma prefix_empty : forall s : string, String.prefix "" s = true.
Proof. now destruct s. Qed.

Lemma prefix_app : forall p s t : string,
  String.prefix p s = true -> String.prefix p (s ++ t) = true.
Proof.
  induction p as [|a p IH]; intros s t H; [apply prefix_empty|].
  destruct s as [|c s]; [cbn in H; discriminate H|].
  change (String c s ++ t) with (String c (s ++ t)).
  rewrite prefix_cons in *. apply andb_true_iff in H. destruct H as [-> H].
  now rewrite (IH s t H).
Qed.

(** With [q] a prefix of [s]: a [p] that is no prefix of [s] and does not
    start with [q] is no prefix of an extension of [s] either. *)
Lemma prefix_app_false : forall s p q t : string,
  String.prefix p s = false -> String.prefix q s = true ->
  String.prefix q p = false -> String.prefix p (s ++ t) = false.
Proof.
  induction s as [|c s IH]; intros p q t Hp Hq Hqp.
  - destruct q as [|b q]; [|cbn in Hq; discriminate Hq].
    rewrite prefix_empty in Hqp. discriminate Hqp.
  - destruct p as [|a p]; [cbn in Hp; discriminate Hp|].
    destruct q as [|b q]; [cbn in Hqp; discriminate Hqp|].
    change (String c s ++ t) with (String c (s ++ t)).
    rewrite prefix_cons in *.
    apply andb_true_iff in Hq. destruct Hq as [Hbc Hq].
    apply Ascii.eqb_eq in Hbc. subst b.
    destruct (Ascii.eqb_spec a c) as [->|Hne]; [|reflexivity].
    rewrite Ascii.eqb_refl in Hqp. cbn [andb] in *.
    now apply (IH p q t).
Qed.

Ltac extended t :=
  repeat
    match goal with
    | Hq : String.prefix ?q ?s = true, H : String.prefix ?p ?s = false
      |- context [String.prefix ?p (?s ++ t)] =>
        rewrite (prefix_app_false s p q t H Hq ltac:(vm_compute; reflexivity))
    end.

Ltac matched t H :=
  rewrite (prefix_app _ _ t H); extended t;
  cbn [orb andb negb]; reflexivity.

Ltac rule t p :=
  let H := fresh "Hp" in
  destruct (String.prefix p _) eqn:H; [matched t H|].

(** X10.  The classifier goes by prefixes: a name that a prefix rule puts in
    a bucket keeps that bucket however it is extended, as long as the longer
    name is not in the detailed table and is not one of the two names the
    rules except. *)
Theorem getWaitCategory_extension :
  forall (env : Env) (s t : string),
    detailedWaitTypes env s = None ->
    detailedWaitTypes env (s ++ t) = None ->
    fst (getWaitCategory env s) <> 0%nat ->
    s ++ t <> "BROKER_RECEIVE_WAITFOR" ->
    s ++ t <> "HADR_THROTTLE_LOG_RATE_GOVERNOR" ->
    getWaitCategory env (s ++ t) = getWaitCategory env s.
Proof.
  intros env s t Hs Hst Hrule Hbroker Hhadr.
  unfold getWaitCategory in *. rewrite Hs in *. rewrite Hst.
  rewrite !anyOf_HasPrefix_2, !anyOf_HasPrefix_4, !anyOf_HasPrefix_3 in *.
  unfold strings.HasPrefix in *.
  apply String.eqb_neq in Hbroker, Hhadr. rewrite Hbroker, Hhadr.
  rule t "LOCK_M_". rule t "LATCH_". rule t "PAGELATCH_".
  rule t "PAGEIOLATCH_". rule t "CLR". rule t "SQLCLR". rule t "DBMIRROR".
  rule t "XACT". rule t "DTC". rule t "TRAN_MARKLATCH_". rule t "MSQL_XACT_".
  rule t "SLEEP_". rule t "PREEMPTIVE_".
  destruct (String.prefix "BROKER_" s) eqn:Hb.
  { destruct (String.eqb_spec s "BROKER_RECEIVE_WAITFOR") as [->|_].
    - exfalso. apply Hrule. vm_compute. reflexivity.
    - matched t Hb. }
  cbn [andb orb] in Hrule |- *.
  rule t "HT". rule t "BMP". rule t "BP".
  rule t "SE_REPL_". rule t "REPL_". rule t "PWAIT_HADR_".
  destruct (String.prefix "HADR_" s) eqn:Hh.
  { destruct (String.eqb_spec s "HADR_THROTTLE_LOG_RATE_GOVERNOR") as [->|_].
    - exfalso. apply Hrule. vm_compute. reflexivity.
    - matched t Hh. }
  cbn [andb orb] in Hrule |- *.
  rule t "RBIO_RG_".
  exfalso. apply Hrule. reflexivity.
Qed.

Lemma getWaitCategory_extension_witness :
  detailedWaitTypes Example.insertionEnv "HADR_" = None
  /\ detailedWaitTypes Example.insertionEnv "HADR_SYNC_COMMIT" = None
  /\ getWaitCategory Example.insertionEnv "HADR_SYNC_COMMIT"
     = (22%nat, "Replication").
Proof.
  split; [reflexivity|]. split; [reflexivity|].
  refine (getWaitCategory_extension Example.insertionEnv "HADR_"
            "SYNC_COMMIT" eq_refl eq_refl _ _ _).
  - vm_compute. discriminate.
  - vm_compute. discriminate.
  - vm_compute. discriminate.
Defined.

(** ** [obfuscateXMLPlan]: what is rewritten, and how it fails *)

Lemma obfuscateAttr_targeted : forall (env : Env) (a : xml.Attr),
  obfuscateAttr env a
  = if targetedAttr a then obfuscatedAttr env a else a.
Proof.
  intros env [[space local] value].
  unfold obfuscateAttr, targetedAttr, obfuscatedAttr, XMLPlanObfuscationAttrs.
  cbn [fold_left existsb].
  cbn [xml.AttrName xml.Local xml.Value].
  destruct (String.eqb_spec local "StatementText") as [->|_];
    [reflexivity|].
  cbn [xml.AttrName xml.Local xml.Value].
  destruct (String.eqb_spec local "ConstValue") as [->|_]; [reflexivity|].
  cbn [xml.AttrName xml.Local xml.Value].
  destruct (String.eqb_spec local "ScalarString") as [->|_]; [reflexivity|].
  cbn [xml.AttrName xml.Local xml.Value].
  destruct (String.eqb_spec local "ParameterCompiledValue") as [->|_];
    reflexivity.
Qed.

(** X11.  What [obfuscateXMLPlan] hands to the encoder for a start element:
    the same element name and the same attributes in the same order, where
    each attribute named [StatementText], [ConstValue], [ScalarString] or
    [ParameterCompiledValue] has its value replaced, once, by what
    [obfuscateSQL] returns for it, and every other attribute is as it was
    decoded.  End elements, comments, processing instructions and directives
    are handed on as decoded. *)
Theorem rewriteToken_obfuscates_targeted_attributes :
  forall (env : Env) (t : xml.Token),
    match t with
    | xml.StartElement name attr =>
        rewriteToken env t
        = xml.StartElement name
            (map (fun a => if targetedAttr a then obfuscatedAttr env a else a)
               attr)
    | xml.CharData data =>
        rewriteToken env t = xml.CharData (bytes.TrimSpace data)
    | _ => rewriteToken env t = t
    end.
Proof.
  intros env [name attr|name|data|data|target inst|data]; try reflexivity.
  cbn [rewriteToken]. f_equal. apply map_ext. apply obfuscateAttr_targeted.
Qed.

Lemma encodeLoop_total : forall (env : Env) (rewrite : xml.Token -> xml.Token)
    (tokens : list xml.Token) (enc : Encoder env),
  (forall enc t, exists enc', EncodeToken env enc t = inl enc') ->
  exists enc', encodeLoop env rewrite enc tokens = inl enc'.
Proof.
  intros env rewrite tokens. induction tokens as [|t tokens IH];
    intros enc Htotal; cbn [encodeLoop].
  - now exists enc.
  - destruct (Htotal enc (rewrite t)) as [enc1 ->]. now apply IH.
Qed.

(** X12.  How [obfuscateXMLPlan] fails.  Whenever it returns an error, the
    text it returns is empty.  A plan on which the decoder stops with an
    error other than the end of input always gives an error.  An error of
    the SQL obfuscator never does: when the decoder reaches the end of the
    input and the encoder accepts every token and the flush, no error is
    returned, whatever [obfuscateSQL] reports. *)
Theorem obfuscateXMLPlan_failures :
  forall (env : Env) (rawPlan : string),
    (forall out e, obfuscateXMLPlan env rawPlan = (out, Some e) -> out = "")
    /\ (forall e,
           snd (NewDecoder env rawPlan) = xml.Fail e ->
           exists e', obfuscateXMLPlan env rawPlan = ("", Some e'))
    /\ (snd (NewDecoder env rawPlan) = xml.EOF ->
        (forall enc t, exists enc', EncodeToken env enc t = inl enc') ->
        (forall enc, exists enc', Flush env enc = inl enc') ->
        exists out, obfuscateXMLPlan env rawPlan = (out, None)).
Proof.
  intros env rawPlan. unfold obfuscateXMLPlan, encodePlan.
  destruct (NewDecoder env rawPlan) as [tokens stop]. cbn [snd].
  split; [|split].
  - intros out e.
    destruct (encodeLoop env (rewriteToken env) (NewEncoder env) tokens)
      as [enc|e1]; [|now intros [= <- _]].
    destruct stop as [|e1]; [|now intros [= <- _]].
    destruct (Flush env enc) as [enc'|e1]; [discriminate|now intros [= <- _]].
  - intros e ->.
    destruct (encodeLoop env (rewriteToken env) (NewEncoder env) tokens)
      as [enc|e1]; eexists; reflexivity.
  - intros -> Hencode Hflush.
    destruct (encodeLoop_total env (rewriteToken env) tokens (NewEncoder env)
                Hencode) as [enc ->].
    destruct (Hflush enc) as [enc' ->]. eexists; reflexivity.
Qed.

(** ** The ranked mappers: which rows are emitted *)

Lemma records_append : forall (logs : plog.Logs) (r : plog.LogRecord),
  plog.records (plog.appendInOwnResource logs r)
  = List.app (plog.records logs) [r].
Proof.
  intros logs r. unfold plog.records, plog.appendInOwnResource.
  rewrite flat_map_app. reflexivity.
Qed.









(** The bounds lemmas at concrete scrapes. *)
Lemma Scraper_textAndPlan_bounds_witness :
  let env := Example.insertionEnv in
  let c :=
    Some (Example.cacheOf 64
            [("61-70-total_elapsed_time", 5); ("62-71-total_elapsed_time", 5)]) in
  let rows :=
    [Example.row "a" "p" "h" "7000" "7"; Example.row "b" "q" "g" "9000" "7"] in
  sort.Slice_contract (Slice env) /\ 0 <= 1 < 2 ^ 64
  /\ exists cache' logs errs,
      Scraper.recordDatabaseQueryTextAndPlan env c (rows, None) 1
      = Some (cache', (logs, errs))
      /\ Z.of_nat (plog.LogRecordCount logs) <= 1
      /\ (plog.LogRecordCount logs
          <= positiveDeltas (snd (Scraper.elapsedDiffs c (fst (rows, @None queryError)))))%nat.
Proof.
  intros env c rows.
  assert (Htop : 0 <= 1 < 2 ^ 64) by lia.
  split; [exact insertionSort_contract|]. split; [exact Htop|].
  exact (Scraper_textAndPlan_bounds env c (rows, None) 1
           insertionSort_contract Htop).
Defined.

Lemma Part004_queryMetrics_bounds_witness :
  let env := Example.insertionEnv in
  let c :=
    Some (Example.cacheOf 64
            [("61-70-total_elapsed_time", 5); ("62-71-total_elapsed_time", 5)]) in
  let rows :=
    [Example.row "a" "p" "h" "7000" "7"; Example.row "b" "q" "g" "9000" "7"] in
  sort.Slice_contract (Slice env) /\ 0 <= 1 < 2 ^ 64
  /\ exists cache' b errs,
      Part004.recordDatabaseQueryMetrics env c metadata.NewMetricsBuilder
        (rows, None) 1 = Some (cache', b, errs)
      /\ Z.of_nat (List.length (metadata.buffer b)) <= 1
      /\ (List.length (metadata.buffer b)
          <= positiveDeltas
               (snd (Part004.elapsedDiffs c [] (fst (rows, @None queryError)))))%nat.
Proof.
  intros env c rows.
  assert (Htop : 0 <= 1 < 2 ^ 64) by lia.
  split; [exact insertionSort_contract|]. split; [exact Htop|].
  exact (Part004_queryMetrics_bounds env c (rows, None) 1
           insertionSort_contract Htop).
Defined.

(** ** The first scrape *)

Lemma elapsedKey_inj : forall row row' : StringMap,
  elapsedKey row = elapsedKey row' -> rowHashes row = rowHashes row'.
Proof.
  intros row row' H. unfold elapsedKey in H.
  apply counterKey_hex_inj in H. destruct H as (Hq & Hp & _).
  unfold rowHashes. now rewrite Hq, Hp.
Qed.

(** A call on a key that is not stored leaves every other key that is not
    stored that way, and reports the key as not cached. *)
Lemma cacheAndDiff_absent : forall (c : lru.Cache Z) qh ph col v,
  lru.Peek (counterKey qh ph col) c = None ->
  exists c' d,
    cacheAndDiff (Some c) qh ph col v = (Some c', (false, d))
    /\ forall k, k <> counterKey qh ph col ->
                 lru.Peek k c = None -> lru.Peek k c' = None.
Proof.
  intros c qh ph col v Habs.
  destruct (Z.ltb_spec v 0) as [Hneg|Hpos].
  - exists c, 0. split; [now apply cacheAndDiff_negative|auto].
  - rewrite cacheAndDiff_after by assumption. cbv zeta. rewrite Habs.
    eexists; eexists. split; [reflexivity|].
    intros k Hk Hnone.
    destruct (lru.Peek k (fst (lru.Add _ v (fst (lru.Get _ c))))) as [x|]
      eqn:Hpeek; [|reflexivity].
    apply Add_Peek_other in Hpeek; [|exact Hk].
    rewrite Get_Peek in Hpeek. congruence.
Qed.

Lemma Scraper_elapsedDiffs_fresh : forall (rows : list StringMap)
    (c : lru.Cache Z),
  NoDup (map rowHashes rows) ->
  Forall (fun row => lru.Peek (elapsedKey row) c = None) rows ->
  Forall (fun d => d = 0) (snd (Scraper.elapsedDiffs (Some c) rows)).
Proof.
  induction rows as [|row rows IH]; intros c Hdup Hfresh; [constructor|].
  inversion Hdup as [|? ? Hnew Hdup']; subst.
  inversion Hfresh as [|? ? Hrow Hrest]; subst.
  cbn [Scraper.elapsedDiffs].
  destruct (strconv.ParseInt (cell row "total_elapsed_time")) as [v [e|]].
  - specialize (IH c Hdup' Hrest).
    destruct (Scraper.elapsedDiffs (Some c) rows) as [c2 ds].
    cbn [snd] in *. now constructor.
  - destruct (cacheAndDiff_absent c
                (hex.EncodeToString (cell row "query_hash"))
                (hex.EncodeToString (cell row "query_plan_hash"))
                "total_elapsed_time" (Int64.div v 1000) Hrow)
      as (c1 & d & -> & Hothers).
    assert (Hrest1 : Forall (fun row => lru.Peek (elapsedKey row) c1 = None)
                       rows).
    { apply Forall_forall. intros r Hin.
      apply Hothers; [|exact (proj1 (Forall_forall _ _) Hrest r Hin)].
      intros Hsame. apply Hnew. apply elapsedKey_inj in Hsame.
      rewrite <- Hsame. now apply in_map. }
    specialize (IH c1 Hdup' Hrest1).
    destruct (Scraper.elapsedDiffs (Some c1) rows) as [c2 ds].
    cbn [snd andb] in *. now constructor.
Qed.

Lemma Scraper_emitLoop_zeros : forall (env : Env) (topQueryCount : Z)
    (rows : list StringMap) (diffs : list Z) (i : nat) (st : logState),
  Forall (fun d => d = 0) diffs ->
  (i + List.length rows <= List.length diffs)%nat ->
  Scraper.emitLoop env topQueryCount i rows diffs st = Some st.
Proof.
  intros env topQueryCount rows diffs.
  induction rows as [|row rows IH]; intros i st Hzero Hlen;
    cbn [Scraper.emitLoop]; [reflexivity|].
  destruct (intOfUint topQueryCount <=? Z.of_nat i); [reflexivity|].
  cbn [List.length] in Hlen.
  destruct (nth_error diffs i) as [d|] eqn:Hnth.
  2:{ apply nth_error_None in Hnth. lia. }
  apply nth_error_In in Hnth.
  rewrite (proj1 (Forall_forall _ _) Hzero d Hnth). cbn [Z.eqb].
  apply IH; [assumption|lia].
Qed.

(** X16.  The first scrape only fills the cache.  On a cache that holds the
    elapsed time of none of the rows, and rows of pairwise different
    queries (query hash and plan hash), the QueryTextAndPlan mapper of the
    first copy of [scraper.go] emits no record and reports no error of a
    row, whatever [topQueryCount] is. *)
Theorem Scraper_textAndPlan_first_scrape :
  forall (env : Env) (c : lru.Cache Z) (rows : list StringMap)
         (warn : option queryError) (topQueryCount : Z),
    sort.Slice_contract (Slice env) ->
    NoDup (map rowHashes rows) ->
    Forall (fun row => lru.Peek (elapsedKey row) c = None) rows ->
    (forall msg, warn <> Some (HardError msg)) ->
    Scraper.recordDatabaseQueryTextAndPlan env (Some c) (rows, warn)
      topQueryCount
    = Some (fst (Scraper.elapsedDiffs (Some c) rows), ([], None)).
Proof.
  intros env c rows warn topQueryCount Hsort Hdup Hfresh Hwarn.
  unfold Scraper.recordDatabaseQueryTextAndPlan. cbn [fst snd].
  assert (Hrun :
            (let '(cache1, totalElapsedTimeDiffs) :=
               Scraper.elapsedDiffs (Some c) rows in
             match sortRows env rows totalElapsedTimeDiffs with
             | None => None
             | Some rows0 =>
                 match
                   Scraper.emitLoop env topQueryCount 0 rows0
                     (sortDiffs env totalElapsedTimeDiffs)
                     (mkLogState cache1 [] plog.NewLogs)
                 with
                 | None => None
                 | Some st =>
                     Some (ls_cache st, (ls_logs st, errors.Join (ls_errs st)))
                 end
             end)
            = Some (fst (Scraper.elapsedDiffs (Some c) rows),
                    (@nil plog.ResourceLogs, @None (list error)))).
  { pose proof (Scraper_elapsedDiffs_fresh rows c Hdup Hfresh) as Hzero.
    destruct (Scraper_elapsedDiffs_shape rows (Some c)) as [Hlen _].
    destruct (Scraper.elapsedDiffs (Some c) rows) as [cache1 diffs].
    cbn [fst snd] in *.
    rewrite (sortRows_indices env rows diffs) by now rewrite Hlen.
    rewrite Scraper_emitLoop_zeros; [reflexivity| |].
    - eapply Permutation_Forall; [apply sortDiffs_perm, Hsort|exact Hzero].
    - rewrite length_map, sortDiffs_length by assumption.
      rewrite <- (Permutation_length (sortedIndices_perm env Hsort diffs)).
      rewrite length_seq. lia. }
  destruct warn as [[|msg]|]; [exact Hrun| |exact Hrun].
  now destruct (Hwarn msg).
Qed.

Lemma Scraper_textAndPlan_first_scrape_witness :
  let env := Example.insertionEnv in
  let c := Example.cacheOf 64 (@nil (string * Z)) in
  let rows :=
    [Example.row "a" "p" "h" "7000" "7"; Example.row "b" "q" "g" "9000" "7"] in
  sort.Slice_contract (Slice env)
  /\ NoDup (map rowHashes rows)
  /\ Forall (fun row => lru.Peek (elapsedKey row) c = None) rows
  /\ (forall msg, @None queryError <> Some (HardError msg))
  /\ option_map lru.keys (fst (Scraper.elapsedDiffs (Some c) rows))
     = Some ["62-71-total_elapsed_time"; "61-70-total_elapsed_time"]
  /\ Scraper.recordDatabaseQueryTextAndPlan env (Some c) (rows, None) 5
     = Some (fst (Scraper.elapsedDiffs (Some c) rows), ([], None)).
Proof.
  intros env c rows.
  assert (Hdup : NoDup (map rowHashes rows)).
  { repeat constructor; cbn; intuition discriminate. }
  assert (Hfresh : Forall (fun row => lru.Peek (elapsedKey row) c = None) rows)
    by (repeat constructor).
  assert (Hwarn : forall msg, @None queryError <> Some (HardError msg))
    by discriminate.
  split; [exact insertionSort_contract|]. split; [exact Hdup|].
  split; [exact Hfresh|]. split; [exact Hwarn|].
  split; [vm_compute; reflexivity|].
  exact (Scraper_textAndPlan_first_scrape env c rows None 5
           insertionSort_contract Hdup Hfresh Hwarn).
Defined.

(** ** The QueryTextAndPlan mapper of the second copy of [scraper.go] *)

Lemma ScraperF_elapsedDiffs_length : forall (env : Env) (rows : list StringMap)
    (cache : option (lru.Cache float)),
  List.length (snd (ScraperF.elapsedDiffs env cache rows)) = List.length rows.
Proof.
  intros env. induction rows as [|row rows IH]; intros cache;
    cbn [ScraperF.elapsedDiffs]; [reflexivity|].
  destruct (ParseFloat env (cell row "total_elapsed_time")) as [v [e|]].
  - specialize (IH cache).
    destruct (ScraperF.elapsedDiffs env cache rows) as [c2 ds].
    cbn [snd List.length] in *. now rewrite IH.
  - destruct (ScraperF.cacheAndDiff cache _ _ _ _) as [c1 [cached diff]].
    specialize (IH c1).
    destruct (ScraperF.elapsedDiffs env c1 rows) as [c2 ds].
    cbn [snd List.length] in *. now rewrite IH.
Qed.

Lemma ScraperF_emitLoop_bound : forall (env : Env) (topQueryCount : Z)
    (rows : list StringMap) (diffs : list Z) (i : nat) (st : logStateF),
  (i + List.length rows <= List.length diffs)%nat ->
  exists st',
    ScraperF.emitLoop env topQueryCount i rows diffs st = Some st'
    /\ (plog.LogRecordCount (lf_logs st')
        <= plog.LogRecordCount (lf_logs st)
           + List.length (filter nonzero (skipn i diffs)))%nat
    /\ Z.of_nat (plog.LogRecordCount (lf_logs st'))
       <= Z.of_nat (plog.LogRecordCount (lf_logs st))
          + Z.max 0 (intOfUint topQueryCount - Z.of_nat i).
Proof.
  intros env topQueryCount rows.
  induction rows as [|row rows IH]; intros diffs i st Hlen;
    cbn [ScraperF.emitLoop List.length] in *.
  - exists st. split; [reflexivity|]. split; lia.
  - destruct (Z.leb_spec (intOfUint topQueryCount) (Z.of_nat i)) as [Hstop|Hgo].
    + exists st. split; [reflexivity|]. split; lia.
    + destruct (nth_error diffs i) as [d|] eqn:Hnth.
      2:{ apply nth_error_None in Hnth. lia. }
      rewrite (skipn_nth_error _ _ _ _ Hnth). cbn [filter].
      unfold nonzero at 1.
      destruct (Z.eqb_spec d 0) as [Hzero|Hpos]; cbn [negb List.length].
      * destruct (IH diffs (S i) st) as (st' & Hrun & Hcount & Htop); [lia|].
        exists st'. split; [exact Hrun|]. split; lia.
      * destruct (IH diffs (S i) (ScraperF.emitRow env i row d st))
          as (st' & Hrun & Hcount & Htop); [lia|].
        exists st'. split; [exact Hrun|].
        unfold ScraperF.emitRow in Hcount, Htop.
        cbn [lf_logs] in Hcount, Htop.
        rewrite LogRecordCount_append in Hcount, Htop.
        split; lia.
Qed.

(** X17.  The QueryTextAndPlan mapper of the second copy of [scraper.go]
    (the [float64] cache) never indexes [totalElapsedTimeDiffs] out of range,
    and emits at most [topQueryCount] records and at most as many as there
    are rows whose elapsed time delta is not 0. *)
Theorem ScraperF_textAndPlan_bounds :
  forall (env : Env) (cache : option (lru.Cache float))
         (queryRows : list StringMap * option queryError) (topQueryCount : Z),
    sort.Slice_contract (Slice env) ->
    0 <= topQueryCount < 2 ^ 64 ->
    exists cache' logs errs,
      ScraperF.recordDatabaseQueryTextAndPlan env cache queryRows topQueryCount
      = Some (cache', (logs, errs))
      /\ Z.of_nat (plog.LogRecordCount logs) <= topQueryCount
      /\ (plog.LogRecordCount logs
          <= List.length
               (filter nonzero
                  (snd (ScraperF.elapsedDiffs env cache (fst queryRows)))))%nat.
Proof.
  intros env cache [rows warn] topQueryCount Hsort Htop.
  unfold ScraperF.recordDatabaseQueryTextAndPlan. cbn [fst snd].
  assert (Hrun :
            exists cache' logs errs,
              (let '(cache1, totalElapsedTimeDiffs) :=
                 ScraperF.elapsedDiffs env cache rows in
               match sortRows env rows totalElapsedTimeDiffs with
               | None => None
               | Some rows0 =>
                   match
                     ScraperF.emitLoop env topQueryCount 0 rows0
                       (sortDiffs env totalElapsedTimeDiffs)
                       (mkLogStateF cache1 [] plog.NewLogs)
                   with
                   | None => None
                   | Some st =>
                       Some (lf_cache st,
                             (lf_logs st, errors.Join (lf_errs st)))
                   end
               end) = Some (cache', (logs, errs))
              /\ Z.of_nat (plog.LogRecordCount logs) <= topQueryCount
              /\ (plog.LogRecordCount logs
                  <= List.length
                       (filter nonzero
                          (snd (ScraperF.elapsedDiffs env cache rows))))%nat).
  { pose proof (ScraperF_elapsedDiffs_length env rows cache) as Hlen.
    destruct (ScraperF.elapsedDiffs env cache rows) as [cache1 diffs].
    cbn [snd] in *.
    rewrite (sortRows_indices env rows diffs) by now rewrite Hlen.
    destruct (ScraperF_emitLoop_bound env topQueryCount
                (map (fun i => nth i rows []) (sortedIndices env diffs))
                (sortDiffs env diffs) 0 (mkLogStateF cache1 [] plog.NewLogs))
      as (st' & Hloop & Hcount & Hbound).
    { rewrite length_map, sortDiffs_length by assumption.
      rewrite <- (Permutation_length (sortedIndices_perm env Hsort diffs)).
      rewrite length_seq. lia. }
    rewrite Hloop. eexists; eexists; eexists. split; [reflexivity|].
    cbn [lf_logs skipn] in Hcount, Hbound.
    change (plog.LogRecordCount plog.NewLogs) with 0%nat in Hcount, Hbound.
    cbn [lf_logs].
    pose proof (intOfUint_le topQueryCount Htop).
    split; [lia|].
    rewrite (filter_length_perm Z nonzero diffs (sortDiffs env diffs))
      by now apply sortDiffs_perm.
    lia. }
  destruct warn as [[|msg]|]; [exact Hrun| |exact Hrun].
  eexists; eexists; eexists. split; [reflexivity|].
  unfold plog.LogRecordCount. cbn. split; lia.
Qed.

Lemma ScraperF_textAndPlan_bounds_witness :
  let env := Example.insertionEnv in
  let c :=
    Some (Example.cacheOf 64
            [("61-68-total_elapsed_time", 5000%float);
             ("62-67-total_elapsed_time", 5000%float)]) in
  let rows :=
    [Example.row "a" "p" "h" "7000" "7"; Example.row "b" "q" "g" "9000" "7"] in
  sort.Slice_contract (Slice env) /\ 0 <= 1 < 2 ^ 64
  /\ snd (ScraperF.elapsedDiffs env c rows) = [2000; 4000]
  /\ exists cache' logs errs,
      ScraperF.recordDatabaseQueryTextAndPlan env c (rows, None) 1
      = Some (cache', (logs, errs))
      /\ Z.of_nat (plog.LogRecordCount logs) <= 1
      /\ (plog.LogRecordCount logs
          <= List.length
               (filter nonzero
                  (snd (ScraperF.elapsedDiffs env c
                          (fst (rows, @None queryError))))))%nat.
Proof.
  intros env c rows.
  assert (Htop : 0 <= 1 < 2 ^ 64) by lia.
  split; [exact insertionSort_contract|]. split; [exact Htop|].
  split; [vm_compute; reflexivity|].
  exact (ScraperF_textAndPlan_bounds env c (rows, None) 1
           insertionSort_contract Htop).
Defined.

(** ** QuerySamples: which rows are emitted *)

Lemma Add_Peek_stored : forall (V : Type) (c : lru.Cache V) (k : string)
    (v : V) (k' : string),
  lru.Peek k c <> None ->
  (lru.Peek k' (fst (lru.Add k v c)) = None <-> lru.Peek k' c = None).
Proof.
  intros V c k v k' Hk. unfold lru.Add, lru.Peek in *.
  destruct (lru.find k (lru.items c)) as [v0|] eqn:Hf; [|congruence].
  cbn [fst lru.items lru.find].
  destruct (String.eqb_spec k' k) as [->|Hne].
  - rewrite Hf. split; discriminate.
  - rewrite find_remove_other by congruence. reflexivity.
Qed.

Lemma sampleLoop_records : forall (env : Env) (rows : list StringMap)
    (c : lru.Cache float) (logs : plog.Logs),
  plog.records (snd (ScraperF.sampleLoop env rows c logs))
  = List.app (plog.records logs)
      (map (ScraperF.sampleRecord env)
         (filter
            (fun row =>
               match lru.Peek (ScraperF.sampleKey row) c with
               | Some _ => false
               | None => true
               end)
            rows))
  /\ forall k,
       lru.Peek k (fst (ScraperF.sampleLoop env rows c logs)) = None
       <-> lru.Peek k c = None.
Proof.
  intros env. induction rows as [|row rows IH]; intros c logs;
    cbn [ScraperF.sampleLoop filter].
  - cbn. rewrite app_nil_r. split; reflexivity.
  - pose proof (Get_result c (ScraperF.sampleKey row)) as Hres.
    pose proof (Get_Peek c (ScraperF.sampleKey row)) as Hget.
    destruct (lru.Get (ScraperF.sampleKey row) c) as [c1 r].
    cbn [fst snd] in Hres, Hget. subst r.
    assert (Hsame : forall c2 : lru.Cache float,
               (forall k, lru.Peek k c2 = None <-> lru.Peek k c = None) ->
               filter
                 (fun row =>
                    match lru.Peek (ScraperF.sampleKey row) c2 with
                    | Some _ => false
                    | None => true
                    end) rows
               = filter
                   (fun row =>
                      match lru.Peek (ScraperF.sampleKey row) c with
                      | Some _ => false
                      | None => true
                      end) rows).
    { intros c2 Hiff. apply filter_ext. intros r.
      specialize (Hiff (ScraperF.sampleKey r)).
      destruct (lru.Peek (ScraperF.sampleKey r) c2),
               (lru.Peek (ScraperF.sampleKey r) c); try reflexivity.
      - destruct Hiff as [_ H]. specialize (H eq_refl). discriminate.
      - destruct Hiff as [H _]. specialize (H eq_refl). discriminate. }
    destruct (lru.Peek (ScraperF.sampleKey row) c) as [x|] eqn:Hpeek.
    + destruct (IH (fst (lru.Add (ScraperF.sampleKey row) 1%float c1)) logs)
        as [Hrec Hkeys].
      assert (Hiff : forall k,
                 lru.Peek k (fst (lru.Add (ScraperF.sampleKey row) 1%float c1))
                 = None <-> lru.Peek k c = None).
      { intros k. rewrite Add_Peek_stored, Hget; [reflexivity|].
        rewrite Hget, Hpeek. discriminate. }
      split.
      * rewrite Hrec. now rewrite (Hsame _ Hiff).
      * intros k. rewrite Hkeys. apply Hiff.
    + destruct (IH c1 (plog.appendInOwnResource logs
                         (ScraperF.sampleRecord env row)))
        as [Hrec Hkeys].
      assert (Hiff : forall k, lru.Peek k c1 = None <-> lru.Peek k c = None)
        by (intros k; now rewrite Hget).
      split.
      * rewrite Hrec, records_append, <- app_assoc.
        now rewrite (Hsame _ Hiff).
      * intros k. rewrite Hkeys. apply Hiff.
Qed.

(** X18.  Which rows QuerySamples emits.  When the query does not fail, the
    records are, in order, the samples of the rows whose key (hex encoded
    query hash and plan hash) is not in the cache when the scrape starts;
    the scrape stores no key and drops none, so a row is emitted again on
    every scrape, and rows of one scrape with the same key are all
    emitted. *)
Theorem sampleQuery_emits_rows_with_unseen_keys :
  forall (env : Env) (c : lru.Cache float) (rows : list StringMap)
         (warn : option queryError),
    (forall msg, warn <> Some (HardError msg)) ->
    exists c' logs,
      ScraperF.recordDatabaseSampleQuery env (Some c) (rows, warn)
      = Some (Some c', (logs, None))
      /\ plog.records logs
         = map (ScraperF.sampleRecord env)
             (filter
                (fun row =>
                   match lru.Peek (ScraperF.sampleKey row) c with
                   | Some _ => false
                   | None => true
                   end)
                rows)
      /\ forall k, lru.Peek k c' = None <-> lru.Peek k c = None.
Proof.
  intros env c rows warn Hwarn.
  assert (Hrun : exists c' logs,
             match rows with
             | [] => Some (Some c, (plog.NewLogs, errors.Join []))
             | _ :: _ =>
                 let '(c1, logs) :=
                   ScraperF.sampleLoop env rows c plog.NewLogs in
                 Some (Some c1, (logs, errors.Join []))
             end = Some (Some c', (logs, None))
             /\ plog.records logs
                = map (ScraperF.sampleRecord env)
                    (filter
                       (fun row =>
                          match lru.Peek (ScraperF.sampleKey row) c with
                          | Some _ => false
                          | None => true
                          end)
                       rows)
             /\ forall k, lru.Peek k c' = None <-> lru.Peek k c = None).
  { destruct rows as [|row rows].
    - exists c, plog.NewLogs. repeat split; auto.
    - destruct (sampleLoop_records env (row :: rows) c plog.NewLogs)
        as [Hrec Hkeys].
      destruct (ScraperF.sampleLoop env (row :: rows) c plog.NewLogs)
        as [c1 logs].
      exists c1, logs. split; [reflexivity|]. split; [exact Hrec|exact Hkeys]. }
  unfold ScraperF.recordDatabaseSampleQuery. cbn [fst snd].
  destruct warn as [[|msg]|].
  - destruct rows; exact Hrun.
  - now destruct (Hwarn msg).
  - destruct rows; exact Hrun.
Qed.

Lemma sampleQuery_emits_rows_with_unseen_keys_witness :
  let env := Example.insertionEnv in
  let c := Example.cacheOf 8 [("61-70", 1%float)] in
  let rows :=
    [Example.row "a" "p" "h" "5000" "7"; Example.row "b" "q" "g" "5000" "7";
     Example.row "b" "q" "g" "6000" "7"] in
  (forall msg, @None queryError <> Some (HardError msg))
  /\ map ScraperF.sampleKey rows = ["61-70"; "62-71"; "62-71"]
  /\ exists c' logs,
      ScraperF.recordDatabaseSampleQuery env (Some c) (rows, None)
      = Some (Some c', (logs, None))
      /\ plog.records logs
         = map (ScraperF.sampleRecord env)
             (filter
                (fun row =>
                   match lru.Peek (ScraperF.sampleKey row) c with
                   | Some _ => false
                   | None => true
                   end)
                rows)
      /\ forall k, lru.Peek k c' = None <-> lru.Peek k c = None.
Proof.
  intros env c rows.
  assert (Hwarn : forall msg, @None queryError <> Some (HardError msg))
    by discriminate.
  split; [exact Hwarn|]. split; [reflexivity|].
  exact (sampleQuery_emits_rows_with_unseen_keys env c rows None Hwarn).
Defined.

(** ** [part_004]: the ranking loop and the records of QueryTextAndPlan *)

(** X21.  The ranking loop of [part_004] (lines 505-521, and 362-376 in
    QueryMetrics) ranks as the loop of the first copy of [scraper.go] (lines
    359-372) does: on the same cache and rows both leave the same cache and
    the same deltas.  The loop of [part_004] also collects the errors of the
    elapsed times that do not parse, in row order; the loop of [scraper.go]
    drops them. *)
Theorem elapsedDiffs_revisions_agree :
  forall (rows : list StringMap) (cache : option (lru.Cache Z))
         (errs : list error),
    Part004.elapsedDiffs cache errs rows
    = (fst (Scraper.elapsedDiffs cache rows),
       List.app errs (elapsedParseErrors rows),
       snd (Scraper.elapsedDiffs cache rows)).
Proof.
  induction rows as [|row rows IH]; intros cache errs;
    cbn [Part004.elapsedDiffs Scraper.elapsedDiffs elapsedParseErrors flat_map].
  - now rewrite app_nil_r.
  - fold (elapsedParseErrors rows).
    destruct (strconv.ParseInt (cell row "total_elapsed_time")) as [v [e|]];
      cbn [snd].
    + rewrite IH. destruct (Scraper.elapsedDiffs cache rows) as [c2 ds].
      cbn [fst snd]. now rewrite <- app_assoc.
    + destruct (cacheAndDiff cache _ _ _ _) as [c1 [cached diff]].
      rewrite IH. destruct (Scraper.elapsedDiffs c1 rows) as [c2 ds].
      reflexivity.
Qed.




(** ** [vaultprovider.extractKey] *)

Lemma substring_all : forall s : string,
  String.substring 0 (String.length s) s = s.
Proof. induction s as [|c s IH]; cbn; [reflexivity|now rewrite IH]. Qed.

Lemma substring_app_head : forall a b : string,
  String.substring 0 (String.length a) (a ++ b) = a.
Proof.
  induction a as [|c a IH]; intros b; cbn.
  - now destruct b.
  - now rewrite IH.
Qed.

Lemma substring_app_tail : forall (a b : string) (m : nat),
  String.substring (String.length a) m (a ++ b) = String.substring 0 m b.
Proof. induction a as [|c a IH]; intros b m; cbn; [reflexivity|apply IH]. Qed.

Lemma length_app_string : forall a b : string,
  String.length (a ++ b) = (String.length a + String.length b)%nat.
Proof. induction a as [|c a IH]; intros b; cbn; [reflexivity|now rewrite IH]. Qed.

Lemma append_assoc_string : forall a b c : string,
  (a ++ b) ++ c = a ++ (b ++ c).
Proof. induction a as [|x a IH]; intros b c; cbn; [reflexivity|now rewrite IH]. Qed.

Lemma prefix_colon : forall (c : ascii) (s : string),
  String.prefix ":" (String c s) = Ascii.eqb ":" c.
Proof.
  intros c s. rewrite prefix_cons, prefix_empty. apply andb_true_r.
Qed.

Lemma lastIndexFrom_none : forall (s : string) (pos : nat),
  noColon s -> vaultprovider.lastIndexFrom ":" s pos = -1.
Proof.
  induction s as [|c s IH]; intros pos Hs; [reflexivity|].
  cbn [vaultprovider.lastIndexFrom].
  rewrite IH by (intros Hin; apply Hs; now right).
  cbn [Z.leb Z.compare]. rewrite prefix_colon.
  destruct (Ascii.eqb_spec ":" c) as [<-|_]; [|reflexivity].
  exfalso. apply Hs. now left.
Qed.

Lemma lastIndexFrom_last : forall (path key : string) (pos : nat),
  noColon key ->
  vaultprovider.lastIndexFrom ":" (path ++ String ":" key) pos
  = Z.of_nat (pos + String.length path).
Proof.
  induction path as [|c path IH]; intros key pos Hkey.
  - cbn [append vaultprovider.lastIndexFrom String.length].
    rewrite lastIndexFrom_none by assumption.
    cbn [Z.leb Z.compare]. rewrite prefix_colon, Ascii.eqb_refl.
    f_equal. lia.
  - cbn [append vaultprovider.lastIndexFrom String.length].
    rewrite IH by assumption.
    destruct (Z.leb_spec 0 (Z.of_nat (S pos + String.length path))); lia.
Qed.

Lemma lastIndexFrom_range : forall (s : string) (pos : nat),
  vaultprovider.lastIndexFrom ":" s pos = -1
  \/ Z.of_nat pos <= vaultprovider.lastIndexFrom ":" s pos.
Proof.
  induction s as [|c s IH]; intros pos; [now left|].
  cbn [vaultprovider.lastIndexFrom].
  destruct (Z.leb_spec 0 (vaultprovider.lastIndexFrom ":" s (S pos))).
  - destruct (IH (S pos)); [lia|right; lia].
  - destruct (String.prefix ":" (String c s)); [right; lia|now left].
Qed.

Lemma lastIndexFrom_none_inv : forall (s : string) (pos : nat),
  vaultprovider.lastIndexFrom ":" s pos = -1 -> noColon s.
Proof.
  induction s as [|c s IH]; intros pos H; [intros []|].
  cbn [vaultprovider.lastIndexFrom] in H.
  destruct (Z.leb_spec 0 (vaultprovider.lastIndexFrom ":" s (S pos)))
    as [Hle|Hlt]; [lia|].
  rewrite prefix_colon in H.
  destruct (Ascii.eqb_spec ":" c) as [<-|Hne]; [lia|].
  intros [Heq|Hin]; [congruence|].
  apply (IH (S pos)); [|exact Hin].
  destruct (lastIndexFrom_range s (S pos)); lia.
Qed.

(** What a result of [lastIndexFrom] other than -1 says. *)
Lemma lastIndexFrom_found : forall (s : string) (pos : nat),
  vaultprovider.lastIndexFrom ":" s pos = -1
  \/ exists path key,
       s = path ++ String ":" key /\ noColon key
       /\ vaultprovider.lastIndexFrom ":" s pos
          = Z.of_nat (pos + String.length path).
Proof.
  induction s as [|c s IH]; intros pos; [now left|].
  cbn [vaultprovider.lastIndexFrom].
  destruct (IH (S pos)) as [Hnone|(path & key & -> & Hkey & Hidx)].
  - rewrite Hnone. cbn [Z.leb Z.compare]. rewrite prefix_colon.
    destruct (Ascii.eqb_spec ":" c) as [<-|_]; [|now left].
    right. exists "", s. split; [reflexivity|].
    split; [now apply (lastIndexFrom_none_inv s (S pos))|].
    cbn [String.length]. f_equal. lia.
  - right. exists (String c path), key. split; [reflexivity|].
    split; [exact Hkey|]. rewrite Hidx.
    destruct (Z.leb_spec 0 (Z.of_nat (S pos + String.length path))); [|lia].
    cbn [String.length]. f_equal. lia.
Qed.

Lemma slice_all_from : forall (a b : string),
  vaultprovider.slice (a ++ b) (vaultprovider.len a) (vaultprovider.len (a ++ b))
  = Some b.
Proof.
  intros a b. unfold vaultprovider.slice, vaultprovider.len.
  rewrite length_app_string.
  destruct (Z.leb_spec 0 (Z.of_nat (String.length a))); [|lia].
  destruct (Z.leb_spec (Z.of_nat (String.length a))
              (Z.of_nat (String.length a + String.length b))); [|lia].
  destruct (Z.leb_spec (Z.of_nat (String.length a + String.length b))
              (Z.of_nat (String.length a + String.length b))); [|lia].
  cbn [andb]. rewrite Nat2Z.id.
  replace (Z.to_nat (Z.of_nat (String.length a + String.length b)
                     - Z.of_nat (String.length a)))
    with (String.length b) by lia.
  now rewrite substring_app_tail, substring_all.
Qed.

Lemma slice_head : forall (a b : string),
  vaultprovider.slice (a ++ b) 0 (vaultprovider.len a) = Some a.
Proof.
  intros a b. unfold vaultprovider.slice, vaultprovider.len.
  rewrite length_app_string.
  destruct (Z.leb_spec 0 (Z.of_nat (String.length a))); [|lia].
  destruct (Z.leb_spec (Z.of_nat (String.length a))
              (Z.of_nat (String.length a + String.length b))); [|lia].
  cbn [andb Z.leb Z.compare Z.to_nat]. rewrite Z.sub_0_r, Nat2Z.id.
  now rewrite substring_app_head.
Qed.

Lemma slice_negative : forall (s : string) (hi : Z),
  hi < 0 -> vaultprovider.slice s 0 hi = None.
Proof.
  intros s hi H. unfold vaultprovider.slice.
  destruct (Z.leb_spec 0 hi); [lia|]. reflexivity.
Qed.

Lemma prefix_split : forall p s : string,
  String.prefix p s = true -> exists rest, s = p ++ rest.
Proof.
  induction p as [|a p IH]; intros s H; [now exists s|].
  destruct s as [|c s]; [cbn in H; discriminate H|].
  rewrite prefix_cons in H. apply andb_true_iff in H. destruct H as [Hac H].
  apply Ascii.eqb_eq in Hac. subst c.
  destruct (IH s H) as [rest ->]. now exists rest.
Qed.

(** [extractKey] on a URI with the scheme, by the last [":"] of the rest. *)
Lemma extractKey_with_scheme : forall rest : string,
  vaultprovider.extractKey ("vault:" ++ rest)
  = let indexOfKeyPart := vaultprovider.LastIndex rest ":" in
    match vaultprovider.slice rest 0 indexOfKeyPart with
    | None => None
    | Some path =>
        match
          vaultprovider.slice rest (indexOfKeyPart + 1) (vaultprovider.len rest)
        with
        | None => None
        | Some key => Some (path, key, None)
        end
    end.
Proof.
  intros rest. unfold vaultprovider.extractKey, strings.HasPrefix.
  change (vaultprovider.schemeName ++ ":") with "vault:".
  rewrite (prefix_app "vault:" "vault:" rest) by reflexivity.
  cbn [negb]. rewrite (slice_all_from "vault:" rest). reflexivity.
Qed.

(** X19.  [extractKey] takes a vault URI apart at its last [":"]: it returns
    a path and a key without an error exactly for the URIs
    [vault:<path>:<key>] where [key] holds no [":"], and then it returns that
    path and that key. *)
Theorem extractKey_round_trip :
  forall uri path key : string,
    vaultprovider.extractKey uri = Some (path, key, None)
    <-> uri = "vault:" ++ path ++ ":" ++ key /\ noColon key.
Proof.
  intros uri path key. split.
  - unfold vaultprovider.extractKey.
    destruct (String.eqb uri ""); [discriminate|].
    destruct (strings.HasPrefix uri (vaultprovider.schemeName ++ ":"))
      eqn:Hpre; [|discriminate].
    unfold strings.HasPrefix in Hpre. apply prefix_split in Hpre.
    destruct Hpre as [rest ->].
    change (vaultprovider.schemeName ++ ":") with "vault:".
    cbn [negb]. rewrite (slice_all_from "vault:" rest).
    unfold vaultprovider.LastIndex.
    destruct (lastIndexFrom_found rest 0)
      as [->|(p & k & -> & Hk & ->)].
    + now rewrite slice_negative by lia.
    + cbn [Nat.add].
      change (Z.of_nat (String.length p)) with (vaultprovider.len p).
      rewrite slice_head.
      replace (vaultprovider.len p + 1) with (vaultprovider.len (p ++ ":"))
        by (unfold vaultprovider.len; rewrite length_app_string; cbn; lia).
      replace (p ++ String ":" k) with ((p ++ ":") ++ k)
        by apply append_assoc_string.
      rewrite slice_all_from. intros [= <- <-].
      split; [|exact Hk]. now rewrite append_assoc_string.
  - intros [-> Hkey]. rewrite extractKey_with_scheme. cbv zeta.
    unfold vaultprovider.LastIndex.
    change (":" ++ key) with (String ":" key).
    rewrite lastIndexFrom_last by assumption. cbn [Nat.add].
    change (Z.of_nat (String.length path)) with (vaultprovider.len path).
    rewrite slice_head.
    replace (vaultprovider.len path + 1)
      with (vaultprovider.len (path ++ ":"))
      by (unfold vaultprovider.len; rewrite length_app_string; cbn; lia).
    replace (path ++ String ":" key) with ((path ++ ":") ++ key)
      by apply append_assoc_string.
    now rewrite slice_all_from.
Qed.

(** X20.  The other outcomes of [extractKey]: the empty URI and a URI that
    does not start with [vault:] give the two errors with empty strings; a
    URI [vault:<rest>] whose rest holds no [":"] is a slice out of range
    ([withoutScheme[0:-1]]), a run-time panic. *)
Theorem extractKey_errors_and_panic :
  forall uri : string,
    (uri = "" ->
     vaultprovider.extractKey uri
     = Some ("", "", Some vaultprovider.emptyUriError))
    /\ (uri <> "" -> String.prefix "vault:" uri = false ->
        vaultprovider.extractKey uri
        = Some ("", "", Some vaultprovider.invalidSchemeError))
    /\ (forall rest, uri = "vault:" ++ rest -> noColon rest ->
        vaultprovider.extractKey uri = None).
Proof.
  intros uri. split; [|split].
  - intros ->. reflexivity.
  - intros Hne Hpre. unfold vaultprovider.extractKey, strings.HasPrefix.
    apply String.eqb_neq in Hne. rewrite Hne.
    change (vaultprovider.schemeName ++ ":") with "vault:".
    now rewrite Hpre.
  - intros rest -> Hrest. rewrite extractKey_with_scheme. cbv zeta.
    unfold vaultprovider.LastIndex.
    rewrite lastIndexFrom_none by assumption.
    now rewrite slice_negative by lia.
Qed.
